(** * Encrypted inventory handler: a shallow embedding

    This development embeds the Lambda handler of the inventory service
    (the AES-256-CBC variant and the earlier plain-text variant of
    [lambda/handler.ts]) and its token authorizer, and states the
    service's properties over them.

    Conventions
    - A JavaScript string is a sequence of UTF-16 code units. It is
      modelled by the bytes ([string]) of its generalised UTF-8 form:
      UTF-8, with a lone surrogate written in the three bytes
      ED A0..BF 80..BF that the scheme of UTF-8 gives it. Every
      JavaScript string has one such form; [Text.valid] holds of the
      strings without lone surrogate, whose form is their UTF-8
      encoding. [Text.encode] is the UTF-8 encoding that [Buffer] and
      [crypto] apply to a string (a lone surrogate becomes U+FFFD),
      [Text.decode] is [buf.toString()] (ill-formed bytes become U+FFFD)
      and [Text.code_units] gives the code units, on which [includes]
      works. [split(':')], [startsWith('Bearer ')], [slice(7)], hex
      decoding and [===] act on the bytes, where they agree with their
      action on code units.
    - A [Buffer] is a [list byte].
    - A JavaScript number is an IEEE-754 double ([float]).
    - Exceptions are explicit: effectful code runs in a small state and
      exception monad whose state survives a [throw], as in JavaScript.
    - The AES block transformation, [Number(_)] on strings and
      [String(_)] on numbers come from the runtime and are taken as
      parameters ([Runtime]); CBC chaining, PKCS#7 padding, hex coding,
      UTF-8 coding and the colon-separated wire form are modelled
      concretely.
    - DynamoDB is a table with the four calls the handlers make. How the
      backend answers a call (it serves it, or fails it with an error
      code, before or after a write was applied) and how many rows fit
      in the first page of a scan are inputs of an invocation ([Env]). *)

From Stdlib Require Import String Ascii Strings.Byte List NArith Bool Lia.
From Stdlib Require Import Floats.PrimFloat.
From stdpp Require Import gmap strings list fin_maps.

Local Open Scope string_scope.
Local Open Scope list_scope.
Local Open Scope stdpp_scope.
Local Set Warnings "-register-all".

(** * The embedding *)

(** ** Buffers and hexadecimal coding *)

Module Hex.

(** One lowercase hexadecimal digit, as [Buffer.prototype.toString('hex')]
    prints it. *)
Definition hex_digit (n : N) : ascii :=
  match n with
  | 0%N => "0" | 1%N => "1" | 2%N => "2" | 3%N => "3"
  | 4%N => "4" | 5%N => "5" | 6%N => "6" | 7%N => "7"
  | 8%N => "8" | 9%N => "9" | 10%N => "a" | 11%N => "b"
  | 12%N => "c" | 13%N => "d" | 14%N => "e" | _ => "f"
  end%char.

Definition hex_of_byte (b : byte) : string :=
  let n := Byte.to_N b in
  String (hex_digit (n / 16)) (String (hex_digit (n mod 16)) EmptyString).

Arguments hex_of_byte : simpl never.

(** [buf.toString('hex')] *)
Fixpoint encode (buf : list byte) : string :=
  match buf with
  | [] => EmptyString
  | b :: rest => hex_of_byte b +:+ encode rest
  end.

(** The value of a hexadecimal digit; both cases are accepted when
    decoding. *)
Definition hex_value (c : ascii) : option N :=
  let n := N_of_ascii c in
  if ((48 <=? n) && (n <=? 57))%N then Some (n - 48)%N
  else if ((97 <=? n) && (n <=? 102))%N then Some (n - 87)%N
  else if ((65 <=? n) && (n <=? 70))%N then Some (n - 55)%N
  else None.

Definition byte_of_nibbles (h l : N) : byte :=
  byte_of_ascii (ascii_of_N (16 * h + l)).

(** [Buffer.from(s, 'hex')]: pairs of digits are decoded from the left;
    decoding stops silently at the first pair that is not hexadecimal,
    and a trailing single character is dropped. It never throws. *)
Fixpoint decode (s : string) : list byte :=
  match s with
  | String c1 (String c2 rest) =>
      match hex_value c1, hex_value c2 with
      | Some h, Some l => byte_of_nibbles h l :: decode rest
      | _, _ => []
      end
  | _ => []
  end.

(** Lowercase hexadecimal digits only: the alphabet of [encode]. *)
Definition is_lower_hex (c : ascii) : bool :=
  let n := N_of_ascii c in
  (((48 <=? n) && (n <=? 57)) || ((97 <=? n) && (n <=? 102)))%N.

Fixpoint all_lower_hex (s : string) : bool :=
  match s with
  | EmptyString => true
  | String c rest => is_lower_hex c && all_lower_hex rest
  end.

End Hex.

(** ** Strings, their code units and their UTF-8 coding *)

Module Text.

Definition between (lo hi : nat) (b : byte) : bool :=
  (lo <=? Byte.to_nat b)%nat && (Byte.to_nat b <=? hi)%nat.

(** A continuation byte, 80..BF. *)
Definition continuation (b : byte) : bool := between 128 191 b.

(** The second byte that a lead byte of a three- or four-byte sequence
    admits: A0..BF after E0 (no overlong form), 80..9F after ED (no
    surrogate), 90..BF after F0 (no overlong form), 80..8F after F4
    (nothing above U+10FFFF), any continuation byte otherwise. *)
Definition second (lead b : byte) : bool :=
  if Nat.eqb (Byte.to_nat lead) 224 then between 160 191 b
  else if Nat.eqb (Byte.to_nat lead) 237 then between 128 159 b
  else if Nat.eqb (Byte.to_nat lead) 240 then between 144 191 b
  else if Nat.eqb (Byte.to_nat lead) 244 then between 128 143 b
  else continuation b.

(** U+FFFD, the replacement character. *)
Definition REPLACEMENT : list byte := [xef; xbf; xbd].

(** Well-formed UTF-8: the text has no lone surrogate. *)
Fixpoint valid (text : list byte) : bool :=
  match text with
  | [] => true
  | b :: rest =>
      if between 0 127 b then valid rest
      else if between 194 223 b then
        match rest with
        | c1 :: rest1 => continuation c1 && valid rest1
        | [] => false
        end
      else if between 224 239 b then
        match rest with
        | c1 :: c2 :: rest2 => second b c1 && continuation c2 && valid rest2
        | _ => false
        end
      else if between 240 244 b then
        match rest with
        | c1 :: c2 :: c3 :: rest3 =>
            second b c1 && continuation c2 && continuation c3 && valid rest3
        | _ => false
        end
      else false
  end.

(** The UTF-8 bytes of a string, as [cipher.update(text)] takes them: a
    lone surrogate (ED A0..BF 80..BF in the string's bytes) is replaced
    by U+FFFD. *)
Fixpoint encode (text : list byte) : list byte :=
  match text with
  | [] => []
  | b :: rest =>
      match rest with
      | c1 :: c2 :: rest2 =>
          if Nat.eqb (Byte.to_nat b) 237 && between 160 191 c1
             && continuation c2
          then REPLACEMENT ++ encode rest2
          else b :: encode rest
      | _ => b :: encode rest
      end
  end.

(** [buf.toString()]: the bytes are decoded as UTF-8, and every maximal
    part of an ill-formed sequence is replaced by U+FFFD. *)
Fixpoint decode (buf : list byte) : list byte :=
  match buf with
  | [] => []
  | b :: rest =>
      if between 0 127 b then b :: decode rest
      else if between 194 223 b then
        match rest with
        | c1 :: rest1 =>
            if continuation c1 then b :: c1 :: decode rest1
            else REPLACEMENT ++ decode rest
        | [] => REPLACEMENT
        end
      else if between 224 239 b then
        match rest with
        | c1 :: rest1 =>
            if second b c1 then
              match rest1 with
              | c2 :: rest2 =>
                  if continuation c2 then b :: c1 :: c2 :: decode rest2
                  else REPLACEMENT ++ decode rest1
              | [] => REPLACEMENT
              end
            else REPLACEMENT ++ decode rest
        | [] => REPLACEMENT
        end
      else if between 240 244 b then
        match rest with
        | c1 :: rest1 =>
            if second b c1 then
              match rest1 with
              | c2 :: rest2 =>
                  if continuation c2 then
                    match rest2 with
                    | c3 :: rest3 =>
                        if continuation c3
                        then b :: c1 :: c2 :: c3 :: decode rest3
                        else REPLACEMENT ++ decode rest2
                    | [] => REPLACEMENT
                    end
                  else REPLACEMENT ++ decode rest1
              | [] => REPLACEMENT
              end
            else REPLACEMENT ++ decode rest
        | [] => REPLACEMENT
        end
      else REPLACEMENT ++ decode rest
  end.

(** A string without lone surrogate. *)
Definition well_formed (s : string) : bool := valid (list_byte_of_string s).

(** A string as it comes back from its UTF-8 encoding. *)
Definition recovered (s : string) : string :=
  string_of_list_byte (decode (encode (list_byte_of_string s))).

(** The UTF-16 code units of a string: one for a sequence of one, two or
    three bytes (a lone surrogate among them), the two surrogates of the
    pair for a sequence of four bytes. *)
Fixpoint code_units (text : list byte) : list N :=
  match text with
  | [] => []
  | b :: rest =>
      let n := Byte.to_N b in
      if between 194 223 b then
        match rest with
        | c1 :: rest1 =>
            if continuation c1
            then ((n - 192) * 64 + (Byte.to_N c1 - 128))%N :: code_units rest1
            else n :: code_units rest
        | [] => [n]
        end
      else if between 224 239 b then
        match rest with
        | c1 :: c2 :: rest2 =>
            if continuation c1 && continuation c2
            then ((n - 224) * 4096 + (Byte.to_N c1 - 128) * 64
                  + (Byte.to_N c2 - 128))%N :: code_units rest2
            else n :: code_units rest
        | _ => n :: code_units rest
        end
      else if between 240 244 b then
        match rest with
        | c1 :: c2 :: c3 :: rest3 =>
            if continuation c1 && continuation c2 && continuation c3
            then
              let point :=
                ((n - 240) * 262144 + (Byte.to_N c1 - 128) * 4096
                 + (Byte.to_N c2 - 128) * 64 + (Byte.to_N c3 - 128))%N in
              (55296 + (point - 65536) / 1024)%N
                :: (56320 + (point - 65536) mod 1024)%N :: code_units rest3
            else n :: code_units rest
        | _ => n :: code_units rest
        end
      else n :: code_units rest
  end.

(** [l] starts with [p]. *)
Fixpoint starts_with (p l : list N) : bool :=
  match p, l with
  | [], _ => true
  | x :: p', y :: l' => N.eqb x y && starts_with p' l'
  | _ :: _, [] => false
  end.

(** [sub] occurs in [l] as a contiguous run. *)
Fixpoint occurs (sub l : list N) : bool :=
  starts_with sub l ||
  match l with
  | [] => false
  | _ :: rest => occurs sub rest
  end.

End Text.

(** ** String operations of the JavaScript runtime used by the handler *)

Module Str.

(** [s.split(sep)] for a one-character separator. The result is never
    empty: a string without the separator is returned as its only
    element, the empty string included. *)
Fixpoint split (sep : ascii) (s : string) : list string :=
  match s with
  | EmptyString => [EmptyString]
  | String c rest =>
      if Ascii.eqb c sep then EmptyString :: split sep rest
      else match split sep rest with
           | seg :: segs => String c seg :: segs
           | [] => [String c EmptyString]
           end
  end.

(** [parts.join(sep)] *)
Fixpoint join (sep : string) (parts : list string) : string :=
  match parts with
  | [] => EmptyString
  | [p] => p
  | p :: rest => p +:+ sep +:+ join sep rest
  end.

(** [s.includes(sub)]: the code units of [sub] occur in those of [s] as
    a contiguous run. *)
Definition includes (sub s : string) : bool :=
  Text.occurs (Text.code_units (list_byte_of_string sub))
    (Text.code_units (list_byte_of_string s)).

Fixpoint mem (c : ascii) (s : string) : bool :=
  match s with
  | EmptyString => false
  | String d rest => Ascii.eqb d c || mem c rest
  end.

End Str.

(** ** JavaScript values *)

(** What [JSON.parse] can return, plus [undefined] (the value of a
    destructured property that is absent). Objects keep their properties
    in insertion order; property names are distinct. *)
Inductive JsValue : Type :=
| JUndefined
| JNull
| JBool (b : bool)
| JNum (n : float)
| JStr (s : string)
| JArray (elems : list JsValue)
| JObject (props : list (string * JsValue)).

(** The parts of the platform that the handler calls and that are not
    modelled further: the AES-256 block transformation of the [crypto]
    module with its inversion law, and the conversions between numbers
    and strings. *)
Class Runtime : Type := {
  aes256_encrypt_block : list byte -> list byte -> list byte;
  aes256_decrypt_block : list byte -> list byte -> list byte;
  aes256_encrypt_length : forall key blk,
    length key = 32 -> length blk = 16 ->
    length (aes256_encrypt_block key blk) = 16;
  aes256_decrypt_encrypt : forall key blk,
    length key = 32 -> length blk = 16 ->
    aes256_decrypt_block key (aes256_encrypt_block key blk) = blk;
  (** [String(n)] for a number [n] *)
  string_of_number : float -> string;
  (** [Number(s)] for a string [s]; it never throws ([NaN] on garbage) *)
  number_of_string : string -> float
}.

(** ** Exceptions and the handler monad *)

Inductive Exn : Type :=
| TypeError (msg : string)
| SyntaxError (msg : string)
| CryptoError (code : string)
| AwsError (code : string).

(** [(error as any).code] *)
Definition exn_code (e : Exn) : option string :=
  match e with
  | CryptoError c | AwsError c => Some c
  | TypeError _ | SyntaxError _ => None
  end.

Inductive Res (A : Type) : Type :=
| Ok (a : A)
| Throw (e : Exn).
Arguments Ok {A} a.
Arguments Throw {A} e.

(** A computation reads and writes a state [S] and returns or throws;
    the state reached at a [throw] is kept. *)
Definition M (S A : Type) : Type := S -> Res A * S.

Definition ret {S A} (a : A) : M S A := fun s => (Ok a, s).
Definition throw {S A} (e : Exn) : M S A := fun s => (Throw e, s).
Definition bind {S A B} (m : M S A) (k : A -> M S B) : M S B :=
  fun s => match m s with
           | (Ok a, s') => k a s'
           | (Throw e, s') => (Throw e, s')
           end.
(** [try { m } catch (error) { h error }] *)
Definition try_catch {S A} (m : M S A) (h : Exn -> M S A) : M S A :=
  fun s => match m s with
           | (Ok a, s') => (Ok a, s')
           | (Throw e, s') => h e s'
           end.
Definition lift {S A} (r : Res A) : M S A := fun s => (r, s).
Definition get_state {S} : M S S := fun s => (Ok s, s).

Notation "'let*' x ':=' m 'in' k" := (bind m (fun x => k))
  (at level 10, x name, m at level 100, k at level 200).

(** ** Conversions and property access *)

Module Js.

(** ToBoolean: the truthiness test of [if (v)] and [!v]. *)
Definition truthy (v : JsValue) : bool :=
  match v with
  | JUndefined | JNull => false
  | JBool b => b
  | JNum n => negb (PrimFloat.eqb n 0%float || negb (PrimFloat.eqb n n))
  | JStr s => negb (String.eqb s EmptyString)
  | JArray _ | JObject _ => true
  end.

(** [v !== undefined] *)
Definition defined (v : JsValue) : bool :=
  match v with
  | JUndefined => false
  | _ => true
  end.

(** [obj.hasOwnProperty(key)] *)
Definition has_own (key : string) (props : list (string * JsValue)) : bool :=
  existsb (fun kv => String.eqb (fst kv) key) props.

(** [String(v)]. On an object the conversion calls its [toString]: an
    object that [JSON.parse] made has the one of [Object.prototype]
    unless it has a property of that name of its own, and then it has
    nothing callable that returns a primitive ([valueOf] returns the
    object), so the conversion throws. An array joins the strings of its
    elements, [null] and [undefined] counting as empty. *)
Fixpoint to_string `{Runtime} (v : JsValue) : Res string :=
  match v with
  | JUndefined => Ok "undefined"
  | JNull => Ok "null"
  | JBool true => Ok "true"
  | JBool false => Ok "false"
  | JNum n => Ok (string_of_number n)
  | JStr s => Ok s
  | JArray elems =>
      match
        (fix each (l : list JsValue) : Res (list string) :=
           match l with
           | [] => Ok []
           | x :: rest =>
               match
                 match x with
                 | JUndefined | JNull => Ok EmptyString
                 | _ => to_string x
                 end
               with
               | Throw e => Throw e
               | Ok s =>
                   match each rest with
                   | Throw e => Throw e
                   | Ok ss => Ok (s :: ss)
                   end
               end
           end) elems
      with
      | Throw e => Throw e
      | Ok parts => Ok (Str.join "," parts)
      end
  | JObject props =>
      if has_own "toString" props
      then Throw (TypeError "Cannot convert object to primitive value")
      else Ok "[object Object]"
  end.

(** Property lookup [obj.key] on the result of [JSON.parse], as the
    destructuring [const { name, stock, price } = value] performs it.
    Only [null] and [undefined] cannot be destructured; numbers,
    booleans, strings and arrays have none of the three properties. *)
Fixpoint lookup_prop (key : string) (props : list (string * JsValue)) : JsValue :=
  match props with
  | [] => JUndefined
  | (k, v) :: rest => if String.eqb k key then v else lookup_prop key rest
  end.

Definition get (key : string) (v : JsValue) : option JsValue :=
  match v with
  | JUndefined | JNull => None
  | JObject props => Some (lookup_prop key props)
  | _ => Some JUndefined
  end.

End Js.

(** ** Process configuration, per-invocation inputs and state *)

(** A stored row: attribute name to value. The table maps the partition
    key [id] to its row. *)
Abbreviation Item := (gmap string JsValue).
Abbreviation Table := (gmap string Item).

(** [process.env.AES_SECRET_KEY], already checked at module load to be a
    64-character string. *)
Record Config : Type := { secretKey : string }.

(** [!secretKey || secretKey.length !== 64] makes module loading throw. *)
Definition module_loads (cfg : Config) : bool :=
  Nat.eqb (String.length (secretKey cfg)) 64.

(** A call to DynamoDB, with the parameters on which its acceptance
    depends: the item of a put, the key and the expression of an update,
    the key of a delete. A scan carries the table name and, in the
    earlier handler, a [contains] filter whose operand is a non-empty
    string: it is well formed whatever the operand is. *)
Inductive Request : Type :=
| PutRequest (item : Item)
| ScanRequest
| UpdateRequest (id : string) (clauses : list string)
    (names : gmap string string) (values : gmap string JsValue)
| DeleteRequest (id : string).

(** A call that the backend does not serve: the [code] of the error the
    SDK throws, and whether the write of the call had been applied when
    the failure surfaced (a time-out after the write persisted, say). *)
Record Failure : Type := {
  code : string;
  persisted : bool
}.

(** What one invocation receives from outside the program: the bytes
    [crypto.randomBytes] will hand out, the identifier [uuidv4()] will
    return, how the backend answers a call ([None] when it serves it; it
    may refuse a call for what it carries, a number outside DynamoDB's
    range or an item that is too large, or fail for reasons of its own),
    and how many of the rows of the table, in scan order, the first page
    of a scan holds (a page holds at most 1 MB). *)
Record Env : Type := {
  entropy : nat -> byte;
  uuid : string;
  fault : Request -> option Failure;
  page : list Item -> nat
}.

(** The table, the number of random bytes handed out so far and the
    number of DynamoDB calls made so far in the invocation. *)
Record State : Type := {
  table : Table;
  drawn : nat;
  calls : nat
}.

(** ** The cipher: AES-256-CBC with PKCS#7 padding, hex wire form *)

Module Cipher.

Definition IV_LENGTH : nat := 16.
Definition KEY_LENGTH : nat := 32.

(** [Buffer.from(secretKey, 'hex')] *)
Definition ENCRYPTION_KEY (cfg : Config) : list byte :=
  Hex.decode (secretKey cfg).

Definition byte_xor (a b : byte) : byte :=
  match Byte.to_bits a, Byte.to_bits b with
  | (a0, (a1, (a2, (a3, (a4, (a5, (a6, a7))))))),
    (b0, (b1, (b2, (b3, (b4, (b5, (b6, b7))))))) =>
      Byte.of_bits
        (xorb a0 b0, (xorb a1 b1, (xorb a2 b2, (xorb a3 b3,
        (xorb a4 b4, (xorb a5 b5, (xorb a6 b6, xorb a7 b7)))))))
  end.

Definition xor_bytes (a b : list byte) : list byte := zip_with byte_xor a b.

Definition byte_of_nat (n : nat) : byte := byte_of_ascii (ascii_of_nat n).

(** PKCS#7: between 1 and 16 bytes are added, each equal to their
    number, so that the length becomes a multiple of 16. *)
Definition pad_length (n : nat) : nat := 16 - n mod 16.

Definition pkcs7_pad (m : list byte) : list byte :=
  let n := pad_length (length m) in
  m ++ replicate n (byte_of_nat n).

(** Padding removal at [decipher.final()]: the last byte [n] must be
    between 1 and 16 and the last [n] bytes must all equal it. *)
Definition pkcs7_unpad (m : list byte) : option (list byte) :=
  match last m with
  | None => None
  | Some b =>
      let n := Byte.to_nat b in
      if (1 <=? n)%nat && (n <=? 16)%nat
         && forallb (Byte.eqb b) (drop (length m - n) m)
      then Some (take (length m - n) m)
      else None
  end.

Section WithRuntime.
Context `{RT : Runtime}.

(** CBC chaining over [n] blocks of 16 bytes; [prev] is the iv, then
    the previous cipher block. *)
Fixpoint cbc_encrypt (key : list byte) (n : nat) (prev m : list byte)
  : list byte :=
  match n with
  | 0 => []
  | S n' =>
      let c := aes256_encrypt_block key (xor_bytes (take 16 m) prev) in
      c ++ cbc_encrypt key n' c (drop 16 m)
  end.

Fixpoint cbc_decrypt (key : list byte) (n : nat) (prev c : list byte)
  : list byte :=
  match n with
  | 0 => []
  | S n' =>
      let blk := take 16 c in
      xor_bytes (aes256_decrypt_block key blk) prev
        ++ cbc_decrypt key n' blk (drop 16 c)
  end.

(** [cipher.update(data)] followed by [cipher.final()] *)
Definition cipher_run (key iv data : list byte) : list byte :=
  let padded := pkcs7_pad data in
  cbc_encrypt key (length padded / 16) iv padded.

(** [decipher.update(data)] followed by [decipher.final()]: the input
    must be a positive number of whole blocks and end in valid
    padding. *)
Definition decipher_run (key iv data : list byte) : Res (list byte) :=
  if Nat.eqb (length data) 0 || negb (Nat.eqb (length data mod 16) 0)
  then Throw (CryptoError "ERR_OSSL_EVP_WRONG_FINAL_BLOCK_LENGTH")
  else match pkcs7_unpad (cbc_decrypt key (length data / 16) iv data) with
       | Some m => Ok m
       | None => Throw (CryptoError "ERR_OSSL_EVP_BAD_DECRYPT")
       end.

(** The checks of [crypto.createCipheriv] and
    [crypto.createDecipheriv] for [aes-256-cbc]. *)
Definition check_key_iv (key iv : list byte) : Res unit :=
  if negb (Nat.eqb (length key) KEY_LENGTH)
  then Throw (CryptoError "ERR_CRYPTO_INVALID_KEYLEN")
  else if negb (Nat.eqb (length iv) IV_LENGTH)
  then Throw (CryptoError "ERR_CRYPTO_INVALID_IV")
  else Ok tt.

(** [hex(iv) + ':' + hex(ciphertext)] *)
Definition serialize (iv ct : list byte) : string :=
  Hex.encode iv +:+ ":" +:+ Hex.encode ct.

Variable cfg : Config.
Variable env : Env.

(** [crypto.randomBytes(n)] *)
Definition randomBytes (n : nat) : M State (list byte) :=
  fun s =>
    (Ok (map (entropy env) (seq (drawn s) n)),
     {| table := table s; drawn := drawn s + n; calls := calls s |}).

(** [encrypt] with the iv given: the part of [encrypt] after
    [crypto.randomBytes]. [cipher.update] takes the UTF-8 encoding of a
    string; a value that is not a string makes it throw. *)
Definition encrypt_with (iv : list byte) (text : JsValue) : Res string :=
  match check_key_iv (ENCRYPTION_KEY cfg) iv with
  | Throw e => Throw e
  | Ok _ =>
      match text with
      | JStr s =>
          let encrypted :=
            cipher_run (ENCRYPTION_KEY cfg) iv
              (Text.encode (list_byte_of_string s)) in
          Ok (serialize iv encrypted)
      | _ => Throw (TypeError "ERR_INVALID_ARG_TYPE")
      end
  end.

(** const encrypt = (text: string): string => ... *)
Definition encrypt (text : JsValue) : M State string :=
  let* iv := randomBytes IV_LENGTH in
  lift (encrypt_with iv text).

(** const decrypt = (text: string): string => ...
    [text.split] throws on anything but a string, and
    [decrypted.toString()] decodes the plain bytes as UTF-8. *)
Definition decrypt (text : JsValue) : Res string :=
  match text with
  | JStr s =>
      let textParts := Str.split ":" s in
      let iv := Hex.decode (hd EmptyString textParts) in
      let encryptedText := Hex.decode (Str.join ":" (tl textParts)) in
      match check_key_iv (ENCRYPTION_KEY cfg) iv with
      | Throw e => Throw e
      | Ok _ =>
          match decipher_run (ENCRYPTION_KEY cfg) iv encryptedText with
          | Throw e => Throw e
          | Ok decrypted => Ok (string_of_list_byte (Text.decode decrypted))
          end
      end
  | _ => Throw (TypeError "text.split is not a function")
  end.

End WithRuntime.

(** The serialized cipher form [/^[0-9a-f]+:[0-9a-f]+$/]. *)
Definition cipher_form (s : string) : bool :=
  match Str.split ":" s with
  | [iv; ct] =>
      Hex.all_lower_hex iv && negb (String.eqb iv EmptyString)
      && Hex.all_lower_hex ct && negb (String.eqb ct EmptyString)
  | _ => false
  end.

End Cipher.

(** ** Requests and responses *)

(** [event.body]: absent ([null] or the empty string, both falsy and both
    fatal for [JSON.parse] followed by destructuring), or a non-empty
    text, given by what [JSON.parse] makes of it: [None] when it throws a
    [SyntaxError], the parsed value otherwise. *)
Inductive EventBody : Type :=
| BodyAbsent
| BodyText (parsed : option JsValue).

Record Event : Type := {
  httpMethod : string;
  (** [null] when the request has no query string *)
  queryStringParameters : option (gmap string string);
  body : EventBody
}.

(** The argument of [JSON.stringify] in a response. *)
Inductive ResponseBody : Type :=
| ErrorBody (error : string)
| ErrorDetailsBody (error : string) (details : Exn)
| CreatedBody (message id : string) (name stock price : JsValue)
| LegacyCreatedBody (message : string) (id name stock price : JsValue)
| ItemsBody (items : list (option Item))
| UpdatedBody (message : string) (item : option Item)
| DeletedBody (message : string) (deletedItem : option Item).

Record Response : Type := {
  statusCode : nat;
  (** [None] when the response object has no [headers] property *)
  headers : option (list (string * string));
  responseBody : ResponseBody
}.

Definition CORS_HEADERS : list (string * string) :=
  [("Access-Control-Allow-Origin", "*");
   ("Access-Control-Allow-Headers", "Content-Type,Authorization")].

(** A response that carries the permissive cross-origin headers. *)
Definition has_cors (r : Response) : bool :=
  match headers r with
  | Some h =>
      existsb (fun kv => String.eqb (fst kv) "Access-Control-Allow-Origin"
                         && String.eqb (snd kv) "*") h
  | None => false
  end.

Definition respond (code : nat) (b : ResponseBody) : Response :=
  {| statusCode := code; headers := Some CORS_HEADERS; responseBody := b |}.

(** [JSON.parse(event.body)] *)
Definition parse_body (b : EventBody) : Res JsValue :=
  match b with
  | BodyAbsent => Throw (SyntaxError "Unexpected end of JSON input")
  | BodyText None => Throw (SyntaxError "Unexpected token in JSON")
  | BodyText (Some v) => Ok v
  end.

(** [!event.body] *)
Definition body_missing (b : EventBody) : bool :=
  match b with
  | BodyAbsent => true
  | BodyText _ => false
  end.

(** [const { name, stock, price } = value] *)
Definition destructure (v : JsValue) : Res (JsValue * JsValue * JsValue) :=
  match Js.get "name" v, Js.get "stock" v, Js.get "price" v with
  | Some name, Some stock, Some price => Ok (name, stock, price)
  | _, _, _ => Throw (TypeError "Cannot destructure property 'name'")
  end.

(** [const { id } = event.queryStringParameters]: throws on [null]. *)
Definition destructure_id (q : option (gmap string string)) : Res (option string) :=
  match q with
  | None => Throw (TypeError "Cannot destructure property 'id'")
  | Some params => Ok (params !! "id")
  end.

(** [!s] for a query parameter: absent or the empty string. *)
Definition param_missing (p : option string) : bool :=
  match p with
  | None => true
  | Some s => String.eqb s EmptyString
  end.

(** ** The table: [DynamoDB.DocumentClient] *)

Module Dynamo.

Section WithEnv.
Variable env : Env.

Definition set_table (t : Table) : M State unit :=
  fun s => (Ok tt, {| table := t; drawn := drawn s; calls := calls s |}).

(** Every call is counted and reaches the backend. A call that the
    backend does not serve throws the error code; its write, given by
    what it makes of the table, has then been applied or not. *)
Definition call (req : Request) (write : Table -> Table) : M State unit :=
  fun s =>
    match fault env req with
    | Some failure =>
        (Throw (AwsError (code failure)),
         {| table := if persisted failure then write (table s) else table s;
            drawn := drawn s;
            calls := S (calls s) |})
    | None =>
        (Ok tt,
         {| table := table s; drawn := drawn s; calls := S (calls s) |})
    end.

(** [put({ TableName, Item })]: unconditional write under the item's
    [id]. *)
Definition put (item : Item) : M State unit :=
  match item !! "id" with
  | Some (JStr id) =>
      let* _ := call (PutRequest item) (fun t => <[id := item]> t) in
      let* s := get_state in
      set_table (<[id := item]> (table s))
  | _ =>
      let* _ := call (PutRequest item) (fun t => t) in
      throw (AwsError "ValidationException")
  end.

(** [contains(#name, :name)] of a filter expression. *)
Definition contains (attr : option JsValue) (operand : string) : bool :=
  match attr with
  | Some (JStr s) => Str.includes operand s
  | Some (JArray elems) =>
      existsb (fun e => match e with
                        | JStr s => String.eqb s operand
                        | _ => false
                        end) elems
  | _ => false
  end.

(** The rows of the first page of a scan: the handlers call [scan] once
    and never follow [LastEvaluatedKey]. *)
Definition first_page (t : Table) : list Item :=
  let rows := (map_to_list t).*2 in
  take (page env rows) rows.

(** [scan({ TableName })], optionally with
    [FilterExpression: 'contains(#name, :name)']: the filter is applied
    to the rows of the page. *)
Definition scan (name_filter : option string) : M State (list Item) :=
  let* _ := call ScanRequest (fun t => t) in
  let* s := get_state in
  let rows := first_page (table s) in
  ret (match name_filter with
       | None => rows
       | Some f => List.filter (fun row => contains (row !! "name") f) rows
       end).

(** One clause [#a = :v] of a [SET] update expression, resolved through
    the placeholder maps. *)
Definition resolve_clause (names : gmap string string)
    (values : gmap string JsValue) (clause : string)
  : option (string * JsValue) :=
  match Str.split " " clause with
  | [lhs; eq; rhs] =>
      if String.eqb eq "=" then
        match names !! lhs, values !! rhs with
        | Some attr, Some v => Some (attr, v)
        | _, _ => None
        end
      else None
  | _ => None
  end.

Fixpoint resolve_clauses (names : gmap string string)
    (values : gmap string JsValue) (clauses : list string)
  : option (list (string * JsValue)) :=
  match clauses with
  | [] => Some []
  | c :: rest =>
      match resolve_clause names values c, resolve_clauses names values rest with
      | Some a, Some l => Some (a :: l)
      | _, _ => None
      end
  end.

Definition apply_assignments (row : Item) (l : list (string * JsValue)) : Item :=
  fold_left (fun r kv => <[fst kv := snd kv]> r) l row.

(** What a conditional [SET] update makes of the table: nothing when the
    request is malformed or the row is absent. *)
Definition updated (id : string) (clauses : list string)
    (names : gmap string string) (values : gmap string JsValue) (t : Table)
  : Table :=
  match resolve_clauses names values clauses, t !! id with
  | Some assignments, Some row => <[id := apply_assignments row assignments]> t
  | _, _ => t
  end.

(** [update({ Key: { id }, UpdateExpression: 'SET ' + clauses.join(', '),
    ExpressionAttributeNames, ExpressionAttributeValues,
    ConditionExpression: 'attribute_exists(id)', ReturnValues: 'ALL_NEW' })]:
    the request is validated, then the condition is evaluated; the write
    happens only when the row exists, and the new row is returned. *)
Definition update (id : string) (clauses : list string)
    (names : gmap string string) (values : gmap string JsValue)
  : M State (option Item) :=
  let* _ := call (UpdateRequest id clauses names values)
              (updated id clauses names values) in
  match resolve_clauses names values clauses with
  | None => throw (AwsError "ValidationException")
  | Some assignments =>
      let* s := get_state in
      match table s !! id with
      | None => throw (AwsError "ConditionalCheckFailedException")
      | Some row =>
          let row' := apply_assignments row assignments in
          let* _ := set_table (<[id := row']> (table s)) in
          ret (Some row')
      end
  end.

(** [delete({ Key: { id }, ReturnValues: 'ALL_OLD' })]: unconditional;
    [Attributes] is the row that was there, if any. *)
Definition delete (id : string) : M State (option Item) :=
  let* _ := call (DeleteRequest id) (base.delete id) in
  let* s := get_state in
  let* _ := set_table (base.delete id (table s)) in
  ret (table s !! id).

End WithEnv.

End Dynamo.

(** ** The handler with field-level encryption *)

Module Handler.

(** The update specification built from a request body. *)
Record UpdateSpec : Type := {
  updateExpression : list string;
  expressionAttributeNames : gmap string string;
  expressionAttributeValues : gmap string JsValue
}.

Definition empty_spec : UpdateSpec :=
  {| updateExpression := [];
     expressionAttributeNames := ∅;
     expressionAttributeValues := ∅ |}.

(** [updateExpression.push(clause); expressionAttributeNames[ph] = attr;
     expressionAttributeValues[pv] = value] *)
Definition add_clause (u : UpdateSpec) (clause ph attr pv : string)
    (value : JsValue) : UpdateSpec :=
  {| updateExpression := updateExpression u ++ [clause];
     expressionAttributeNames := <[ph := attr]> (expressionAttributeNames u);
     expressionAttributeValues := <[pv := value]> (expressionAttributeValues u) |}.

(** [item.attr] on a row *)
Definition attr (item : Item) (key : string) : JsValue :=
  default JUndefined (item !! key).

(** The predicate of [items.filter(item => item.name.includes(name))]:
    [includes] exists on strings (substring) and on arrays (membership);
    a [null] item, a missing [name] or any other value throws. *)
Definition name_includes (name : string) (item : option Item) : Res bool :=
  match item with
  | None => Throw (TypeError "Cannot read properties of null")
  | Some it =>
      match attr it "name" with
      | JStr s => Ok (Str.includes name s)
      | JArray elems =>
          Ok (existsb (fun e => match e with
                                | JStr s => String.eqb s name
                                | _ => false
                                end) elems)
      | JUndefined | JNull => Throw (TypeError "Cannot read properties of undefined")
      | _ => Throw (TypeError "item.name.includes is not a function")
      end
  end.

(** [items.filter(pred)] for a predicate that may throw. *)
Fixpoint filter_res {A} (pred : A -> Res bool) (l : list A) : Res (list A) :=
  match l with
  | [] => Ok []
  | x :: rest =>
      match pred x with
      | Throw e => Throw e
      | Ok b =>
          match filter_res pred rest with
          | Throw e => Throw e
          | Ok kept => Ok (if b then x :: kept else kept)
          end
      end
  end.

Section WithRuntime.
Context `{RT : Runtime}.
Variable cfg : Config.
Variable env : Env.

(** The [try] block of [decryptItem]: the three fields are decrypted in
    order and any failure leaves the block. *)
Definition decryptItem_try (item : Item) : Res Item :=
  match Cipher.decrypt cfg (attr item "name") with
  | Throw e => Throw e
  | Ok name =>
      match Cipher.decrypt cfg (attr item "stock") with
      | Throw e => Throw e
      | Ok stock =>
          match Cipher.decrypt cfg (attr item "price") with
          | Throw e => Throw e
          | Ok price =>
              Ok (<["price" := JNum (number_of_string price)]>
                    (<["stock" := JNum (number_of_string stock)]>
                       (<["name" := JStr name]> item)))
          end
      end
  end.

(** const decryptItem = (item: any) => ...  The result is [Ok] of the
    returned value, [None] standing for [null]. *)
Definition decryptItem (item : option Item) : Res (option Item) :=
  match item with
  | None => Ok None
  | Some it =>
      match decryptItem_try it with
      | Ok decrypted => Ok (Some decrypted)
      | Throw _ => Ok (Some it)
      end
  end.

(** [items.map(decryptItem)] *)
Fixpoint map_decryptItem (items : list Item) : Res (list (option Item)) :=
  match items with
  | [] => Ok []
  | it :: rest =>
      match decryptItem (Some it) with
      | Throw e => Throw e
      | Ok d =>
          match map_decryptItem rest with
          | Throw e => Throw e
          | Ok ds => Ok (d :: ds)
          end
      end
  end.

(** The three [if] blocks of the update branch that build the update
    specification. *)
Definition build_update (name stock price : JsValue) : M State UpdateSpec :=
  let u := empty_spec in
  let* u :=
    if Js.truthy name then
      let* c := Cipher.encrypt cfg env name in
      ret (add_clause u "#name = :name" "#name" "name" ":name" (JStr c))
    else ret u in
  let* u :=
    if Js.defined stock then
      let* text := lift (Js.to_string stock) in
      let* c := Cipher.encrypt cfg env (JStr text) in
      ret (add_clause u "#stock = :stock" "#stock" "stock" ":stock" (JStr c))
    else ret u in
  let* u :=
    if Js.defined price then
      let* text := lift (Js.to_string price) in
      let* c := Cipher.encrypt cfg env (JStr text) in
      ret (add_clause u "#price = :price" "#price" "price" ":price" (JStr c))
    else ret u in
  ret u.

(** The [try] block of the [POST] branch. *)
Definition post_try (event : Event) : M State Response :=
  let* parsed := lift (parse_body (body event)) in
  let* fields := lift (destructure parsed) in
  let '(name, stock, price) := fields in
  if negb (Js.truthy name) || negb (Js.defined stock)
     || negb (Js.defined price)
  then ret (respond 400 (ErrorBody "Missing required fields: name, stock, price"))
  else
    let uniqueId := uuid env in
    let* ename := Cipher.encrypt cfg env name in
    let* tstock := lift (Js.to_string stock) in
    let* estock := Cipher.encrypt cfg env (JStr tstock) in
    let* tprice := lift (Js.to_string price) in
    let* eprice := Cipher.encrypt cfg env (JStr tprice) in
    let newItem : Item :=
      <["price" := JStr eprice]>
        (<["stock" := JStr estock]>
           (<["name" := JStr ename]> {["id" := JStr uniqueId]})) in
    let* _ := Dynamo.put env newItem in
    ret (respond 201
           (CreatedBody "Item created successfully" uniqueId name stock price)).

(** [if (event.httpMethod === 'POST') { try { ... } catch { ... } }] *)
Definition post (event : Event) : M State Response :=
  try_catch (post_try event)
    (fun _ => ret (respond 500 (ErrorBody "Failed to create item"))).

(** The [try] block of the [GET] branch. *)
Definition get_try (event : Event) : M State Response :=
  let name := default ∅ (queryStringParameters event) !! "name" in
  let* rows := Dynamo.scan env None in
  let* items := lift (map_decryptItem rows) in
  let* items :=
    if negb (param_missing name)
    then lift (filter_res (name_includes (default EmptyString name)) items)
    else ret items in
  ret (respond 200 (ItemsBody items)).

(** [if (event.httpMethod === 'GET') { ... }] *)
Definition get (event : Event) : M State Response :=
  try_catch (get_try event)
    (fun _ => ret (respond 500 (ErrorBody "Failed to retrieve items"))).

(** The update branch from the length test on: the empty update is
    refused, anything else is sent as a conditional update. *)
Definition send_update (id : string) (u : UpdateSpec) : M State Response :=
  if Nat.eqb (length (updateExpression u)) 0
  then ret (respond 400 (ErrorBody "No fields to update"))
  else
    let* attributes :=
      Dynamo.update env id (updateExpression u)
        (expressionAttributeNames u) (expressionAttributeValues u) in
    let* item := lift (decryptItem attributes) in
    ret (respond 200 (UpdatedBody "Item updated successfully" item)).

(** The [try] block of the [PUT] branch. *)
Definition put_try (event : Event) : M State Response :=
  let* id := lift (destructure_id (queryStringParameters event)) in
  if param_missing id
  then ret (respond 400 (ErrorBody "Missing required query parameter: id"))
  else if body_missing (body event)
  then ret (respond 400 (ErrorBody "Request body is empty"))
  else
    let* parsed := lift (parse_body (body event)) in
    let* fields := lift (destructure parsed) in
    let '(name, stock, price) := fields in
    let* u := build_update name stock price in
    send_update (default EmptyString id) u.

(** The [catch] block of the [PUT] branch. *)
Definition put_catch (error : Exn) : M State Response :=
  if bool_decide (exn_code error = Some "ConditionalCheckFailedException")
  then ret (respond 404 (ErrorBody "Item not found"))
  else ret (respond 500 (ErrorBody "Failed to update item")).

(** [if (event.httpMethod === 'PUT') { ... }] *)
Definition put (event : Event) : M State Response :=
  try_catch (put_try event) put_catch.

(** The [try] block of the [DELETE] branch. *)
Definition delete_try (event : Event) : M State Response :=
  let* id := lift (destructure_id (queryStringParameters event)) in
  if param_missing id
  then ret (respond 400 (ErrorBody "Missing required query parameter: id"))
  else
    let* attributes := Dynamo.delete env (default EmptyString id) in
    match attributes with
    | None => ret (respond 404 (ErrorBody "Item not found"))
    | Some _ =>
        let* item := lift (decryptItem attributes) in
        ret (respond 200 (DeletedBody "Item deleted successfully" item))
    end.

(** [if (event.httpMethod === 'DELETE') { ... }] *)
Definition delete (event : Event) : M State Response :=
  try_catch (delete_try event)
    (fun _ => ret (respond 500 (ErrorBody "Failed to delete item"))).

(** exports.handler = async (event: any) => ... *)
Definition handler_body (event : Event) : M State Response :=
  if String.eqb (httpMethod event) "POST" then post event
  else if String.eqb (httpMethod event) "GET" then get event
  else if String.eqb (httpMethod event) "PUT" then put event
  else if String.eqb (httpMethod event) "DELETE" then delete event
  else ret {| statusCode := 405;
              headers := None;
              responseBody := ErrorBody "Method not allowed" |}.

(** One invocation against the table [t], from a fresh invocation
    state. *)
Definition run (event : Event) (t : Table) : Res Response * State :=
  handler_body event {| table := t; drawn := 0; calls := 0 |}.

(** The response and the table afterwards. *)
Definition handler (event : Event) (t : Table) : Res Response * Table :=
  (fst (run event t), table (snd (run event t))).

End WithRuntime.

End Handler.

(** ** The earlier handler, without encryption *)

Module Legacy.
Import Handler.

Section WithEnv.
Variable env : Env.

(** The three [if] blocks of the update branch; every test is a
    truthiness test and the values are stored as they come. *)
Definition build_update (name stock price : JsValue) : UpdateSpec :=
  let u := empty_spec in
  let u :=
    if Js.truthy name
    then add_clause u "#name = :name" "#name" "name" ":name" name
    else u in
  let u :=
    if Js.truthy stock
    then add_clause u "#stock = :stock" "#stock" "stock" ":stock" stock
    else u in
  let u :=
    if Js.truthy price
    then add_clause u "#price = :price" "#price" "price" ":price" price
    else u in
  u.

(** [if (event.httpMethod === 'POST') { ... }] *)
Definition post (event : Event) : M State Response :=
  try_catch
    (let* parsed := lift (parse_body (body event)) in
     let* fields := lift (destructure parsed) in
     let '(name, stock, price) := fields in
     if negb (Js.truthy name) || negb (Js.truthy stock)
        || negb (Js.truthy price)
     then ret (respond 400 (ErrorBody "Missing required fields: name, stock, price"))
     else
       let uniqueId := uuid env in
       let newItem : Item :=
         <["price" := price]>
           (<["stock" := stock]>
              (<["name" := name]> {["id" := JStr uniqueId]})) in
       let* _ := Dynamo.put env newItem in
       ret (respond 201
              (LegacyCreatedBody "Item created successfully"
                 (attr newItem "id") (attr newItem "name")
                 (attr newItem "stock") (attr newItem "price"))))
    (fun _ => ret (respond 500 (ErrorBody "Failed to create item"))).

(** [if (event.httpMethod === 'GET') { ... }]: the name filter is part of
    the scan. *)
Definition get (event : Event) : M State Response :=
  try_catch
    (let name := default ∅ (queryStringParameters event) !! "name" in
     let* rows :=
       Dynamo.scan env (if param_missing name then None else name) in
     ret (respond 200 (ItemsBody (map Some rows))))
    (fun _ => ret (respond 500 (ErrorBody "Failed to retrieve items"))).

(** [if (event.httpMethod === 'PUT') { ... }] *)
Definition put (event : Event) : M State Response :=
  try_catch
    (let* id := lift (destructure_id (queryStringParameters event)) in
     if param_missing id
     then ret (respond 400 (ErrorBody "Missing required query parameter: id"))
     else if body_missing (body event)
     then ret (respond 400 (ErrorBody "Request body is empty"))
     else
       match parse_body (body event) with
       | Throw _ => ret (respond 400 (ErrorBody "Invalid JSON in request body"))
       | Ok parsed =>
           let* fields := lift (destructure parsed) in
           let '(name, stock, price) := fields in
           let u := build_update name stock price in
           if Nat.eqb (length (updateExpression u)) 0
           then ret (respond 400 (ErrorBody "No fields to update"))
           else
             let* attributes :=
               Dynamo.update env (default EmptyString id) (updateExpression u)
                 (expressionAttributeNames u) (expressionAttributeValues u) in
             ret (respond 200 (UpdatedBody "Item updated successfully" attributes))
       end)
    (fun error =>
       if bool_decide (exn_code error = Some "ConditionalCheckFailedException")
       then ret (respond 404
                   (ErrorBody "Item not found - cannot update non-existent item"))
       else ret (respond 500 (ErrorDetailsBody "Failed to update item" error))).

(** [if (event.httpMethod === 'DELETE') { ... }] *)
Definition delete (event : Event) : M State Response :=
  try_catch
    (let* id := lift (destructure_id (queryStringParameters event)) in
     if param_missing id
     then ret (respond 400 (ErrorBody "Missing required query parameter: id"))
     else
       let* attributes := Dynamo.delete env (default EmptyString id) in
       match attributes with
       | None => ret (respond 404 (ErrorBody "Item not found"))
       | Some _ =>
           ret (respond 200 (DeletedBody "Item deleted successfully" attributes))
       end)
    (fun _ => ret (respond 500 (ErrorBody "Failed to delete item"))).

(** exports.handler = async (event: any) => ... *)
Definition handler_body (event : Event) : M State Response :=
  if String.eqb (httpMethod event) "POST" then post event
  else if String.eqb (httpMethod event) "GET" then get event
  else if String.eqb (httpMethod event) "PUT" then put event
  else if String.eqb (httpMethod event) "DELETE" then delete event
  else ret {| statusCode := 405;
              headers := None;
              responseBody := ErrorBody "Method not allowed" |}.

Definition run (event : Event) (t : Table) : Res Response * State :=
  handler_body event {| table := t; drawn := 0; calls := 0 |}.

Definition handler (event : Event) (t : Table) : Res Response * Table :=
  (fst (run event t), table (snd (run event t))).

End WithEnv.

End Legacy.

(** ** The token authorizer *)

Module Authorizer.

(** The authorizer's input: [event.authorizationToken] and
    [event.methodArn], whatever values the gateway passes. *)
Record AuthEvent : Type := {
  authorizationToken : JsValue;
  methodArn : JsValue
}.

(** What the authorizer throws: [new Error(msg)], or the [TypeError] of a
    call on a value that has no such method. *)
Inductive AuthExn : Type :=
| ErrorOf (msg : string)
| TypeErrorOf (msg : string).

Record Statement : Type := {
  Action : string;
  Effect : string;
  Resource : JsValue
}.

Record PolicyDocument : Type := {
  Version : string;
  Statements : list Statement
}.

Record AuthResponse : Type := {
  principalId : string;
  policyDocument : PolicyDocument;
  contextUser : string
}.

(** [s.slice(n)] for [n] within the string *)
Fixpoint slice (n : nat) (s : string) : string :=
  match n, s with
  | 0, _ => s
  | S n', String _ rest => slice n' rest
  | S _, EmptyString => EmptyString
  end.

(** The [try] block. [token.startsWith] exists on strings only. *)
Definition handler_try (event : AuthEvent) : AuthExn + AuthResponse :=
  let token := authorizationToken event in
  if negb (Js.truthy token) then inl (ErrorOf "Unauthorized")
  else
    match token with
    | JStr t =>
        let tokenValue :=
          if String.prefix "Bearer " t then slice 7 t else t in
        if String.eqb tokenValue "correct-token" then
          let policyDocument :=
            {| Version := "2012-10-17";
               Statements :=
                 [{| Action := "execute-api:Invoke";
                     Effect := "Allow";
                     Resource := methodArn event |}] |} in
          inr {| principalId := "user";
                 policyDocument := policyDocument;
                 contextUser := "user" |}
        else inl (ErrorOf "Unauthorized")
    | _ => inl (TypeErrorOf "token.startsWith is not a function")
    end.

(** exports.handler = async (event: any) => ...: whatever the [try]
    block throws is replaced by [new Error('Unauthorized')]. *)
Definition handler (event : AuthEvent) : AuthExn + AuthResponse :=
  match handler_try event with
  | inr response => inr response
  | inl _ => inl (ErrorOf "Unauthorized")
  end.

End Authorizer.

(** * Facts about the building blocks *)

(** ** Hexadecimal coding *)

Module HexFacts.
Import Hex.

(** [String.append] does not unfold under [simpl] once stdpp's strings
    are loaded; these two equations stand in for it. *)
Lemma append_nil_l (t : string) : EmptyString +:+ t = t.
Proof. reflexivity. Qed.

Lemma append_cons (c : ascii) (s t : string) :
  String c s +:+ t = String c (s +:+ t).
Proof. reflexivity. Qed.

Lemma append_assoc (s t u : string) : (s +:+ t) +:+ u = s +:+ (t +:+ u).
Proof.
  induction s as [|c s IH]; [reflexivity|].
  rewrite !append_cons, IH. reflexivity.
Qed.

Lemma append_empty_r (s : string) : s +:+ EmptyString = s.
Proof.
  induction s as [|c s IH]; [reflexivity|].
  rewrite append_cons, IH. reflexivity.
Qed.

Lemma length_append (s t : string) :
  String.length (s +:+ t) = String.length s + String.length t.
Proof.
  induction s as [|c s IH]; [reflexivity|].
  rewrite append_cons. simpl. rewrite IH. reflexivity.
Qed.

Lemma encode_cons (b : byte) (buf : list byte) :
  encode (b :: buf) = hex_of_byte b +:+ encode buf.
Proof. reflexivity. Qed.

Lemma decode_hex_of_byte (b : byte) (rest : string) :
  decode (hex_of_byte b +:+ rest) = b :: decode rest.
Proof. destruct b; reflexivity. Qed.

Lemma decode_encode_app (buf : list byte) (rest : string) :
  decode (encode buf +:+ rest) = buf ++ decode rest.
Proof.
  induction buf as [|b buf IH]; [reflexivity|].
  rewrite encode_cons, append_assoc, decode_hex_of_byte, IH. reflexivity.
Qed.

Lemma decode_encode (buf : list byte) : decode (encode buf) = buf.
Proof.
  rewrite <- (append_empty_r (encode buf)), decode_encode_app.
  simpl. apply app_nil_r.
Qed.

Lemma all_lower_hex_app (s t : string) :
  all_lower_hex (s +:+ t) = all_lower_hex s && all_lower_hex t.
Proof.
  induction s as [|c s IH]; [reflexivity|].
  rewrite append_cons. simpl. rewrite IH. apply andb_assoc.
Qed.

Lemma all_lower_hex_of_byte (b : byte) : all_lower_hex (hex_of_byte b) = true.
Proof. destruct b; reflexivity. Qed.

Lemma all_lower_hex_encode (buf : list byte) : all_lower_hex (encode buf) = true.
Proof.
  induction buf as [|b buf IH]; [reflexivity|].
  rewrite encode_cons, all_lower_hex_app, all_lower_hex_of_byte, IH.
  reflexivity.
Qed.

Lemma length_hex_of_byte (b : byte) : String.length (hex_of_byte b) = 2.
Proof. reflexivity. Qed.

End HexFacts.

(** ** Splitting and joining *)

(** ** Facts about UTF-8 coding *)

Module TextFacts.
Import Text.

Lemma encode_three (b c1 c2 : byte) (rest2 : list byte) :
  encode (b :: c1 :: c2 :: rest2)
  = if Nat.eqb (Byte.to_nat b) 237 && between 160 191 c1 && continuation c2
    then REPLACEMENT ++ encode rest2
    else b :: encode (c1 :: c2 :: rest2).
Proof. reflexivity. Qed.

(** A lone surrogate takes three bytes and so does U+FFFD: the encoding
    has the length of the text. *)
Lemma length_encode (text : list byte) : length (encode text) = length text.
Proof.
  remember (length text) as n eqn:Hn. revert text Hn.
  induction n as [n IH] using lt_wf_ind. intros text Hn.
  destruct text as [|b [|c1 [|c2 rest2]]].
  - subst. reflexivity.
  - subst. reflexivity.
  - subst. reflexivity.
  - rewrite encode_three.
    destruct (Nat.eqb (Byte.to_nat b) 237 && between 160 191 c1
              && continuation c2).
    + cbn [length app REPLACEMENT] in *.
      rewrite (IH (length rest2) ltac:(lia) rest2 eq_refl). symmetry. exact Hn.
    + cbn [length app REPLACEMENT] in *.
      rewrite (IH (S (S (length rest2))) ltac:(lia) (c1 :: c2 :: rest2) eq_refl).
      symmetry. exact Hn.
Qed.

(** A byte of a well-formed text that starts no surrogate. *)
Lemma encode_head (b : byte) (rest : list byte) :
  (Nat.eqb (Byte.to_nat b) 237 = true ->
   match rest with c1 :: _ => between 160 191 c1 = false | [] => True end) ->
  encode (b :: rest) = b :: encode rest.
Proof.
  intros H. destruct rest as [|c1 [|c2 rest2]]; try reflexivity.
  rewrite encode_three. destruct (Nat.eqb (Byte.to_nat b) 237); [|reflexivity].
  rewrite (H eq_refl). reflexivity.
Qed.

(** Bounds on bytes from the range tests. *)
Ltac bounds :=
  unfold second, continuation, between in *;
  repeat match goal with
         | H : _ && _ = true |- _ => apply andb_true_iff in H as [? ?]
         | H : (_ <=? _)%nat = true |- _ => apply Nat.leb_le in H
         | H : Nat.eqb _ _ = true |- _ => apply Nat.eqb_eq in H
         | H : context [Nat.eqb ?a ?b] |- _ =>
             destruct (Nat.eqb_spec a b)
         | |- context [Nat.eqb ?a ?b] => destruct (Nat.eqb_spec a b)
         end.

Lemma encode_valid (text : list byte) : valid text = true -> encode text = text.
Proof.
  remember (length text) as n eqn:Hn. revert text Hn.
  induction n as [n IH] using lt_wf_ind. intros text Hn Hv.
  destruct text as [|b rest]; [reflexivity|].
  cbn [valid] in Hv.
  destruct (between 0 127 b) eqn:H1.
  { rewrite encode_head.
    - rewrite (IH (length rest)); [reflexivity | subst; simpl; lia | reflexivity | exact Hv].
    - intros E. bounds. lia. }
  destruct (between 194 223 b) eqn:H2.
  { destruct rest as [|c1 rest1]; [discriminate|].
    apply andb_true_iff in Hv as [Hc1 Hv].
    rewrite encode_head by (intros E; bounds; lia).
    rewrite encode_head by (intros E; bounds; lia).
    rewrite (IH (length rest1)); [reflexivity | subst; simpl; lia | reflexivity | exact Hv]. }
  destruct (between 224 239 b) eqn:H3.
  { destruct rest as [|c1 [|c2 rest2]]; try discriminate.
    apply andb_true_iff in Hv as [Hc Hv]. apply andb_true_iff in Hc as [Hc1 Hc2].
    rewrite encode_head.
    2:{ intros E. apply Nat.eqb_eq in E. unfold second in Hc1. rewrite E in Hc1.
        simpl in Hc1. unfold between in *.
        apply andb_true_iff in Hc1 as [A B]. apply Nat.leb_le in A, B.
        apply andb_false_iff. left. apply Nat.leb_gt. lia. }
    rewrite encode_head by (intros E; bounds; lia).
    rewrite encode_head by (intros E; bounds; lia).
    rewrite (IH (length rest2)); [reflexivity | subst; simpl; lia | reflexivity | exact Hv]. }
  destruct (between 240 244 b) eqn:H4; [|discriminate].
  destruct rest as [|c1 [|c2 [|c3 rest3]]]; try discriminate.
  apply andb_true_iff in Hv as [Hc Hv]. apply andb_true_iff in Hc as [Hc Hc3].
  apply andb_true_iff in Hc as [Hc1 Hc2].
  rewrite encode_head by (intros E; bounds; lia).
  rewrite encode_head by (intros E; bounds; lia).
  rewrite encode_head by (intros E; bounds; lia).
  rewrite encode_head by (intros E; bounds; lia).
  rewrite (IH (length rest3)); [reflexivity | subst; simpl; lia | reflexivity | exact Hv].
Qed.

Lemma decode_valid (buf : list byte) : valid buf = true -> decode buf = buf.
Proof.
  remember (length buf) as n eqn:Hn. revert buf Hn.
  induction n as [n IH] using lt_wf_ind. intros buf Hn Hv.
  destruct buf as [|b rest]; [reflexivity|].
  cbn [valid] in Hv. cbn [decode].
  destruct (between 0 127 b).
  { rewrite (IH (length rest)); [reflexivity | subst; simpl; lia | reflexivity | exact Hv]. }
  destruct (between 194 223 b).
  { destruct rest as [|c1 rest1]; [discriminate|].
    apply andb_true_iff in Hv as [Hc1 Hv]. rewrite Hc1.
    rewrite (IH (length rest1)); [reflexivity | subst; simpl; lia | reflexivity | exact Hv]. }
  destruct (between 224 239 b).
  { destruct rest as [|c1 [|c2 rest2]]; try discriminate.
    apply andb_true_iff in Hv as [Hc Hv]. apply andb_true_iff in Hc as [Hc1 Hc2].
    rewrite Hc1, Hc2.
    rewrite (IH (length rest2)); [reflexivity | subst; simpl; lia | reflexivity | exact Hv]. }
  destruct (between 240 244 b); [|discriminate].
  destruct rest as [|c1 [|c2 [|c3 rest3]]]; try discriminate.
  apply andb_true_iff in Hv as [Hc Hv]. apply andb_true_iff in Hc as [Hc Hc3].
  apply andb_true_iff in Hc as [Hc1 Hc2].
  rewrite Hc1, Hc2, Hc3.
  rewrite (IH (length rest3)); [reflexivity | subst; simpl; lia | reflexivity | exact Hv].
Qed.

(** Well-formed text comes back from its UTF-8 bytes as it was. *)
Lemma decode_encode_valid (text : list byte) :
  valid text = true -> decode (encode text) = text.
Proof. intros H. rewrite (encode_valid _ H). apply decode_valid, H. Qed.



End TextFacts.

(** Well-formed strings come back as they were. *)
Lemma recovered_well_formed (s : string) :
  Text.well_formed s = true -> Text.recovered s = s.
Proof.
  unfold Text.well_formed, Text.recovered. intros H.
  rewrite (TextFacts.decode_encode_valid _ H).
  apply string_of_list_byte_of_string.
Qed.

(** ** Facts about string operations *)

Module StrFacts.
Import Str.

Lemma split_nonempty (sep : ascii) (s : string) : split sep s <> [].
Proof.
  induction s as [|c s IH]; simpl; [discriminate|].
  destruct (Ascii.eqb c sep); [discriminate|].
  destruct (split sep s); discriminate.
Qed.

Lemma join_cons (sep p : string) (q : string) (rest : list string) :
  join sep (p :: q :: rest) = p +:+ sep +:+ join sep (q :: rest).
Proof. reflexivity. Qed.

(** Splitting loses nothing: joining the parts with the separator gives
    the string back. *)
Lemma join_split (sep : ascii) (s : string) :
  join (String sep EmptyString) (split sep s) = s.
Proof.
  induction s as [|c s IH]; [reflexivity|].
  simpl split. destruct (Ascii.eqb c sep) eqn:E.
  - apply Ascii.eqb_eq in E. subst c.
    pose proof (split_nonempty sep s) as Hne.
    destruct (split sep s) as [|q rest] eqn:Hs; [contradiction|].
    rewrite join_cons, IH. reflexivity.
  - pose proof (split_nonempty sep s) as Hne.
    destruct (split sep s) as [|q rest] eqn:Hs; [contradiction|].
    destruct rest as [|r rest].
    + simpl in *. congruence.
    + rewrite join_cons in *. rewrite HexFacts.append_cons. congruence.
Qed.

(** A first segment free of the separator is what [split] returns first,
    and the remainder is split on its own. *)
Lemma split_app (sep : ascii) (h t : string) :
  mem sep h = false ->
  split sep (h +:+ String sep t) = h :: split sep t.
Proof.
  induction h as [|c h IH]; intros Hm.
  - rewrite HexFacts.append_nil_l. simpl. rewrite Ascii.eqb_refl. reflexivity.
  - simpl in Hm. apply orb_false_iff in Hm as [Hc Hm].
    rewrite HexFacts.append_cons. simpl. rewrite Hc, (IH Hm). reflexivity.
Qed.

Lemma split_no_sep (sep : ascii) (s : string) :
  mem sep s = false -> split sep s = [s].
Proof.
  induction s as [|c s IH]; intros Hm; [reflexivity|].
  simpl in Hm. apply orb_false_iff in Hm as [Hc Hm].
  simpl. rewrite Hc, (IH Hm). reflexivity.
Qed.

Lemma lower_hex_no_colon (s : string) :
  Hex.all_lower_hex s = true -> mem ":"%char s = false.
Proof.
  induction s as [|c s IH]; simpl; [reflexivity|].
  intros H. apply andb_true_iff in H as [Hc Hs].
  rewrite (IH Hs), orb_false_r.
  destruct (Ascii.eqb c ":") eqn:E; [|reflexivity].
  apply Ascii.eqb_eq in E. subst c. discriminate.
Qed.


End StrFacts.

(** ** Facts about the cipher *)

Module CipherFacts.
Import Cipher.

Lemma byte_xor_cancel (a b : byte) : byte_xor (byte_xor a b) b = a.
Proof.
  unfold byte_xor.
  destruct (Byte.to_bits a)
    as [a0 [a1 [a2 [a3 [a4 [a5 [a6 a7]]]]]]] eqn:Ha.
  destruct (Byte.to_bits b)
    as [b0 [b1 [b2 [b3 [b4 [b5 [b6 b7]]]]]]] eqn:Hb.
  rewrite Byte.to_bits_of_bits.
  rewrite <- (Byte.of_bits_to_bits a), Ha.
  rewrite !xorb_assoc, !xorb_nilpotent, !xorb_false_r. reflexivity.
Qed.

Lemma length_xor_bytes (a b : list byte) :
  length (xor_bytes a b) = Nat.min (length a) (length b).
Proof. apply length_zip_with. Qed.

Lemma xor_bytes_cancel (a p : list byte) :
  length a = length p -> xor_bytes (xor_bytes a p) p = a.
Proof.
  revert p. induction a as [|x a IH]; intros [|y p] Hlen;
    simpl in *; try discriminate; [reflexivity|].
  unfold xor_bytes in *. simpl.
  rewrite byte_xor_cancel, IH by lia. reflexivity.
Qed.

Lemma to_nat_byte_of_nat (n : nat) : n < 256 -> Byte.to_nat (byte_of_nat n) = n.
Proof.
  intros Hn. unfold byte_of_nat.
  apply Byte.to_of_nat.
  rewrite byte_of_ascii_via_nat, nat_ascii_embedding by exact Hn.
  reflexivity.
Qed.

Lemma pad_length_bounds (n : nat) : 1 <= pad_length n <= 16.
Proof.
  unfold pad_length. pose proof (Nat.mod_upper_bound n 16). lia.
Qed.

Lemma length_pkcs7_pad (m : list byte) :
  length (pkcs7_pad m) = 16 * (length m / 16 + 1).
Proof.
  unfold pkcs7_pad, pad_length. rewrite length_app, length_replicate.
  pose proof (Nat.div_mod_eq (length m) 16).
  pose proof (Nat.mod_upper_bound (length m) 16). lia.
Qed.

Lemma forallb_replicate_eqb (n : nat) (b : byte) :
  forallb (Byte.eqb b) (replicate n b) = true.
Proof.
  induction n as [|n IH]; simpl; [reflexivity|].
  rewrite IH, (Byte.byte_dec_lb eq_refl). reflexivity.
Qed.

Lemma last_replicate (n : nat) (b : byte) :
  1 <= n -> last (replicate n b) = Some b.
Proof.
  destruct n as [|n]; [lia|]. intros _.
  rewrite replicate_S_end. apply last_snoc.
Qed.

(** Removing the padding undoes adding it. *)
Lemma pkcs7_unpad_pad (m : list byte) : pkcs7_unpad (pkcs7_pad m) = Some m.
Proof.
  unfold pkcs7_unpad, pkcs7_pad.
  pose proof (pad_length_bounds (length m)) as Hb.
  set (n := pad_length (length m)) in *.
  rewrite last_app, last_replicate by lia.
  rewrite to_nat_byte_of_nat by lia.
  rewrite length_app, length_replicate.
  replace (length m + n - n) with (length m) by lia.
  rewrite drop_app_length, take_app_length, forallb_replicate_eqb.
  destruct (Nat.leb_spec 1 n); [|lia].
  destruct (Nat.leb_spec n 16); [|lia].
  reflexivity.
Qed.

Section WithRuntime.
Context `{RT : Runtime}.

Lemma length_cbc_encrypt (key : list byte) (n : nat) :
  length key = 32 ->
  forall prev m, length prev = 16 -> length m = 16 * n ->
  length (cbc_encrypt key n prev m) = 16 * n.
Proof.
  intros Hk. induction n as [|n IH]; intros prev m Hp Hm; [reflexivity|].
  simpl. rewrite length_app.
  assert (Hx : length (xor_bytes (take 16 m) prev) = 16).
  { rewrite length_xor_bytes, length_take. lia. }
  rewrite aes256_encrypt_length by assumption.
  rewrite IH.
  - lia.
  - apply aes256_encrypt_length; assumption.
  - rewrite length_drop. lia.
Qed.

(** CBC decryption inverts CBC encryption under the same key and
    iv. *)
Lemma cbc_decrypt_encrypt (key : list byte) (n : nat) :
  length key = 32 ->
  forall prev m, length prev = 16 -> length m = 16 * n ->
  cbc_decrypt key n prev (cbc_encrypt key n prev m) = m.
Proof.
  intros Hk. induction n as [|n IH]; intros prev m Hp Hm.
  - destruct m; [reflexivity | simpl in Hm; lia].
  - simpl.
    assert (Hx : length (xor_bytes (take 16 m) prev) = 16).
    { rewrite length_xor_bytes, length_take. lia. }
    pose proof (aes256_encrypt_length key _ Hk Hx) as Hc.
    rewrite take_app_length', drop_app_length' by (symmetry; exact Hc).
    rewrite aes256_decrypt_encrypt by assumption.
    rewrite xor_bytes_cancel by (rewrite length_take; lia).
    rewrite IH.
    + apply take_drop.
    + exact Hc.
    + rewrite length_drop. lia.
Qed.

Lemma length_cipher_run (key iv data : list byte) :
  length key = 32 -> length iv = 16 ->
  length (cipher_run key iv data) = 16 * (length data / 16 + 1).
Proof.
  intros Hk Hiv. unfold cipher_run.
  rewrite length_pkcs7_pad.
  replace (16 * (length data / 16 + 1) / 16) with (length data / 16 + 1)
    by (rewrite Nat.mul_comm, Nat.div_mul; lia).
  apply length_cbc_encrypt; [assumption..|].
  apply length_pkcs7_pad.
Qed.

(** [decipher] undoes [cipher] under the same key and iv. *)
Lemma decipher_cipher (key iv data : list byte) :
  length key = 32 -> length iv = 16 ->
  decipher_run key iv (cipher_run key iv data) = Ok data.
Proof.
  intros Hk Hiv. unfold decipher_run.
  rewrite length_cipher_run by assumption.
  set (n := length data / 16 + 1).
  replace (16 * n / 16) with n by (rewrite Nat.mul_comm, Nat.div_mul; lia).
  replace (16 * n mod 16) with 0
    by (rewrite Nat.mul_comm, Nat.Div0.mod_mul; reflexivity).
  destruct (Nat.eqb_spec (16 * n) 0) as [H0|_]; [subst n; lia|].
  simpl orb. cbv iota.
  unfold cipher_run. rewrite length_pkcs7_pad. fold n.
  replace (16 * n / 16) with n by (rewrite Nat.mul_comm, Nat.div_mul; lia).
  rewrite cbc_decrypt_encrypt; [| assumption | assumption |].
  - rewrite pkcs7_unpad_pad. reflexivity.
  - apply length_pkcs7_pad.
Qed.

Lemma check_key_iv_ok (key iv : list byte) :
  length key = 32 -> length iv = 16 -> check_key_iv key iv = Ok tt.
Proof.
  intros Hk Hiv. unfold check_key_iv, KEY_LENGTH, IV_LENGTH.
  rewrite Hk, Hiv. reflexivity.
Qed.

End WithRuntime.

End CipherFacts.

(** ** Facts about the wire form *)

Module WireFacts.
Import Cipher CipherFacts.

Lemma serialize_eq (iv ct : list byte) :
  serialize iv ct = Hex.encode iv +:+ String ":" (Hex.encode ct).
Proof. reflexivity. Qed.

(** [split(':')] of a serialized value finds exactly the two hex parts. *)
Lemma split_serialize (iv ct : list byte) :
  Str.split ":" (serialize iv ct) = [Hex.encode iv; Hex.encode ct].
Proof.
  rewrite serialize_eq, StrFacts.split_app.
  - rewrite StrFacts.split_no_sep; [reflexivity|].
    apply StrFacts.lower_hex_no_colon, HexFacts.all_lower_hex_encode.
  - apply StrFacts.lower_hex_no_colon, HexFacts.all_lower_hex_encode.
Qed.

Lemma encode_nonempty (buf : list byte) :
  buf <> [] -> String.eqb (Hex.encode buf) EmptyString = false.
Proof.
  destruct buf as [|b buf]; [contradiction|]. intros _.
  rewrite HexFacts.encode_cons. destruct b; reflexivity.
Qed.

(** A serialized value with non-empty iv and ciphertext matches
    [/^[0-9a-f]+:[0-9a-f]+$/]. *)
Lemma cipher_form_serialize (iv ct : list byte) :
  iv <> [] -> ct <> [] -> cipher_form (serialize iv ct) = true.
Proof.
  intros Hiv Hct. unfold cipher_form. rewrite split_serialize.
  rewrite !HexFacts.all_lower_hex_encode, !encode_nonempty by assumption.
  reflexivity.
Qed.

Section WithRuntime.
Context `{RT : Runtime}.
Variable cfg : Config.

Lemma cipher_run_nonempty (iv data : list byte) :
  length (ENCRYPTION_KEY cfg) = 32 -> length iv = 16 ->
  cipher_run (ENCRYPTION_KEY cfg) iv data <> [].
Proof.
  intros Hk Hiv Hnil.
  pose proof (length_cipher_run _ _ data Hk Hiv) as Hl.
  rewrite Hnil in Hl. simpl in Hl. lia.
Qed.

(** With a 32-byte key and a 16-byte iv, [encrypt] of a string returns
    its serialized cipher text. *)
Lemma encrypt_with_string (iv : list byte) (s : string) :
  length (ENCRYPTION_KEY cfg) = 32 -> length iv = 16 ->
  encrypt_with cfg iv (JStr s)
  = Ok (serialize iv
          (cipher_run (ENCRYPTION_KEY cfg) iv
             (Text.encode (list_byte_of_string s)))).
Proof.
  intros Hk Hiv. unfold encrypt_with.
  rewrite check_key_iv_ok by assumption. reflexivity.
Qed.

(** Whatever [encrypt] returns is in cipher form. *)
Lemma encrypt_with_cipher_form (iv : list byte) (v : JsValue) (c : string) :
  encrypt_with cfg iv v = Ok c -> cipher_form c = true.
Proof.
  unfold encrypt_with, check_key_iv, KEY_LENGTH, IV_LENGTH.
  destruct (Nat.eqb_spec (length (ENCRYPTION_KEY cfg)) 32) as [Hk|];
    [|discriminate].
  destruct (Nat.eqb_spec (length iv) 16) as [Hiv|]; [|discriminate].
  simpl. destruct v; try discriminate.
  intros [= <-]. apply cipher_form_serialize.
  - intros ->. discriminate.
  - apply cipher_run_nonempty; assumption.
Qed.

(** [decrypt] of a serialized value under the same key is the decoding
    of the bytes that were encrypted. *)
Lemma decrypt_serialize (iv data : list byte) :
  length (ENCRYPTION_KEY cfg) = 32 -> length iv = 16 ->
  decrypt cfg (JStr (serialize iv (cipher_run (ENCRYPTION_KEY cfg) iv data)))
  = Ok (string_of_list_byte (Text.decode data)).
Proof.
  intros Hk Hiv. unfold decrypt.
  rewrite split_serialize. simpl hd. simpl tl. simpl Str.join.
  rewrite !HexFacts.decode_encode.
  rewrite check_key_iv_ok, decipher_cipher by assumption.
  reflexivity.
Qed.

End WithRuntime.

End WireFacts.

(** ** A sample runtime and sample inputs, for evaluating the model *)

Module Sample.
Import Cipher.

(** A stand-in for the AES block transformation that satisfies the laws
    of [Runtime]: the block is combined with the first half of the
    key. *)
Definition xor_block (key blk : list byte) : list byte :=
  xor_bytes blk (take 16 key).

Definition digit_value (c : ascii) : option float :=
  let n := N.to_nat (N_of_ascii c) in
  if Nat.leb 48 n
  then nth_error [0; 1; 2; 3; 4; 5; 6; 7; 8; 9]%float (n - 48)
  else None.

(** [Number(s)] on strings of decimal digits; [NaN] otherwise and [0] on
    the empty string. *)
Fixpoint digits_value (acc : float) (s : string) : float :=
  match s with
  | EmptyString => acc
  | String c rest =>
      match digit_value c with
      | Some d => digits_value (acc * 10 + d)%float rest
      | None => nan
      end
  end.

(** [String(n)] on the numbers the samples use. *)
Definition sample_string_of_number (n : float) : string :=
  if PrimFloat.eqb n 0 then "0"
  else if PrimFloat.eqb n 5 then "5"
  else if PrimFloat.eqb n 10 then "10"
  else if PrimFloat.eqb n 2.5 then "2.5"
  else "NaN".

Lemma xor_block_length (key blk : list byte) :
  length key = 32 -> length blk = 16 -> length (xor_block key blk) = 16.
Proof.
  intros Hk Hb. unfold xor_block.
  rewrite CipherFacts.length_xor_bytes, length_take. lia.
Qed.

Lemma xor_block_cancel (key blk : list byte) :
  length key = 32 -> length blk = 16 -> xor_block key (xor_block key blk) = blk.
Proof.
  intros Hk Hb. unfold xor_block.
  apply CipherFacts.xor_bytes_cancel. rewrite length_take. lia.
Qed.

#[local] Instance runtime : Runtime := {|
  aes256_encrypt_block := xor_block;
  aes256_decrypt_block := xor_block;
  aes256_encrypt_length := xor_block_length;
  aes256_decrypt_encrypt := xor_block_cancel;
  string_of_number := sample_string_of_number;
  number_of_string := digits_value 0%float
|}.

Definition cfg : Config :=
  {| secretKey :=
       "000102030405060708090a0b0c0d0e0f101112131415161718191a1b1c1d1e1f" |}.

(** Inputs of an invocation whose backend serves every call and whose
    scans return the whole table: the random bytes are 42, 43, 44, ... *)
Definition env : Env :=
  {| entropy := fun i => byte_of_nat (42 + i);
     uuid := "7d9b2f0e-5c59-4f0a-9d0b-1c2a3b4c5d6e";
     fault := fun _ => None;
     page := fun rows => length rows |}.

Definition obj (props : list (string * JsValue)) : EventBody :=
  BodyText (Some (JObject props)).

Definition request (method : string) (query : list (string * string))
    (b : EventBody) : Event :=
  {| httpMethod := method;
     queryStringParameters := Some (list_to_map query);
     body := b |}.

End Sample.

(** * Properties *)

(** Closed examples are evaluated in the sample runtime. *)
#[local] Existing Instance Sample.runtime.

(** ** The cipher round trip *)

(** C1 (as amended). Under a 32-byte key, [encrypt] of any string [s]
    draws the next 16 bytes of the random source as iv and returns
    [hex(iv) + ":" + hex(ciphertext)], and [decrypt] of that value under
    the same key returns [s] as it comes back from its UTF-8 encoding:
    [s] itself when [s] is well-formed, that is, has no lone
    surrogate. *)
Theorem decrypt_encrypt_roundtrip `{RT : Runtime} (cfg : Config) (env : Env)
    (s : string) (st : State) :
  length (Cipher.ENCRYPTION_KEY cfg) = 32 ->
  exists (iv ct : list byte) (st' : State),
    iv = map (entropy env) (seq (drawn st) 16)
    /\ length iv = 16
    /\ drawn st' = drawn st + 16
    /\ Cipher.encrypt cfg env (JStr s) st
       = (Ok (Hex.encode iv +:+ ":" +:+ Hex.encode ct), st')
    /\ Cipher.decrypt cfg (JStr (Hex.encode iv +:+ ":" +:+ Hex.encode ct))
       = Ok (Text.recovered s)
    /\ (Text.well_formed s = true ->
        Cipher.decrypt cfg (JStr (Hex.encode iv +:+ ":" +:+ Hex.encode ct))
        = Ok s).
Proof.
  intros Hkey.
  set (iv := map (entropy env) (seq (drawn st) 16)).
  assert (Hiv : length iv = 16)
    by (unfold iv; rewrite length_map, length_seq; reflexivity).
  assert (Hback :
            Cipher.decrypt cfg
              (JStr (Cipher.serialize iv
                       (Cipher.cipher_run (Cipher.ENCRYPTION_KEY cfg) iv
                          (Text.encode (list_byte_of_string s)))))
            = Ok (Text.recovered s))
    by apply (WireFacts.decrypt_serialize cfg iv _ Hkey Hiv).
  exists iv,
    (Cipher.cipher_run (Cipher.ENCRYPTION_KEY cfg) iv
       (Text.encode (list_byte_of_string s))),
    {| table := table st; drawn := drawn st + 16; calls := calls st |}.
  split; [reflexivity|]. split; [exact Hiv|]. split; [reflexivity|].
  split; [|split].
  - unfold Cipher.encrypt, bind, Cipher.randomBytes, lift. fold iv.
    change (map (entropy env) (seq (drawn st) Cipher.IV_LENGTH)) with iv.
    rewrite (WireFacts.encrypt_with_string cfg iv s Hkey Hiv). reflexivity.
  - exact Hback.
  - intros Hs. rewrite <- (recovered_well_formed s Hs) at 2. exact Hback.
Qed.

(** The round trip on the sample configuration, for the text "apple". *)
Lemma decrypt_encrypt_roundtrip_witness :
  exists (iv ct : list byte) (st' : State),
    iv = map (entropy Sample.env) (seq 0 16)
    /\ length iv = 16
    /\ drawn st' = 16
    /\ Cipher.encrypt Sample.cfg Sample.env (JStr "apple")
         {| table := ∅; drawn := 0; calls := 0 |}
       = (Ok (Hex.encode iv +:+ ":" +:+ Hex.encode ct), st')
    /\ Cipher.decrypt Sample.cfg
         (JStr (Hex.encode iv +:+ ":" +:+ Hex.encode ct))
       = Ok (Text.recovered "apple")
    /\ (Text.well_formed "apple" = true ->
        Cipher.decrypt Sample.cfg
          (JStr (Hex.encode iv +:+ ":" +:+ Hex.encode ct))
        = Ok "apple").
Proof.
  apply (@decrypt_encrypt_roundtrip Sample.runtime Sample.cfg Sample.env
           "apple" {| table := ∅; drawn := 0; calls := 0 |}).
  vm_compute. reflexivity.
Defined.

(** The string of the two code units D800 and 78: a lone high surrogate
    followed by "x", as [JSON.parse] makes it of the six-character
    escape for D800 followed by x. *)
Definition lone_surrogate : string :=
  string_of_list_byte [xed; xa0; x80; x78].

(** U+FFFD followed by "x". *)
Definition replaced_surrogate : string :=
  string_of_list_byte [xef; xbf; xbd; x78].

(** C1, as stated, fails on a string with a lone surrogate: [encrypt]
    takes its UTF-8 encoding, in which the surrogate is U+FFFD, and
    [decrypt] returns that other string. *)
Lemma roundtrip_loses_lone_surrogate :
  exists c st',
    Cipher.encrypt Sample.cfg Sample.env (JStr lone_surrogate)
      {| table := ∅; drawn := 0; calls := 0 |}
    = (Ok c, st')
    /\ Cipher.decrypt Sample.cfg (JStr c) = Ok replaced_surrogate
    /\ replaced_surrogate <> lone_surrogate.
Proof.
  eexists. eexists. split; [vm_compute; reflexivity|].
  split; [vm_compute; reflexivity | vm_compute; discriminate].
Qed.

(** ** Facts about the handler's building blocks *)

Module HandlerFacts.
Import Handler.

(** The state after [n] more random bytes were handed out. *)
Definition advance (st : State) (n : nat) : State :=
  {| table := table st; drawn := drawn st + n; calls := calls st |}.

(** The iv that the next [encrypt] draws in state [st]. *)
Definition iv_at (env : Env) (st : State) : list byte :=
  map (entropy env) (seq (drawn st) Cipher.IV_LENGTH).

(** The iv drawn when [n] random bytes have been handed out. *)
Definition iv_from (env : Env) (n : nat) : list byte :=
  map (entropy env) (seq n Cipher.IV_LENGTH).

(** The cipher text of the string [s] under the iv [iv]. *)
Definition sealed `{RT : Runtime} (cfg : Config) (iv : list byte) (s : string)
  : string :=
  Cipher.serialize iv
    (Cipher.cipher_run (Cipher.ENCRYPTION_KEY cfg) iv
       (Text.encode (list_byte_of_string s))).

(** The update specification with a clause for each field that has a
    cipher text. *)
Definition spec_of (cn cs cp : option string) : UpdateSpec :=
  let u := empty_spec in
  let u := match cn with
           | Some c => add_clause u "#name = :name" "#name" "name" ":name" (JStr c)
           | None => u
           end in
  let u := match cs with
           | Some c => add_clause u "#stock = :stock" "#stock" "stock" ":stock" (JStr c)
           | None => u
           end in
  let u := match cp with
           | Some c => add_clause u "#price = :price" "#price" "price" ":price" (JStr c)
           | None => u
           end in
  u.

Definition assignment (key : string) (c : option string) : list (string * JsValue) :=
  match c with
  | Some c => [(key, JStr c)]
  | None => []
  end.

Definition assignments_of (cn cs cp : option string) : list (string * JsValue) :=
  assignment "name" cn ++ assignment "stock" cs ++ assignment "price" cp.

Definition clause_if (b : bool) (clause : string) : list string :=
  if b then [clause] else [].

Ltac run_monad :=
  unfold bind, try_catch, lift, ret, throw, get_state in *.

(** The monad laws used to step through handler code. *)
Lemma bind_lift_ok {S A B} (a : A) (k : A -> M S B) :
  bind (lift (Ok a)) k = k a.
Proof. reflexivity. Qed.

Lemma bind_lift_throw {S A B} (e : Exn) (k : A -> M S B) :
  bind (lift (Throw e)) k = throw e.
Proof. reflexivity. Qed.

Lemma length_iv_at (env : Env) (st : State) : length (iv_at env st) = 16.
Proof. unfold iv_at. rewrite length_map, length_seq. reflexivity. Qed.

Lemma updateExpression_spec_of (cn cs cp : option string) :
  updateExpression (spec_of cn cs cp)
  = clause_if (bool_decide (is_Some cn)) "#name = :name"
    ++ clause_if (bool_decide (is_Some cs)) "#stock = :stock"
    ++ clause_if (bool_decide (is_Some cp)) "#price = :price".
Proof. destruct cn, cs, cp; reflexivity. Qed.

(** DynamoDB resolves the clauses of a built specification to the
    assignments of the cipher texts. *)
Lemma resolve_spec_of (cn cs cp : option string) :
  Dynamo.resolve_clauses (expressionAttributeNames (spec_of cn cs cp))
    (expressionAttributeValues (spec_of cn cs cp))
    (updateExpression (spec_of cn cs cp))
  = Some (assignments_of cn cs cp).
Proof. destruct cn, cs, cp; vm_compute; reflexivity. Qed.

Section WithRuntime.
Context `{RT : Runtime}.
Variable cfg : Config.
Variable env : Env.

Lemma encrypt_run (v : JsValue) (st : State) :
  Cipher.encrypt cfg env v st
  = (Cipher.encrypt_with cfg (iv_at env st) v, advance st Cipher.IV_LENGTH).
Proof. reflexivity. Qed.

(** What [encrypt] yields for a field that is written: [None] when the
    field's test fails, the cipher text otherwise. *)
Definition field_cipher (fires : bool) (iv : list byte) (v : JsValue)
  : Res (option string) :=
  if fires then
    match Cipher.encrypt_with cfg iv v with
    | Ok c => Ok (Some c)
    | Throw e => Throw e
    end
  else Ok None.

(** [String(v)] for a field whose test passes. *)
Definition field_text (fires : bool) (v : JsValue) : Res JsValue :=
  if fires then
    match Js.to_string v with
    | Ok s => Ok (JStr s)
    | Throw e => Throw e
    end
  else Ok JUndefined.

Definition after (fires : bool) (st : State) : State :=
  if fires then advance st Cipher.IV_LENGTH else st.

(** [build_update], field by field: [String(_)] is applied before
    [encrypt] draws its iv. *)
Lemma build_update_run (name stock price : JsValue) (st : State) :
  let st1 := after (Js.truthy name) st in
  let st2 := after (Js.defined stock) st1 in
  let st3 := after (Js.defined price) st2 in
  build_update cfg env name stock price st
  = match field_cipher (Js.truthy name) (iv_at env st) name with
    | Throw e => (Throw e, st1)
    | Ok cn =>
        match field_text (Js.defined stock) stock with
        | Throw e => (Throw e, st1)
        | Ok tstock =>
            match field_cipher (Js.defined stock) (iv_at env st1) tstock with
            | Throw e => (Throw e, st2)
            | Ok cs =>
                match field_text (Js.defined price) price with
                | Throw e => (Throw e, st2)
                | Ok tprice =>
                    match field_cipher (Js.defined price) (iv_at env st2)
                            tprice with
                    | Throw e => (Throw e, st3)
                    | Ok cp => (Ok (spec_of cn cs cp), st3)
                    end
                end
            end
        end
    end.
Proof.
  unfold build_update, field_cipher, field_text, after. run_monad.
  destruct (Js.truthy name); [rewrite encrypt_run|];
    [destruct (Cipher.encrypt_with cfg (iv_at env st) name); [|reflexivity]|];
    (destruct (Js.defined stock);
     [destruct (Js.to_string stock); [rewrite encrypt_run|reflexivity]|];
     [match goal with |- context [Cipher.encrypt_with cfg ?iv ?v] =>
        destruct (Cipher.encrypt_with cfg iv v); [|reflexivity] end|];
     (destruct (Js.defined price);
      [destruct (Js.to_string price); [rewrite encrypt_run|reflexivity]|];
      [match goal with |- context [Cipher.encrypt_with cfg ?iv ?v] =>
         destruct (Cipher.encrypt_with cfg iv v); reflexivity end
      | reflexivity])).
Qed.

Lemma table_after (b : bool) (st : State) : table (after b st) = table st.
Proof. destruct b; reflexivity. Qed.

Lemma calls_after (b : bool) (st : State) : calls (after b st) = calls st.
Proof. destruct b; reflexivity. Qed.

(** Building the update specification touches neither the table nor
    the backend. *)
Lemma build_update_state (name stock price : JsValue) (st : State) :
  table (snd (build_update cfg env name stock price st)) = table st
  /\ calls (snd (build_update cfg env name stock price st)) = calls st.
Proof.
  rewrite build_update_run. cbv zeta.
  destruct (field_cipher _ _ name);
    [|simpl; rewrite table_after, calls_after; auto].
  destruct (field_text _ stock);
    [|simpl; rewrite table_after, calls_after; auto].
  destruct (field_cipher _ _ _);
    [|simpl; rewrite !table_after, !calls_after; auto].
  destruct (field_text _ price);
    [|simpl; rewrite !table_after, !calls_after; auto].
  destruct (field_cipher _ _ _);
    simpl; rewrite !table_after, !calls_after; auto.
Qed.

(** The text of a field whose conversion to a string succeeds. *)
Lemma field_text_ok (fires : bool) (v : JsValue) (s : string) :
  Js.to_string v = Ok s ->
  field_text fires v = Ok (if fires then JStr s else JUndefined).
Proof. intros H. unfold field_text. rewrite H. destruct fires; reflexivity. Qed.

Lemma field_cipher_form (fires : bool) (iv : list byte) (v : JsValue)
    (c : string) :
  field_cipher fires iv v = Ok (Some c) -> Cipher.cipher_form c = true.
Proof.
  unfold field_cipher. destruct fires; [|discriminate].
  destruct (Cipher.encrypt_with cfg iv v) eqn:E; [|discriminate].
  intros [= <-]. eapply WireFacts.encrypt_with_cipher_form, E.
Qed.

Lemma field_cipher_is_Some (fires : bool) (iv : list byte) (v : JsValue)
    (co : option string) :
  field_cipher fires iv v = Ok co -> bool_decide (is_Some co) = fires.
Proof.
  unfold field_cipher. destruct fires.
  - destruct (Cipher.encrypt_with cfg iv v); [|discriminate].
    intros [= <-]. reflexivity.
  - intros [= <-]. reflexivity.
Qed.

(** A string is always encrypted under a 32-byte key. *)
Lemma field_cipher_string (fires : bool) (iv : list byte) (s : string) :
  length (Cipher.ENCRYPTION_KEY cfg) = 32 -> length iv = 16 ->
  exists co,
    field_cipher fires iv (if fires then JStr s else JUndefined) = Ok co.
Proof.
  intros Hk Hiv. unfold field_cipher. destruct fires; [|eauto].
  rewrite WireFacts.encrypt_with_string by assumption. eauto.
Qed.

End WithRuntime.

End HandlerFacts.

(** ** Facts about the table operations and the update branch *)

Module UpdateFacts.
Import Handler HandlerFacts.

(** The state after one more DynamoDB call. *)
Definition tick (st : State) : State :=
  {| table := table st; drawn := drawn st; calls := S (calls st) |}.

Definition with_table (t : Table) (st : State) : State :=
  {| table := t; drawn := drawn st; calls := calls st |}.

(** The state after a call that the backend failed. *)
Definition failed (failure : Failure) (write : Table -> Table) (st : State)
  : State :=
  {| table := if persisted failure then write (table st) else table st;
     drawn := drawn st;
     calls := S (calls st) |}.

(** The request of an update built from cipher texts, and what serving
    it makes of the table. *)
Definition update_request (id : string) (cn cs cp : option string) : Request :=
  UpdateRequest id (updateExpression (spec_of cn cs cp))
    (expressionAttributeNames (spec_of cn cs cp))
    (expressionAttributeValues (spec_of cn cs cp)).

Definition rewritten (id : string) (cn cs cp : option string) (t : Table)
  : Table :=
  match t !! id with
  | Some row => <[id := Dynamo.apply_assignments row (assignments_of cn cs cp)]> t
  | None => t
  end.

Lemma updated_spec_of (id : string) (cn cs cp : option string) (t : Table) :
  Dynamo.updated id (updateExpression (spec_of cn cs cp))
    (expressionAttributeNames (spec_of cn cs cp))
    (expressionAttributeValues (spec_of cn cs cp)) t
  = rewritten id cn cs cp t.
Proof. unfold Dynamo.updated, rewritten. rewrite resolve_spec_of. reflexivity. Qed.

Lemma dynamo_update_run (env : Env) (id : string) (cn cs cp : option string)
    (st : State) :
  Dynamo.update env id (updateExpression (spec_of cn cs cp))
    (expressionAttributeNames (spec_of cn cs cp))
    (expressionAttributeValues (spec_of cn cs cp)) st
  = match fault env (update_request id cn cs cp) with
    | Some failure =>
        (Throw (AwsError (code failure)),
         failed failure (rewritten id cn cs cp) st)
    | None =>
        match table st !! id with
        | None => (Throw (AwsError "ConditionalCheckFailedException"), tick st)
        | Some row =>
            let row' := Dynamo.apply_assignments row (assignments_of cn cs cp) in
            (Ok (Some row'), with_table (<[id := row']> (table st)) (tick st))
        end
    end.
Proof.
  unfold Dynamo.update, Dynamo.call, Dynamo.set_table, update_request, failed.
  run_monad.
  destruct (fault env _).
  { rewrite updated_spec_of. reflexivity. }
  rewrite resolve_spec_of.
  change (table {| table := table st; drawn := drawn st;
                   calls := S (calls st) |}) with (table st).
  destruct (table st !! id); reflexivity.
Qed.

Lemma dynamo_delete_run (env : Env) (id : string) (st : State) :
  Dynamo.delete env id st
  = match fault env (DeleteRequest id) with
    | Some failure =>
        (Throw (AwsError (code failure)), failed failure (base.delete id) st)
    | None => (Ok (table st !! id),
               with_table (base.delete id (table st)) (tick st))
    end.
Proof.
  unfold Dynamo.delete, Dynamo.call, Dynamo.set_table, failed. run_monad.
  destruct (fault env _); reflexivity.
Qed.

Lemma dynamo_scan_run (env : Env) (st : State) :
  Dynamo.scan env None st
  = match fault env ScanRequest with
    | Some failure => (Throw (AwsError (code failure)), tick st)
    | None => (Ok (Dynamo.first_page env (table st)), tick st)
    end.
Proof.
  unfold Dynamo.scan, Dynamo.call, tick. run_monad.
  destruct (fault env _) as [failure|]; [|reflexivity].
  destruct (persisted failure); reflexivity.
Qed.

Lemma param_missing_false (id : string) :
  id <> EmptyString -> param_missing (Some id) = false.
Proof. intros H. simpl. apply String.eqb_neq, H. Qed.

Section WithRuntime.
Context `{RT : Runtime}.
Variable cfg : Config.
Variable env : Env.

Lemma handler_body_put (ev : Event) :
  httpMethod ev = "PUT" -> handler_body cfg env ev = put cfg env ev.
Proof. intros H. unfold handler_body. rewrite H. reflexivity. Qed.

Lemma handler_body_post (ev : Event) :
  httpMethod ev = "POST" -> handler_body cfg env ev = post cfg env ev.
Proof. intros H. unfold handler_body. rewrite H. reflexivity. Qed.

Lemma handler_body_get (ev : Event) :
  httpMethod ev = "GET" -> handler_body cfg env ev = get cfg env ev.
Proof. intros H. unfold handler_body. rewrite H. reflexivity. Qed.

Lemma handler_body_delete (ev : Event) :
  httpMethod ev = "DELETE" -> handler_body cfg env ev = delete cfg env ev.
Proof. intros H. unfold handler_body. rewrite H. reflexivity. Qed.

(** The update branch on a request that names an id and carries a body
    that parses and destructures. *)
Lemma put_run (ev : Event) (q : gmap string string) (id : string)
    (v name stock price : JsValue) (st : State) :
  queryStringParameters ev = Some q -> q !! "id" = Some id ->
  id <> EmptyString ->
  body ev = BodyText (Some v) ->
  destructure v = Ok (name, stock, price) ->
  put cfg env ev st
  = try_catch
      (let* u := build_update cfg env name stock price in
       send_update cfg env id u)
      (put_catch) st.
Proof.
  intros Hq Hid Hne Hb Hd. unfold put, put_try.
  rewrite Hq. simpl destructure_id.
  rewrite bind_lift_ok, Hid, (param_missing_false id Hne), Hb.
  simpl body_missing. simpl parse_body. cbv iota.
  rewrite bind_lift_ok, Hd, bind_lift_ok. reflexivity.
Qed.

End WithRuntime.

End UpdateFacts.

(** ** Partial updates *)

Section UpdateProperties.
Context `{RT : Runtime}.
Variable cfg : Config.
Variable env : Env.
Import Handler HandlerFacts UpdateFacts.

(** A truthy [name] that is not a string makes [cipher.update] throw, so
    no update specification is built. *)
Lemma build_update_name_not_string (name stock price : JsValue) (st : State) :
  Js.truthy name = true -> (forall s, name <> JStr s) ->
  exists e st', build_update cfg env name stock price st = (Throw e, st').
Proof.
  intros Ht Hn. rewrite build_update_run. cbv zeta.
  unfold field_cipher at 1. rewrite Ht.
  unfold Cipher.encrypt_with.
  destruct (Cipher.check_key_iv _ _); [|eauto].
  destruct name; eauto. exfalso. eapply Hn. reflexivity.
Qed.

(** Under a 32-byte key a specification is built whenever [name] is
    falsy or a string and [String(_)] converts [stock] and [price], with
    one clause per field whose test passes, in the order name, stock,
    price, and without touching the table or the backend. *)
Lemma build_update_ok (name stock price : JsValue) (ts tp : string)
    (st : State) :
  length (Cipher.ENCRYPTION_KEY cfg) = 32 ->
  (Js.truthy name = true -> exists s, name = JStr s) ->
  Js.to_string stock = Ok ts -> Js.to_string price = Ok tp ->
  exists cn cs cp st',
    build_update cfg env name stock price st = (Ok (spec_of cn cs cp), st')
    /\ table st' = table st /\ calls st' = calls st
    /\ bool_decide (is_Some cn) = Js.truthy name
    /\ bool_decide (is_Some cs) = Js.defined stock
    /\ bool_decide (is_Some cp) = Js.defined price.
Proof.
  intros Hk Hname Hts Htp.
  pose proof (build_update_state cfg env name stock price st) as [Ht Hc].
  rewrite build_update_run in *. cbv zeta in *.
  rewrite (field_text_ok _ _ _ Hts), (field_text_ok _ _ _ Htp) in *.
  assert (Hn : exists cn,
             field_cipher cfg (Js.truthy name) (iv_at env st) name = Ok cn).
  { destruct (Js.truthy name) eqn:E.
    - destruct (Hname eq_refl) as [s ->].
      apply (field_cipher_string cfg true); [exact Hk | apply length_iv_at].
    - exists None. reflexivity. }
  destruct Hn as [cn Hn]. rewrite Hn in *.
  destruct (field_cipher_string cfg (Js.defined stock)
              (iv_at env (after (Js.truthy name) st)) ts Hk
              (length_iv_at _ _)) as [cs Hs].
  rewrite Hs in *.
  destruct (field_cipher_string cfg (Js.defined price)
              (iv_at env (after (Js.defined stock) (after (Js.truthy name) st)))
              tp Hk (length_iv_at _ _)) as [cp Hp].
  rewrite Hp in *.
  exists cn, cs, cp. eexists. split; [reflexivity|].
  split; [exact Ht|]. split; [exact Hc|].
  split; [|split]; eapply field_cipher_is_Some; eassumption.
Qed.

(** When [String(_)] throws on a field that fires, no specification is
    built: the exception leaves [build_update]. *)
Lemma build_update_text_throws (name stock price : JsValue) (st : State) :
  (Js.defined stock = true /\ exists e, Js.to_string stock = Throw e)
  \/ (Js.defined price = true /\ exists e, Js.to_string price = Throw e) ->
  exists e st', build_update cfg env name stock price st = (Throw e, st').
Proof.
  intros H. rewrite build_update_run. cbv zeta.
  destruct (field_cipher cfg _ _ name); [|eauto].
  destruct H as [[Hd [e He]] | [Hd [e He]]].
  - unfold field_text at 1. rewrite Hd, He. eauto.
  - destruct (field_text _ stock); [|eauto].
    destruct (field_cipher cfg _ _ _); [|eauto].
    unfold field_text. rewrite Hd, He. eauto.
Qed.

(** C3 (as amended). For the fields [name], [stock], [price] of an update
    request body, under a 32-byte key, with a [name] that is falsy or a
    string and with [stock] and [price] values that [String(_)]
    converts (any value but an object with a [toString] property of its
    own, and arrays holding such objects), the update specification is
    built and its clauses are: the clause for [name] exactly when [name]
    is truthy, the clause for [stock] exactly when [stock] is not
    [undefined], the clause for [price] exactly when [price] is not
    [undefined]. So [stock: 0] and [price: 0] fire, omitted keys produce
    no clause, and [name: ""] produces none either. *)
Theorem update_clauses_by_field (body name stock price : JsValue)
    (ts tp : string) (st : State) :
  length (Cipher.ENCRYPTION_KEY cfg) = 32 ->
  destructure body = Ok (name, stock, price) ->
  (Js.truthy name = true -> exists s, name = JStr s) ->
  Js.to_string stock = Ok ts -> Js.to_string price = Ok tp ->
  exists u st',
    build_update cfg env name stock price st = (Ok u, st')
    /\ updateExpression u
       = clause_if (Js.truthy name) "#name = :name"
         ++ clause_if (Js.defined stock) "#stock = :stock"
         ++ clause_if (Js.defined price) "#price = :price".
Proof.
  intros Hk _ Hname Hts Htp.
  destruct (build_update_ok name stock price ts tp st Hk Hname Hts Htp)
    as (cn & cs & cp & st' & Hb & _ & _ & Hn & Hs & Hp).
  exists (spec_of cn cs cp), st'. split; [exact Hb|].
  rewrite updateExpression_spec_of, Hn, Hs, Hp. reflexivity.
Qed.


End UpdateProperties.

(** The fresh state of an invocation against the empty table. *)
Definition st0 : State := {| table := ∅; drawn := 0; calls := 0 |}.

(** The clauses for the body [{ stock: 0 }] on the sample configuration:
    the stock clause alone. *)
Lemma update_clauses_by_field_witness :
  exists u st',
    Handler.build_update Sample.cfg Sample.env JUndefined (JNum 0) JUndefined st0
    = (Ok u, st')
    /\ Handler.updateExpression u = ["#stock = :stock"].
Proof.
  apply (@update_clauses_by_field Sample.runtime Sample.cfg Sample.env
           (JObject [("stock", JNum 0)]) JUndefined (JNum 0) JUndefined
           "0" "undefined" st0).
  - vm_compute. reflexivity.
  - reflexivity.
  - simpl. discriminate.
  - reflexivity.
  - reflexivity.
Defined.

(** C3, as stated, fails on the body [{ name: "" }]: the key is supplied
    (its value is not [undefined]), the specification is built, and it
    has no clause. *)
Lemma update_ignores_empty_name :
  destructure (JObject [("name", JStr "")]) = Ok (JStr "", JUndefined, JUndefined)
  /\ Js.defined (JStr "") = true
  /\ exists u st',
       Handler.build_update Sample.cfg Sample.env
         (JStr "") JUndefined JUndefined st0 = (Ok u, st')
       /\ Handler.updateExpression u = [].
Proof.
  split; [reflexivity|]. split; [reflexivity|].
  eexists. eexists. split; vm_compute; reflexivity.
Qed.

(** The earlier handler tests every field for truthiness: the body
    [{ stock: 0, price: 0 }] yields no clause there. *)
Lemma legacy_update_ignores_zero :
  Handler.updateExpression (Legacy.build_update JUndefined (JNum 0) (JNum 0)) = [].
Proof. reflexivity. Qed.




(** ** The record codec *)

(** What [decrypt] can parse: a string whose part before the first colon
    hex-decodes to 16 bytes and whose remainder hex-decodes to a positive
    number of whole 16-byte blocks. Plain text is not of this shape. *)
Definition parses_as_cipher_text (v : JsValue) : bool :=
  match v with
  | JStr s =>
      let parts := Str.split ":" s in
      let n := length (Hex.decode (Str.join ":" (tl parts))) in
      Nat.eqb (length (Hex.decode (hd EmptyString parts))) 16
      && negb (Nat.eqb n 0) && Nat.eqb (n mod 16) 0
  | _ => false
  end.

(** [c] is what [encrypt] returns for the text [plain] under some 16-byte
    iv. *)
Definition encrypted_as `{RT : Runtime} (cfg : Config) (c plain : string) : Prop :=
  exists iv,
    length iv = 16
    /\ c = Cipher.serialize iv
             (Cipher.cipher_run (Cipher.ENCRYPTION_KEY cfg) iv
                (Text.encode (list_byte_of_string plain))).

(** The row with the three fields in clear: the name a string, the stock
    and the price numbers. *)
Definition in_clear `{RT : Runtime} (row : Item) (name stock price : string)
  : Item :=
  <["price" := JNum (number_of_string price)]>
    (<["stock" := JNum (number_of_string stock)]>
       (<["name" := JStr name]> row)).

Section CodecProperties.
Context `{RT : Runtime}.
Variable cfg : Config.
Import Handler HandlerFacts.

(** [decrypt] gives back the text of a cipher text, as it comes back
    from its UTF-8 encoding. *)
Lemma decrypt_encrypted_as (c s : string) :
  length (Cipher.ENCRYPTION_KEY cfg) = 32 ->
  encrypted_as cfg c s -> Cipher.decrypt cfg (JStr c) = Ok (Text.recovered s).
Proof.
  intros Hk (iv & Hiv & ->). apply WireFacts.decrypt_serialize; assumption.
Qed.

(** [decryptItem] on a row whose three fields hold cipher texts. *)
Lemma decryptItem_try_encrypted (row : Item) (c1 c2 c3 s ts tp : string) :
  length (Cipher.ENCRYPTION_KEY cfg) = 32 ->
  row !! "name" = Some (JStr c1) -> row !! "stock" = Some (JStr c2) ->
  row !! "price" = Some (JStr c3) ->
  encrypted_as cfg c1 s -> encrypted_as cfg c2 ts -> encrypted_as cfg c3 tp ->
  decryptItem_try cfg row
  = Ok (in_clear row (Text.recovered s) (Text.recovered ts)
          (Text.recovered tp)).
Proof.
  intros Hk Hn Hs Hp H1 H2 H3. unfold decryptItem_try, attr.
  rewrite Hn, Hs, Hp. simpl default.
  rewrite (decrypt_encrypted_as c1 s Hk H1),
    (decrypt_encrypted_as c2 ts Hk H2), (decrypt_encrypted_as c3 tp Hk H3).
  reflexivity.
Qed.

(** [decrypt] throws on every value that does not parse as cipher
    text, whatever the key. *)
Lemma decrypt_unparsable (v : JsValue) :
  parses_as_cipher_text v = false -> exists e, Cipher.decrypt cfg v = Throw e.
Proof.
  unfold parses_as_cipher_text, Cipher.decrypt.
  destruct v; eauto.
  set (parts := Str.split ":" s).
  set (iv := Hex.decode (hd EmptyString parts)).
  set (ct := Hex.decode (Str.join ":" (tl parts))).
  cbv zeta. intros H.
  unfold Cipher.check_key_iv, Cipher.decipher_run, Cipher.IV_LENGTH.
  destruct (negb (Nat.eqb (length (Cipher.ENCRYPTION_KEY cfg)) Cipher.KEY_LENGTH));
    [eauto|].
  destruct (Nat.eqb (length iv) 16); [|simpl; eauto].
  simpl in H |- *.
  destruct (Nat.eqb (length ct) 0); [simpl; eauto|].
  simpl in H |- *. rewrite H. simpl. eauto.
Qed.

(** [decryptItem] never throws. *)
Lemma decryptItem_total (item : option Item) :
  exists r, decryptItem cfg item = Ok r.
Proof.
  destruct item as [it|]; simpl; [|eauto].
  destruct (decryptItem_try cfg it); eauto.
Qed.

(** Its result is the decrypted row when all three fields decrypt, and
    the row itself otherwise. *)
Lemma decryptItem_try_throws (row : Item) :
  (exists e, Cipher.decrypt cfg (attr row "name") = Throw e)
  \/ (exists e, Cipher.decrypt cfg (attr row "stock") = Throw e)
  \/ (exists e, Cipher.decrypt cfg (attr row "price") = Throw e) ->
  exists e, decryptItem_try cfg row = Throw e.
Proof.
  unfold decryptItem_try.
  intros [[e H] | [[e H] | [e H]]].
  - rewrite H. eauto.
  - destruct (Cipher.decrypt cfg (attr row "name")); [|eauto].
    rewrite H. eauto.
  - destruct (Cipher.decrypt cfg (attr row "name")); [|eauto].
    destruct (Cipher.decrypt cfg (attr row "stock")); [|eauto].
    rewrite H. eauto.
Qed.

(** C5 (as amended). When [decrypt] throws on the name, the stock or
    the price of a stored row, as it does on a name that [decrypt]
    cannot parse (the part before the first colon does not hex-decode to
    16 bytes, or the rest does not hex-decode to a positive number of
    whole blocks), [decryptItem] does not throw and returns the row
    itself: no field of the result differs from the stored one. *)
Theorem decryptItem_failure_returns_row (row : Item) :
  (exists e, Cipher.decrypt cfg (attr row "name") = Throw e)
  \/ (exists e, Cipher.decrypt cfg (attr row "stock") = Throw e)
  \/ (exists e, Cipher.decrypt cfg (attr row "price") = Throw e)
  \/ parses_as_cipher_text (attr row "name") = false ->
  decryptItem cfg (Some row) = Ok (Some row).
Proof.
  intros H.
  assert (Hthrow : exists e, decryptItem_try cfg row = Throw e).
  { apply decryptItem_try_throws.
    destruct H as [H | [H | [H | H]]]; auto.
    left. apply decrypt_unparsable, H. }
  destruct Hthrow as [e He]. simpl. rewrite He. reflexivity.
Qed.

End CodecProperties.

(** A row written by the earlier handler: the name is plain text and the
    numbers are numbers. *)
Definition plain_row : Item :=
  <["price" := JNum 2.5]>
    (<["stock" := JNum 10]>
       (<["name" := JStr "apple"]> {["id" := JStr "a1"]})).

(** The codec returns the plain-text row as it is. *)
Lemma decryptItem_failure_returns_row_witness :
  Handler.decryptItem Sample.cfg (Some plain_row) = Ok (Some plain_row).
Proof.
  apply (@decryptItem_failure_returns_row Sample.runtime Sample.cfg plain_row).
  right. right. right. vm_compute. reflexivity.
Defined.

(** ** Delete *)

Section DeleteProperties.
Context `{RT : Runtime}.
Variable cfg : Config.
Import Handler HandlerFacts UpdateFacts.

(** The delete branch on a request that names an id, when the backend
    serves the call. *)
Lemma delete_run (env : Env) (ev : Event) (q : gmap string string)
    (id : string) (st : State) :
  queryStringParameters ev = Some q -> q !! "id" = Some id ->
  id <> EmptyString -> fault env (DeleteRequest id) = None ->
  delete cfg env ev st
  = match table st !! id with
    | None =>
        (Ok (respond 404 (ErrorBody "Item not found")),
         with_table (base.delete id (table st)) (tick st))
    | Some row =>
        match decryptItem cfg (Some row) with
        | Ok item =>
            (Ok (respond 200 (DeletedBody "Item deleted successfully" item)),
             with_table (base.delete id (table st)) (tick st))
        | Throw _ =>
            (Ok (respond 500 (ErrorBody "Failed to delete item")),
             with_table (base.delete id (table st)) (tick st))
        end
    end.
Proof.
  intros Hq Hid Hne Hf. unfold delete, delete_try.
  rewrite Hq. simpl destructure_id.
  rewrite bind_lift_ok, Hid, (param_missing_false id Hne).
  unfold try_catch, bind. simpl default.
  rewrite dynamo_delete_run, Hf.
  destruct (table st !! id) as [row|]; [|reflexivity].
  unfold lift. destruct (decryptItem cfg (Some row)); reflexivity.
Qed.

(** C8. Deleting an id that is present answers 200 with the stored row
    passed through [decryptItem], and leaves the table without that id;
    when the three fields of the row hold cipher texts made under the
    key, the item of the response is the row in clear: the name as it
    is recovered from the encrypted bytes (the name that was encrypted,
    when it is well formed), and the numbers [Number(_)] reads from the
    texts of stock and price. Deleting the same id again answers 404
    "Item not found" and changes nothing. The backend serves both
    calls. *)
Theorem delete_present_then_absent (env env' : Env) (ev : Event)
    (q : gmap string string) (id : string) (row : Item) (t : Table) :
  httpMethod ev = "DELETE" ->
  queryStringParameters ev = Some q -> q !! "id" = Some id ->
  id <> EmptyString ->
  fault env (DeleteRequest id) = None ->
  fault env' (DeleteRequest id) = None ->
  t !! id = Some row ->
  exists item st' st'',
    run cfg env ev t
    = (Ok (respond 200 (DeletedBody "Item deleted successfully" item)), st')
    /\ decryptItem cfg (Some row) = Ok item
    /\ (forall c1 c2 c3 s ts tp,
          length (Cipher.ENCRYPTION_KEY cfg) = 32 ->
          row !! "name" = Some (JStr c1) -> row !! "stock" = Some (JStr c2) ->
          row !! "price" = Some (JStr c3) ->
          encrypted_as cfg c1 s -> encrypted_as cfg c2 ts ->
          encrypted_as cfg c3 tp ->
          item = Some (in_clear row (Text.recovered s) (Text.recovered ts)
                         (Text.recovered tp))
          /\ (Text.well_formed s = true -> Text.recovered s = s))
    /\ table st' = base.delete id t
    /\ table st' !! id = None
    /\ run cfg env' ev (table st')
       = (Ok (respond 404 (ErrorBody "Item not found")), st'')
    /\ table st'' = table st'.
Proof.
  intros Hm Hq Hid Hne Hf Hf' Hrow.
  destruct (decryptItem_total cfg (Some row)) as [item Hitem].
  exists item. eexists. eexists.
  unfold run. rewrite !(handler_body_delete cfg _ ev Hm).
  rewrite (delete_run env ev q id _ Hq Hid Hne Hf).
  simpl table at 1. rewrite Hrow, Hitem.
  split; [reflexivity|]. split; [reflexivity|]. split.
  { intros c1 c2 c3 s ts tp Hk Hn Hs Hp H1 H2 H3.
    split; [|apply recovered_well_formed].
    simpl in Hitem.
    rewrite (decryptItem_try_encrypted cfg row c1 c2 c3 s ts tp
               Hk Hn Hs Hp H1 H2 H3) in Hitem.
    injection Hitem as <-. reflexivity. }
  simpl table. split; [reflexivity|].
  split; [apply lookup_delete_eq|].
  rewrite (delete_run env' ev q id _ Hq Hid Hne Hf').
  simpl table. rewrite lookup_delete_eq.
  split; [reflexivity|].
  simpl. apply delete_id, lookup_delete_eq.
Qed.

End DeleteProperties.

(** ** Unsupported methods *)

(** The response of the fall-through [return] of both handlers. *)
Definition method_not_allowed : Response :=
  {| statusCode := 405;
     headers := None;
     responseBody := ErrorBody "Method not allowed" |}.

(** C9 fails on the code. For a method other than POST, GET, PUT and
    DELETE both handlers answer 405 with a response object that has no
    [headers] at all, hence no cross-origin header. *)
Theorem unsupported_method_without_cors `{RT : Runtime} (cfg : Config)
    (env : Env) (ev : Event) (t : Table) :
  httpMethod ev <> "POST" -> httpMethod ev <> "GET" ->
  httpMethod ev <> "PUT" -> httpMethod ev <> "DELETE" ->
  fst (Handler.handler cfg env ev t) = Ok method_not_allowed
  /\ fst (Legacy.handler env ev t) = Ok method_not_allowed
  /\ has_cors method_not_allowed = false.
Proof.
  intros H1 H2 H3 H4.
  apply String.eqb_neq in H1, H2, H3, H4.
  unfold Handler.handler, Handler.run, Handler.handler_body.
  unfold Legacy.handler, Legacy.run, Legacy.handler_body.
  rewrite H1, H2, H3, H4. repeat split.
Qed.

(** A PATCH request on the sample configuration. *)
Lemma unsupported_method_without_cors_witness :
  fst (Handler.handler Sample.cfg Sample.env
         (Sample.request "PATCH" [] BodyAbsent) ∅) = Ok method_not_allowed
  /\ fst (Legacy.handler Sample.env (Sample.request "PATCH" [] BodyAbsent) ∅)
     = Ok method_not_allowed
  /\ has_cors method_not_allowed = false.
Proof.
  apply (@unsupported_method_without_cors Sample.runtime Sample.cfg Sample.env
           (Sample.request "PATCH" [] BodyAbsent) ∅); discriminate.
Defined.

(** ** Create *)

Module CreateFacts.
Import Handler HandlerFacts UpdateFacts.

(** The row that [POST] writes. *)
Definition new_item (id ename estock eprice : string) : Item :=
  <["price" := JStr eprice]>
    (<["stock" := JStr estock]>
       (<["name" := JStr ename]> {["id" := JStr id]})).

Lemma new_item_id (id ename estock eprice : string) :
  new_item id ename estock eprice !! "id" = Some (JStr id).
Proof. vm_compute. reflexivity. Qed.

Lemma new_item_name (id ename estock eprice : string) :
  new_item id ename estock eprice !! "name" = Some (JStr ename).
Proof. vm_compute. reflexivity. Qed.

Lemma new_item_stock (id ename estock eprice : string) :
  new_item id ename estock eprice !! "stock" = Some (JStr estock).
Proof. vm_compute. reflexivity. Qed.

Lemma new_item_price (id ename estock eprice : string) :
  new_item id ename estock eprice !! "price" = Some (JStr eprice).
Proof. vm_compute. reflexivity. Qed.

Lemma dynamo_put_new_item (env : Env) (id ename estock eprice : string)
    (st : State) :
  let item := new_item id ename estock eprice in
  Dynamo.put env item st
  = match fault env (PutRequest item) with
    | Some failure =>
        (Throw (AwsError (code failure)),
         failed failure (fun t => <[id := item]> t) st)
    | None => (Ok tt, with_table (<[id := item]> (table st)) (tick st))
    end.
Proof.
  cbv zeta. unfold Dynamo.put. rewrite new_item_id.
  unfold Dynamo.call, Dynamo.set_table, failed. run_monad.
  destruct (fault env _); reflexivity.
Qed.

Section WithRuntime.
Context `{RT : Runtime}.
Variable cfg : Config.
Variable env : Env.

Definition advance3 (st : State) : State :=
  advance (advance (advance st Cipher.IV_LENGTH) Cipher.IV_LENGTH)
    Cipher.IV_LENGTH.

Definition internal_error : Response :=
  respond 500 (ErrorBody "Failed to create item").

(** The create branch on a body that parses and destructures:
    [encrypt(name)], then [String(stock)] and its encryption, then
    [String(price)] and its encryption, then the put. *)
Lemma post_run (ev : Event) (v name stock price : JsValue) (st : State) :
  parse_body (body ev) = Ok v ->
  destructure v = Ok (name, stock, price) ->
  post cfg env ev st
  = if negb (Js.truthy name) || negb (Js.defined stock)
       || negb (Js.defined price)
    then (Ok (respond 400
                (ErrorBody "Missing required fields: name, stock, price")), st)
    else
      let st1 := advance st Cipher.IV_LENGTH in
      let st2 := advance st1 Cipher.IV_LENGTH in
      let st3 := advance st2 Cipher.IV_LENGTH in
      match Cipher.encrypt_with cfg (iv_at env st) name with
      | Throw _ => (Ok internal_error, st1)
      | Ok ename =>
          match Js.to_string stock with
          | Throw _ => (Ok internal_error, st1)
          | Ok tstock =>
              match Cipher.encrypt_with cfg (iv_at env st1) (JStr tstock) with
              | Throw _ => (Ok internal_error, st2)
              | Ok estock =>
                  match Js.to_string price with
                  | Throw _ => (Ok internal_error, st2)
                  | Ok tprice =>
                      match Cipher.encrypt_with cfg (iv_at env st2)
                              (JStr tprice) with
                      | Throw _ => (Ok internal_error, st3)
                      | Ok eprice =>
                          let item := new_item (uuid env) ename estock eprice in
                          match fault env (PutRequest item) with
                          | Some failure =>
                              (Ok internal_error,
                               failed failure
                                 (fun t => <[uuid env := item]> t) st3)
                          | None =>
                              (Ok (respond 201
                                     (CreatedBody "Item created successfully"
                                        (uuid env) name stock price)),
                               with_table (<[uuid env := item]> (table st))
                                 (tick st3))
                          end
                      end
                  end
              end
          end
      end.
Proof.
  intros Hp Hd. unfold post, post_try.
  rewrite Hp, bind_lift_ok, Hd, bind_lift_ok.
  destruct (negb (Js.truthy name) || negb (Js.defined stock)
            || negb (Js.defined price)); [reflexivity|].
  cbv zeta. unfold try_catch, bind. rewrite encrypt_run.
  destruct (Cipher.encrypt_with cfg (iv_at env st) name) as [ename|];
    [|reflexivity].
  unfold lift at 1. destruct (Js.to_string stock) as [tstock|]; [|reflexivity].
  rewrite encrypt_run.
  destruct (Cipher.encrypt_with cfg _ (JStr tstock)) as [estock|];
    [|reflexivity].
  unfold lift at 1. destruct (Js.to_string price) as [tprice|]; [|reflexivity].
  rewrite encrypt_run.
  destruct (Cipher.encrypt_with cfg _ (JStr tprice)) as [eprice|];
    [|reflexivity].
  change (<["price" := JStr eprice]>
            (<["stock" := JStr estock]>
               (<["name" := JStr ename]> {["id" := JStr (uuid env)]})))
    with (new_item (uuid env) ename estock eprice).
  rewrite dynamo_put_new_item. cbv zeta.
  destruct (fault env _); reflexivity.
Qed.

End WithRuntime.

End CreateFacts.

(** ** The at-rest invariant *)

(** The attribute [key] of a row is a string in cipher form. *)
Definition cipher_attr (row : Item) (key : string) : bool :=
  match row !! key with
  | Some (JStr c) => Cipher.cipher_form c
  | _ => false
  end.

(** A row as the handler leaves it at rest under the key [id]: the [id]
    attribute is the key itself, in clear, and [name], [stock] and
    [price] are strings in cipher form. *)
Definition row_ok (id : string) (row : Item) : bool :=
  match row !! "id" with
  | Some (JStr i) => String.eqb i id
  | _ => false
  end
  && cipher_attr row "name" && cipher_attr row "stock"
  && cipher_attr row "price".

Definition table_ok (t : Table) : Prop :=
  forall id row, t !! id = Some row -> row_ok id row = true.

(** The tables that the handler can produce from the table [start], one
    invocation after another, whatever the requests, the random bytes,
    the identifiers and the backend failures. *)
Inductive reachable `{RT : Runtime} (cfg : Config) (start : Table)
  : Table -> Prop :=
| reachable_start : reachable cfg start start
| reachable_step (env : Env) (ev : Event) (t : Table) :
    reachable cfg start t ->
    reachable cfg start (snd (Handler.handler cfg env ev t)).

(** The row that a create writes for the name [s] and the texts [ts] and
    [tp] of stock and price: the ivs are the first three runs of 16
    random bytes of the invocation. *)
Definition created_row `{RT : Runtime} (cfg : Config) (env : Env)
    (s ts tp : string) : Item :=
  CreateFacts.new_item (uuid env)
    (HandlerFacts.sealed cfg (HandlerFacts.iv_from env 0) s)
    (HandlerFacts.sealed cfg (HandlerFacts.iv_from env 16) ts)
    (HandlerFacts.sealed cfg (HandlerFacts.iv_from env 32) tp).

(** The cipher texts that an update writes for the fields that fire:
    each field that fires draws the next 16 random bytes as its iv. *)
Definition update_ciphers `{RT : Runtime} (cfg : Config) (env : Env)
    (name stock price : JsValue) (s ts tp : string)
  : option string * option string * option string :=
  let n1 := if Js.truthy name then 16 else 0 in
  let n2 := if Js.defined stock then n1 + 16 else n1 in
  (if Js.truthy name
   then Some (HandlerFacts.sealed cfg (HandlerFacts.iv_from env 0) s)
   else None,
   if Js.defined stock
   then Some (HandlerFacts.sealed cfg (HandlerFacts.iv_from env n1) ts)
   else None,
   if Js.defined price
   then Some (HandlerFacts.sealed cfg (HandlerFacts.iv_from env n2) tp)
   else None).

(** The call that the update makes. *)
Definition sent_update `{RT : Runtime} (cfg : Config) (env : Env)
    (id : string) (name stock price : JsValue) (s ts tp : string) : Request :=
  let '(cn, cs, cp) := update_ciphers cfg env name stock price s ts tp in
  UpdateFacts.update_request id cn cs cp.

(** The row that the update makes of [row]. *)
Definition updated_row `{RT : Runtime} (cfg : Config) (env : Env)
    (name stock price : JsValue) (s ts tp : string) (row : Item) : Item :=
  let '(cn, cs, cp) := update_ciphers cfg env name stock price s ts tp in
  Dynamo.apply_assignments row (HandlerFacts.assignments_of cn cs cp).

Module StoreFacts.
Import Handler HandlerFacts UpdateFacts CreateFacts.

Lemma table_ok_empty : table_ok ∅.
Proof. intros id row H. rewrite lookup_empty in H. discriminate. Qed.

Lemma table_ok_insert (t : Table) (id : string) (row : Item) :
  table_ok t -> row_ok id row = true -> table_ok (<[id := row]> t).
Proof.
  intros Ht Hr id' row' H.
  destruct (decide (id = id')) as [<- | Hne].
  - rewrite lookup_insert_eq in H. congruence.
  - rewrite lookup_insert_ne in H by exact Hne. eapply Ht, H.
Qed.

Lemma table_ok_delete (t : Table) (id : string) :
  table_ok t -> table_ok (base.delete id t).
Proof.
  intros Ht id' row' H.
  destruct (decide (id = id')) as [<- | Hne].
  - rewrite lookup_delete_eq in H. discriminate.
  - rewrite lookup_delete_ne in H by exact Hne. eapply Ht, H.
Qed.

Lemma row_ok_new_item (id c1 c2 c3 : string) :
  Cipher.cipher_form c1 = true -> Cipher.cipher_form c2 = true ->
  Cipher.cipher_form c3 = true ->
  row_ok id (new_item id c1 c2 c3) = true.
Proof.
  intros H1 H2 H3. unfold row_ok, cipher_attr.
  rewrite new_item_id, new_item_name, new_item_stock, new_item_price.
  rewrite H1, H2, H3, String.eqb_refl. reflexivity.
Qed.

Lemma cipher_attr_insert_eq (row : Item) (key c : string) :
  cipher_attr (<[key := JStr c]> row) key = Cipher.cipher_form c.
Proof. unfold cipher_attr. rewrite lookup_insert_eq. reflexivity. Qed.

Lemma cipher_attr_insert_ne (row : Item) (key key' : string) (v : JsValue) :
  key <> key' -> cipher_attr (<[key := v]> row) key' = cipher_attr row key'.
Proof. intros H. unfold cipher_attr. rewrite lookup_insert_ne by exact H. reflexivity. Qed.

(** Writing a cipher text into one of the three fields keeps a row
    well-formed. *)
Lemma row_ok_insert (id : string) (row : Item) (key c : string) :
  key = "name" \/ key = "stock" \/ key = "price" ->
  Cipher.cipher_form c = true ->
  row_ok id row = true -> row_ok id (<[key := JStr c]> row) = true.
Proof.
  intros Hkey Hc. unfold row_ok.
  rewrite !andb_true_iff. intros [[[Hid Hn] Hs] Hp].
  assert (Hne : key <> "id") by (destruct Hkey as [-> | [-> | ->]]; discriminate).
  rewrite lookup_insert_ne by exact Hne.
  destruct Hkey as [-> | [-> | ->]];
    rewrite cipher_attr_insert_eq, !cipher_attr_insert_ne by discriminate;
    auto.
Qed.

Lemma row_ok_assignments (id : string) (row : Item) (cn cs cp : option string) :
  (forall c, cn = Some c -> Cipher.cipher_form c = true) ->
  (forall c, cs = Some c -> Cipher.cipher_form c = true) ->
  (forall c, cp = Some c -> Cipher.cipher_form c = true) ->
  row_ok id row = true ->
  row_ok id (Dynamo.apply_assignments row (assignments_of cn cs cp)) = true.
Proof.
  intros Hn Hs Hp Hrow.
  assert (Hstep : forall r key co,
             key = "name" \/ key = "stock" \/ key = "price" ->
             (forall c, co = Some c -> Cipher.cipher_form c = true) ->
             row_ok id r = true ->
             row_ok id (Dynamo.apply_assignments r (assignment key co)) = true).
  { intros r key [c|] Hkey Hco Hr; [|exact Hr].
    simpl. apply row_ok_insert; auto. }
  unfold assignments_of, Dynamo.apply_assignments.
  rewrite !fold_left_app.
  apply Hstep; [auto | exact Hp |].
  apply Hstep; [auto | exact Hs |].
  apply Hstep; [auto | exact Hn | exact Hrow].
Qed.

End StoreFacts.

(** ** What each branch does to the table *)

Module BranchFacts.
Import Handler HandlerFacts UpdateFacts CreateFacts StoreFacts.

Section WithRuntime.
Context `{RT : Runtime}.
Variable cfg : Config.
Variable env : Env.

Lemma put_catch_state (e : Exn) (s : State) : snd (put_catch e s) = s.
Proof. unfold put_catch. destruct (bool_decide _); reflexivity. Qed.

(** [POST] leaves the table as it is or adds one row of cipher texts
    under the generated id. *)
Lemma post_table (ev : Event) (st : State) :
  table (snd (post cfg env ev st)) = table st
  \/ exists c1 c2 c3,
       Cipher.cipher_form c1 = true /\ Cipher.cipher_form c2 = true
       /\ Cipher.cipher_form c3 = true
       /\ table (snd (post cfg env ev st))
          = <[uuid env := new_item (uuid env) c1 c2 c3]> (table st).
Proof.
  destruct (parse_body (body ev)) as [v|e] eqn:Hp.
  2: { left. unfold post, post_try. rewrite Hp, bind_lift_throw. reflexivity. }
  destruct (destructure v) as [[[name stock] price]|e] eqn:Hd.
  2: { left. unfold post, post_try.
       rewrite Hp, bind_lift_ok, Hd, bind_lift_throw. reflexivity. }
  rewrite (post_run cfg env ev v name stock price st Hp Hd).
  destruct (negb (Js.truthy name) || negb (Js.defined stock)
            || negb (Js.defined price)); [left; reflexivity|].
  cbv zeta.
  destruct (Cipher.encrypt_with cfg (iv_at env st) name) as [c1|] eqn:E1;
    [|left; reflexivity].
  destruct (Js.to_string stock) as [tstock|]; [|left; reflexivity].
  destruct (Cipher.encrypt_with cfg _ (JStr tstock))
    as [c2|] eqn:E2; [|left; reflexivity].
  destruct (Js.to_string price) as [tprice|]; [|left; reflexivity].
  destruct (Cipher.encrypt_with cfg _ (JStr tprice))
    as [c3|] eqn:E3; [|left; reflexivity].
  assert (Hform : Cipher.cipher_form c1 = true /\ Cipher.cipher_form c2 = true
                  /\ Cipher.cipher_form c3 = true)
    by (repeat split; eapply WireFacts.encrypt_with_cipher_form; eassumption).
  destruct (fault env _) as [failure|].
  - unfold failed. simpl snd. simpl table.
    destruct (persisted failure); [|left; reflexivity].
    right. exists c1, c2, c3. tauto.
  - right. exists c1, c2, c3. tauto.
Qed.

(** [GET] leaves the table as it is. *)
Lemma get_table (ev : Event) (st : State) :
  table (snd (get cfg env ev st)) = table st.
Proof.
  unfold get, get_try, try_catch, bind.
  rewrite dynamo_scan_run.
  destruct (fault env _); [reflexivity|].
  unfold lift at 1.
  destruct (map_decryptItem cfg _) as [items|]; [|reflexivity].
  destruct (negb (param_missing _)); [|reflexivity].
  unfold lift. destruct (filter_res _ items); reflexivity.
Qed.

(** [DELETE] leaves the table as it is or removes the id named in the
    query string. *)
Lemma delete_table (ev : Event) (st : State) :
  table (snd (delete cfg env ev st)) = table st
  \/ exists q id,
       queryStringParameters ev = Some q /\ q !! "id" = Some id
       /\ table (snd (delete cfg env ev st)) = base.delete id (table st).
Proof.
  unfold delete, delete_try.
  destruct (queryStringParameters ev) as [q|]; [|left; reflexivity].
  simpl destructure_id. rewrite bind_lift_ok.
  destruct (q !! "id") as [id|] eqn:Hid; [|left; reflexivity].
  destruct (param_missing (Some id)); [left; reflexivity|].
  unfold try_catch, bind. rewrite dynamo_delete_run.
  change (default EmptyString (Some id)) with id.
  destruct (fault env _) as [failure|].
  - unfold failed. simpl snd. simpl table.
    destruct (persisted failure); [|left; reflexivity].
    right. exists q, id. auto.
  - right. exists q, id. split; [reflexivity|]. split; [exact Hid|].
    destruct (table st !! id) as [row|]; [|reflexivity].
    unfold lift. destruct (decryptItem cfg (Some row)); reflexivity.
Qed.

(** [PUT] leaves the table as it is or overwrites the three fields of an
    existing row with cipher texts, field by field. *)
Lemma put_table (ev : Event) (st : State) :
  table (snd (put cfg env ev st)) = table st
  \/ exists q id row cn cs cp,
       queryStringParameters ev = Some q /\ q !! "id" = Some id
       /\ table st !! id = Some row
       /\ (forall c, cn = Some c -> Cipher.cipher_form c = true)
       /\ (forall c, cs = Some c -> Cipher.cipher_form c = true)
       /\ (forall c, cp = Some c -> Cipher.cipher_form c = true)
       /\ table (snd (put cfg env ev st))
          = <[id := Dynamo.apply_assignments row (assignments_of cn cs cp)]>
              (table st).
Proof.
  destruct (queryStringParameters ev) as [q|] eqn:Hq.
  2: { left. unfold put, put_try. rewrite Hq. reflexivity. }
  destruct (q !! "id") as [id|] eqn:Hid.
  2: { left. unfold put, put_try. rewrite Hq. simpl destructure_id.
       rewrite bind_lift_ok, Hid. reflexivity. }
  destruct (String.eqb_spec id EmptyString) as [->|Hne].
  { left. unfold put, put_try. rewrite Hq. simpl destructure_id.
    rewrite bind_lift_ok, Hid. reflexivity. }
  destruct (body ev) as [|[v|]] eqn:Hb.
  { left. unfold put, put_try. rewrite Hq. simpl destructure_id.
    rewrite bind_lift_ok, Hid, (param_missing_false id Hne), Hb. reflexivity. }
  2: { left. unfold put, put_try. rewrite Hq. simpl destructure_id.
       rewrite bind_lift_ok, Hid, (param_missing_false id Hne), Hb.
       reflexivity. }
  destruct (destructure v) as [[[name stock] price]|e] eqn:Hd.
  2: { left. unfold put, put_try. rewrite Hq. simpl destructure_id.
       rewrite bind_lift_ok, Hid, (param_missing_false id Hne), Hb.
       simpl body_missing. simpl parse_body. cbv iota.
       rewrite bind_lift_ok, Hd, bind_lift_throw.
       unfold try_catch, throw. rewrite put_catch_state. reflexivity. }
  rewrite (put_run cfg env ev q id v name stock price st Hq Hid Hne Hb Hd).
  unfold try_catch, bind. rewrite build_update_run. cbv zeta.
  set (st1 := after (Js.truthy name) st).
  set (st2 := after (Js.defined stock) st1).
  set (st3 := after (Js.defined price) st2).
  assert (Ht1 : table st1 = table st) by apply table_after.
  assert (Ht2 : table st2 = table st)
    by (unfold st2; rewrite table_after; exact Ht1).
  assert (Ht3 : table st3 = table st)
    by (unfold st3; rewrite table_after; exact Ht2).
  destruct (field_cipher cfg (Js.truthy name) _ name) as [cn|e] eqn:En.
  2: { left. rewrite put_catch_state. exact Ht1. }
  destruct (field_text (Js.defined stock) stock) as [tstock|e].
  2: { left. rewrite put_catch_state. exact Ht1. }
  destruct (field_cipher cfg (Js.defined stock) _ _) as [cs|e] eqn:Es.
  2: { left. rewrite put_catch_state. exact Ht2. }
  destruct (field_text (Js.defined price) price) as [tprice|e].
  2: { left. rewrite put_catch_state. exact Ht2. }
  destruct (field_cipher cfg (Js.defined price) _ _) as [cp|e] eqn:Ep.
  2: { left. rewrite put_catch_state. exact Ht3. }
  unfold send_update.
  destruct (Nat.eqb (length (updateExpression (spec_of cn cs cp))) 0).
  { left. exact Ht3. }
  unfold bind. rewrite dynamo_update_run.
  assert (Hforms : (forall c, cn = Some c -> Cipher.cipher_form c = true)
                   /\ (forall c, cs = Some c -> Cipher.cipher_form c = true)
                   /\ (forall c, cp = Some c -> Cipher.cipher_form c = true)).
  { split; [intros c ->; eapply field_cipher_form, En|].
    split; [intros c ->; eapply field_cipher_form, Es|].
    intros c ->; eapply field_cipher_form, Ep. }
  destruct (fault env _) as [failure|].
  { rewrite put_catch_state. unfold failed, rewritten. simpl table.
    destruct (persisted failure); [|left; exact Ht3].
    rewrite Ht3.
    destruct (table st !! id) as [row|] eqn:Hrow; [|left; reflexivity].
    right. exists q, id, row, cn, cs, cp. tauto. }
  rewrite Ht3.
  destruct (table st !! id) as [row|] eqn:Hrow.
  2: { left. rewrite put_catch_state. exact Ht3. }
  right. exists q, id, row, cn, cs, cp.
  split; [reflexivity|]. split; [exact Hid|]. split; [exact Hrow|].
  split; [apply Hforms|]. split; [apply Hforms|]. split; [apply Hforms|].
  cbv zeta. unfold lift.
  destruct (decryptItem_total cfg
              (Some (Dynamo.apply_assignments row (assignments_of cn cs cp))))
    as [item Hitem].
  rewrite Hitem. reflexivity.
Qed.

(** One invocation keeps the at-rest invariant. *)
Lemma handler_table_ok (ev : Event) (t : Table) :
  table_ok t -> table_ok (snd (handler cfg env ev t)).
Proof.
  intros Hok. unfold handler, run, handler_body. simpl snd.
  set (st := {| table := t; drawn := 0; calls := 0 |}).
  destruct (String.eqb (httpMethod ev) "POST").
  { destruct (post_table ev st) as [-> | (c1 & c2 & c3 & H1 & H2 & H3 & ->)];
      [exact Hok|].
    apply table_ok_insert; [exact Hok|]. apply row_ok_new_item; assumption. }
  destruct (String.eqb (httpMethod ev) "GET").
  { rewrite get_table. exact Hok. }
  destruct (String.eqb (httpMethod ev) "PUT").
  { destruct (put_table ev st)
      as [-> | (q & id & row & cn & cs & cp & _ & _ & Hrow & Hn & Hs & Hp & ->)];
      [exact Hok|].
    apply table_ok_insert; [exact Hok|].
    apply row_ok_assignments; try assumption. eapply Hok, Hrow. }
  destruct (String.eqb (httpMethod ev) "DELETE").
  { destruct (delete_table ev st) as [-> | (q & id & _ & _ & ->)];
      [exact Hok|].
    apply table_ok_delete, Hok. }
  exact Hok.
Qed.

End WithRuntime.

End BranchFacts.

(** ** What Create and Update write *)

Section StoreProperties.
Context `{RT : Runtime}.
Variable cfg : Config.
Import Handler HandlerFacts UpdateFacts CreateFacts StoreFacts BranchFacts.

Lemma sealed_encrypted_as (iv : list byte) (s : string) :
  length iv = 16 -> encrypted_as cfg (sealed cfg iv s) s.
Proof. intros Hiv. exists iv. split; [exact Hiv | reflexivity]. Qed.

Lemma length_iv_from (env : Env) (n : nat) : length (iv_from env n) = 16.
Proof. unfold iv_from. rewrite length_map, length_seq. reflexivity. Qed.

Lemma encrypt_with_sealed (iv : list byte) (s : string) :
  length (Cipher.ENCRYPTION_KEY cfg) = 32 -> length iv = 16 ->
  Cipher.encrypt_with cfg iv (JStr s) = Ok (sealed cfg iv s).
Proof. apply WireFacts.encrypt_with_string. Qed.

Lemma encrypt_with_encrypted_as (iv : list byte) (s : string) :
  length (Cipher.ENCRYPTION_KEY cfg) = 32 -> length iv = 16 ->
  exists c, Cipher.encrypt_with cfg iv (JStr s) = Ok c /\ encrypted_as cfg c s.
Proof.
  intros Hk Hiv. exists (sealed cfg iv s). split.
  - apply encrypt_with_sealed; assumption.
  - apply sealed_encrypted_as, Hiv.
Qed.

(** A create request with a non-empty string [name], with [stock] and
    [price] present (zero included) and converted by [String(_)], whose
    row the backend accepts, is answered 201 and writes, under the
    generated id kept in clear, the cipher texts of the name, of
    [String(stock)] and of [String(price)]. *)
Definition create_writes (t : Table) : Prop :=
  forall (env : Env) (ev : Event) (v : JsValue) (s : string)
         (stock price : JsValue) (ts tp : string),
    httpMethod ev = "POST" ->
    parse_body (body ev) = Ok v ->
    destructure v = Ok (JStr s, stock, price) ->
    s <> EmptyString ->
    Js.defined stock = true -> Js.defined price = true ->
    Js.to_string stock = Ok ts -> Js.to_string price = Ok tp ->
    length (Cipher.ENCRYPTION_KEY cfg) = 32 ->
    fault env (PutRequest (created_row cfg env s ts tp)) = None ->
    exists c1 c2 c3,
      created_row cfg env s ts tp = new_item (uuid env) c1 c2 c3
      /\ handler cfg env ev t
         = (Ok (respond 201
                  (CreatedBody "Item created successfully" (uuid env)
                     (JStr s) stock price)),
            <[uuid env := new_item (uuid env) c1 c2 c3]> t)
      /\ encrypted_as cfg c1 s
      /\ encrypted_as cfg c2 ts
      /\ encrypted_as cfg c3 tp.

Lemma create_writes_holds (t : Table) : create_writes t.
Proof.
  intros env ev v s stock price ts tp Hm Hp Hd Hs Hst Hpr Hts Htp Hk Hf.
  exists (sealed cfg (iv_from env 0) s), (sealed cfg (iv_from env 16) ts),
    (sealed cfg (iv_from env 32) tp).
  split; [reflexivity|]. split.
  - unfold handler, run. rewrite (handler_body_post cfg env ev Hm).
    rewrite (post_run cfg env ev v (JStr s) stock price _ Hp Hd).
    rewrite Hst, Hpr, Hts, Htp. simpl Js.truthy.
    apply String.eqb_neq in Hs. rewrite Hs. simpl negb. simpl orb.
    cbv iota zeta.
    set (st := {| table := t; drawn := 0; calls := 0 |}).
    change (iv_at env st) with (iv_from env 0).
    change (iv_at env (advance st Cipher.IV_LENGTH)) with (iv_from env 16).
    change (iv_at env (advance (advance st Cipher.IV_LENGTH) Cipher.IV_LENGTH))
      with (iv_from env 32).
    rewrite !encrypt_with_sealed by (exact Hk || apply length_iv_from).
    change (new_item (uuid env) (sealed cfg (iv_from env 0) s)
              (sealed cfg (iv_from env 16) ts) (sealed cfg (iv_from env 32) tp))
      with (created_row cfg env s ts tp).
    rewrite Hf. reflexivity.
  - repeat split; apply sealed_encrypted_as, length_iv_from.
Qed.

(** The cipher text written for a field of an update: none when the
    field does not fire, otherwise the cipher text of its string. *)
Definition field_written (fires : bool) (plain : string) (co : option string)
  : Prop :=
  if fires then exists c, co = Some c /\ encrypted_as cfg c plain
  else co = None.

(** An update request for an id that is present, with a [name] that is
    falsy or the string [s], with [stock] and [price] converted by
    [String(_)], whose call the backend serves, is answered 200 and
    overwrites exactly the fields that fire with the cipher texts of the
    name, of [String(stock)] and of [String(price)]; the other
    attributes, [id] included, stay. *)
Definition update_writes (t : Table) : Prop :=
  forall (env : Env) (ev : Event) (q : gmap string string) (id : string)
         (v name stock price : JsValue) (s ts tp : string) (row : Item),
    httpMethod ev = "PUT" ->
    queryStringParameters ev = Some q -> q !! "id" = Some id ->
    id <> EmptyString ->
    body ev = BodyText (Some v) ->
    destructure v = Ok (name, stock, price) ->
    (Js.truthy name = true -> name = JStr s) ->
    Js.truthy name || Js.defined stock || Js.defined price = true ->
    Js.to_string stock = Ok ts -> Js.to_string price = Ok tp ->
    length (Cipher.ENCRYPTION_KEY cfg) = 32 ->
    fault env (sent_update cfg env id name stock price s ts tp) = None ->
    t !! id = Some row ->
    exists cn cs cp item,
      let row' := Dynamo.apply_assignments row (assignments_of cn cs cp) in
      update_ciphers cfg env name stock price s ts tp = (cn, cs, cp)
      /\ handler cfg env ev t
         = (Ok (respond 200 (UpdatedBody "Item updated successfully" item)),
            <[id := row']> t)
      /\ decryptItem cfg (Some row') = Ok item
      /\ field_written (Js.truthy name) s cn
      /\ field_written (Js.defined stock) ts cs
      /\ field_written (Js.defined price) tp cp.

Lemma field_cipher_sealed (fires : bool) (iv : list byte) (s : string) :
  length (Cipher.ENCRYPTION_KEY cfg) = 32 -> length iv = 16 ->
  field_cipher cfg fires iv (if fires then JStr s else JUndefined)
  = Ok (if fires then Some (sealed cfg iv s) else None).
Proof.
  intros Hk Hiv. unfold field_cipher. destruct fires; [|reflexivity].
  rewrite encrypt_with_sealed by assumption. reflexivity.
Qed.

Lemma field_written_sealed (fires : bool) (iv : list byte) (s : string) :
  length iv = 16 ->
  field_written fires s (if fires then Some (sealed cfg iv s) else None).
Proof.
  intros Hiv. unfold field_written. destruct fires; [|reflexivity].
  eexists. split; [reflexivity|]. apply sealed_encrypted_as, Hiv.
Qed.

Lemma field_written_is_Some (fires : bool) (s : string) (co : option string) :
  field_written fires s co -> bool_decide (is_Some co) = fires.
Proof.
  unfold field_written. destruct fires.
  - intros (c & -> & _). reflexivity.
  - intros ->. reflexivity.
Qed.

(** The ivs of the fields of an update, from a fresh invocation. *)
Lemma iv_at_after (env : Env) (b : bool) (t : Table) (n : nat) :
  iv_at env (after b {| table := t; drawn := n; calls := 0 |})
  = iv_from env (if b then n + 16 else n).
Proof. destruct b; reflexivity. Qed.

Lemma after_from (b : bool) (t : Table) (n : nat) :
  after b {| table := t; drawn := n; calls := 0 |}
  = {| table := t; drawn := if b then n + 16 else n; calls := 0 |}.
Proof. destruct b; reflexivity. Qed.

(** The random bytes an update has drawn when its specification is
    built. *)
Definition update_drawn (name stock price : JsValue) : nat :=
  let n1 := if Js.truthy name then 16 else 0 in
  let n2 := if Js.defined stock then n1 + 16 else n1 in
  if Js.defined price then n2 + 16 else n2.

(** [build_update] from a fresh invocation, on fields that can be
    encrypted: the specification holds the cipher texts of
    [update_ciphers]. *)
Lemma build_update_sealed (env : Env) (name stock price : JsValue)
    (s ts tp : string) (t : Table) :
  (Js.truthy name = true -> name = JStr s) ->
  Js.to_string stock = Ok ts -> Js.to_string price = Ok tp ->
  length (Cipher.ENCRYPTION_KEY cfg) = 32 ->
  exists cn cs cp,
    update_ciphers cfg env name stock price s ts tp = (cn, cs, cp)
    /\ build_update cfg env name stock price
         {| table := t; drawn := 0; calls := 0 |}
       = (Ok (spec_of cn cs cp),
          {| table := t; drawn := update_drawn name stock price; calls := 0 |})
    /\ field_written (Js.truthy name) s cn
    /\ field_written (Js.defined stock) ts cs
    /\ field_written (Js.defined price) tp cp.
Proof.
  intros Hname Hts Htp Hk.
  destruct (update_ciphers cfg env name stock price s ts tp)
    as [[cn cs] cp] eqn:Hc.
  unfold update_ciphers in Hc. injection Hc as Hcn Hcs Hcp.
  exists cn, cs, cp. split; [reflexivity|].
  split; [|subst cn cs cp; repeat split;
           apply field_written_sealed, length_iv_from].
  rewrite build_update_run. cbv zeta.
  rewrite (field_text_ok _ _ _ Hts), (field_text_ok _ _ _ Htp).
  rewrite !after_from.
  change (iv_at env {| table := t; drawn := 0; calls := 0 |})
    with (iv_from env 0).
  assert (En : field_cipher cfg (Js.truthy name) (iv_from env 0) name = Ok cn).
  { subst cn. destruct (Js.truthy name) eqn:E.
    - rewrite (Hname eq_refl).
      apply (field_cipher_sealed true); [exact Hk | apply length_iv_from].
    - reflexivity. }
  rewrite En.
  match goal with
  | |- context [field_cipher cfg (Js.defined stock) ?iv _] =>
      change iv with (iv_from env (if Js.truthy name then 0 + 16 else 0))
  end.
  rewrite (field_cipher_sealed (Js.defined stock) _ ts Hk (length_iv_from _ _)).
  change (0 + 16) with 16. rewrite Hcs.
  match goal with
  | |- context [field_cipher cfg (Js.defined price) ?iv _] =>
      change iv with
        (iv_from env (if Js.defined stock
                      then (if Js.truthy name then 16 else 0) + 16
                      else if Js.truthy name then 16 else 0))
  end.
  rewrite (field_cipher_sealed (Js.defined price) _ tp Hk (length_iv_from _ _)).
  rewrite Hcp. reflexivity.
Qed.

(** A field fires: the specification has a clause. *)
Lemma spec_not_empty (name stock price : JsValue) (s ts tp : string)
    (cn cs cp : option string) :
  Js.truthy name || Js.defined stock || Js.defined price = true ->
  field_written (Js.truthy name) s cn ->
  field_written (Js.defined stock) ts cs ->
  field_written (Js.defined price) tp cp ->
  Nat.eqb (length (updateExpression (spec_of cn cs cp))) 0 = false.
Proof.
  intros Hfires Wn Ws Wp. rewrite updateExpression_spec_of.
  rewrite (field_written_is_Some _ _ _ Wn), (field_written_is_Some _ _ _ Ws),
    (field_written_is_Some _ _ _ Wp).
  destruct (Js.truthy name), (Js.defined stock), (Js.defined price);
    try reflexivity; discriminate.
Qed.

Lemma update_writes_holds (t : Table) : update_writes t.
Proof.
  intros env ev q id v name stock price s ts tp row
    Hm Hq Hid Hne Hb Hd Hname Hfires Hts Htp Hk Hf Hrow.
  destruct (build_update_sealed env name stock price s ts tp t
              Hname Hts Htp Hk) as (cn & cs & cp & Hc & Hbuild & Wn & Ws & Wp).
  unfold sent_update in Hf. rewrite Hc in Hf.
  exists cn, cs, cp.
  destruct (decryptItem_total cfg
              (Some (Dynamo.apply_assignments row (assignments_of cn cs cp))))
    as [item Hitem].
  exists item. cbv zeta.
  split; [exact Hc|]. split; [|auto].
  unfold handler, run. rewrite (handler_body_put cfg env ev Hm).
  rewrite (put_run cfg env ev q id v name stock price _ Hq Hid Hne Hb Hd).
  unfold try_catch, bind. rewrite Hbuild.
  unfold send_update.
  rewrite (spec_not_empty name stock price s ts tp cn cs cp Hfires Wn Ws Wp).
  unfold bind. rewrite dynamo_update_run, Hf. simpl table. rewrite Hrow.
  cbv zeta. unfold lift. rewrite Hitem. reflexivity.
Qed.

(** An update of an id that is absent, when the request reaches the
    table: the conditional update is the one call made and the answer
    is 404. *)
Lemma update_absent_run (env : Env) (ev : Event) (q : gmap string string)
    (id : string) (v name stock price : JsValue) (s ts tp : string)
    (t : Table) :
  httpMethod ev = "PUT" ->
  queryStringParameters ev = Some q -> q !! "id" = Some id ->
  id <> EmptyString ->
  body ev = BodyText (Some v) ->
  destructure v = Ok (name, stock, price) ->
  (Js.truthy name = true -> name = JStr s) ->
  Js.truthy name || Js.defined stock || Js.defined price = true ->
  Js.to_string stock = Ok ts -> Js.to_string price = Ok tp ->
  length (Cipher.ENCRYPTION_KEY cfg) = 32 ->
  fault env (sent_update cfg env id name stock price s ts tp) = None ->
  t !! id = None ->
  run cfg env ev t
  = (Ok (respond 404 (ErrorBody "Item not found")),
     {| table := t; drawn := update_drawn name stock price; calls := 1 |}).
Proof.
  intros Hm Hq Hid Hne Hb Hd Hname Hfires Hts Htp Hk Hf Habs.
  destruct (build_update_sealed env name stock price s ts tp t
              Hname Hts Htp Hk) as (cn & cs & cp & Hc & Hbuild & Wn & Ws & Wp).
  unfold sent_update in Hf. rewrite Hc in Hf.
  unfold run. rewrite (handler_body_put cfg env ev Hm).
  rewrite (put_run cfg env ev q id v name stock price _ Hq Hid Hne Hb Hd).
  unfold try_catch, bind. rewrite Hbuild.
  unfold send_update.
  rewrite (spec_not_empty name stock price s ts tp cn cs cp Hfires Wn Ws Wp).
  unfold bind. rewrite dynamo_update_run, Hf. simpl table. rewrite Habs.
  reflexivity.
Qed.

(** C2 (as amended). A successful Create writes a row with its [id] in
    clear and the cipher texts of the name, of [String(stock)] and of
    [String(price)]; a successful Update overwrites the fields that
    fire with such cipher texts and leaves the others as they were. So
    in every table the handler can reach from a table in which each row
    has its [id] in clear (equal to its key) and its [name], [stock]
    and [price] as strings in the cipher form [hex(iv):hex(ciphertext)],
    the empty table in particular, each row is of that form. *)
Theorem stored_fields_cipher_form (start t : Table) :
  table_ok start ->
  reachable cfg start t ->
  table_ok t /\ create_writes t /\ update_writes t.
Proof.
  intros Hstart Hreach. split; [|split].
  - induction Hreach as [|env ev t Hreach IH].
    + exact Hstart.
    + apply handler_table_ok, IH.
  - apply create_writes_holds.
  - apply update_writes_holds.
Qed.

End StoreProperties.

(** ** Read with a name filter *)


Section ReadProperties.
Context `{RT : Runtime}.
Variable cfg : Config.
Import Handler HandlerFacts UpdateFacts.

(** What [decryptItem] makes of a stored row: the decrypted row, or the
    row itself when decryption fails. *)
Definition decrypt_view (row : Item) : option Item :=
  match decryptItem_try cfg row with
  | Ok decrypted => Some decrypted
  | Throw _ => Some row
  end.

Lemma map_decryptItem_view (rows : list Item) :
  map_decryptItem cfg rows = Ok (map decrypt_view rows).
Proof.
  induction rows as [|row rows IH]; [reflexivity|].
  simpl. rewrite IH. unfold decrypt_view.
  destruct (decryptItem_try cfg row); reflexivity.
Qed.



Lemma rows_of_table (t : Table) (row : Item) :
  In row (map_to_list t).*2 <-> exists id, t !! id = Some row.
Proof.
  rewrite <- list_elem_of_In, list_elem_of_fmap. split.
  - intros ([id r] & -> & Hin). exists id.
    apply elem_of_map_to_list in Hin. exact Hin.
  - intros [id Hid]. exists (id, row). split; [reflexivity|].
    apply elem_of_map_to_list. exact Hid.
Qed.

(** The rows of a page are rows of the table. *)
Lemma first_page_rows (env : Env) (t : Table) (row : Item) :
  In row (Dynamo.first_page env t) -> exists id, t !! id = Some row.
Proof.
  unfold Dynamo.first_page. intros Hin.
  apply rows_of_table. apply list_elem_of_In.
  apply list_elem_of_In in Hin.
  apply elem_of_take in Hin as (i & Hi & _).
  eapply list_elem_of_lookup_2, Hi.
Qed.



End ReadProperties.

(** ** Update of an absent id *)

Section AbsentIdProperties.
Context `{RT : Runtime}.
Variable cfg : Config.
Variable env : Env.
Import Handler HandlerFacts UpdateFacts BranchFacts.

(** C6 (as amended). For every update request that names an id absent
    from the table, the table after the invocation is the table before
    it: no row is created or modified. When the request reaches the
    table (its body parses, at least one field fires, [String(_)]
    converts the stock and the price, the name if truthy is a string,
    the key has 32 bytes and the backend serves the call), the
    conditional update is the one call made and the answer is 404 "Item
    not found". *)
Theorem update_absent_id_not_found (ev : Event) (q : gmap string string)
    (id : string) (t : Table) :
  httpMethod ev = "PUT" ->
  queryStringParameters ev = Some q -> q !! "id" = Some id ->
  t !! id = None ->
  snd (handler cfg env ev t) = t
  /\ forall v name stock price s ts tp,
       id <> EmptyString ->
       body ev = BodyText (Some v) ->
       destructure v = Ok (name, stock, price) ->
       length (Cipher.ENCRYPTION_KEY cfg) = 32 ->
       (Js.truthy name = true -> name = JStr s) ->
       Js.truthy name || Js.defined stock || Js.defined price = true ->
       Js.to_string stock = Ok ts -> Js.to_string price = Ok tp ->
       fault env (sent_update cfg env id name stock price s ts tp) = None ->
       fst (run cfg env ev t) = Ok (respond 404 (ErrorBody "Item not found"))
       /\ calls (snd (run cfg env ev t)) = 1.
Proof.
  intros Hm Hq Hid Habs. split.
  - unfold handler, run. rewrite (handler_body_put cfg env ev Hm). simpl snd.
    destruct (put_table cfg env ev {| table := t; drawn := 0; calls := 0 |})
      as [H | (q' & id' & row & cn & cs & cp & Hq' & Hid' & Hrow & _)];
      [exact H|].
    simpl in Hrow. rewrite Hq in Hq'. injection Hq' as <-.
    rewrite Hid in Hid'. injection Hid' as <-. congruence.
  - intros v name stock price s ts tp Hne Hb Hd Hk Hname Hfires Hts Htp Hfault.
    rewrite (update_absent_run cfg env ev q id v name stock price s ts tp t
               Hm Hq Hid Hne Hb Hd Hname Hfires Hts Htp Hk Hfault Habs).
    split; reflexivity.
Qed.

End AbsentIdProperties.

(** An update of the stock of an id that the empty table does not
    have. *)
Lemma update_absent_id_not_found_witness :
  fst (Handler.run Sample.cfg Sample.env
         (Sample.request "PUT" [("id", "a1")] (Sample.obj [("stock", JNum 0)])) ∅)
  = Ok (respond 404 (ErrorBody "Item not found"))
  /\ snd (Handler.handler Sample.cfg Sample.env
            (Sample.request "PUT" [("id", "a1")] (Sample.obj [("stock", JNum 0)]))
            ∅) = ∅.
Proof.
  pose proof (@update_absent_id_not_found Sample.runtime Sample.cfg Sample.env
                (Sample.request "PUT" [("id", "a1")]
                   (Sample.obj [("stock", JNum 0)]))
                (list_to_map [("id", "a1")]) "a1" ∅
                eq_refl eq_refl eq_refl eq_refl) as [Hsame Hreach].
  split; [|exact Hsame].
  apply (Hreach (JObject [("stock", JNum 0)]) JUndefined (JNum 0) JUndefined
           EmptyString "0" "undefined");
    [ discriminate | reflexivity | reflexivity | vm_compute; reflexivity
    | discriminate | reflexivity | reflexivity | reflexivity | reflexivity ].
Defined.

(** ** Create validation in the handler with encryption *)

Section CreateProperties.
Context `{RT : Runtime}.
Variable cfg : Config.
Variable env : Env.
Import Handler HandlerFacts UpdateFacts CreateFacts.

(** A create request whose body lacks [name], [stock] or [price] (or has
    a falsy [name]) is answered 400 before anything is encrypted or
    stored. *)
Lemma create_rejects_missing_field (ev : Event) (v name stock price : JsValue)
    (t : Table) :
  httpMethod ev = "POST" ->
  parse_body (body ev) = Ok v ->
  destructure v = Ok (name, stock, price) ->
  Js.truthy name = false \/ stock = JUndefined \/ price = JUndefined ->
  run cfg env ev t
  = (Ok (respond 400 (ErrorBody "Missing required fields: name, stock, price")),
     {| table := t; drawn := 0; calls := 0 |}).
Proof.
  intros Hm Hp Hd Hmiss.
  unfold run. rewrite (handler_body_post cfg env ev Hm).
  rewrite (post_run cfg env ev v name stock price _ Hp Hd).
  assert (Hc : negb (Js.truthy name) || negb (Js.defined stock)
               || negb (Js.defined price) = true).
  { destruct Hmiss as [-> | [-> | ->]]; simpl;
      rewrite ?orb_true_r; reflexivity. }
  rewrite Hc. reflexivity.
Qed.

(** Zero is accepted for [stock] and for [price]: with a non-empty string
    [name], a 32-byte key and a row that the backend accepts, the
    request is answered 201. *)
Lemma create_accepts_zero (ev : Event) (v : JsValue) (s : string)
    (stock price : JsValue) (ts tp : string) (t : Table) :
  httpMethod ev = "POST" ->
  parse_body (body ev) = Ok v ->
  destructure v = Ok (JStr s, stock, price) ->
  s <> EmptyString ->
  stock = JNum 0 \/ price = JNum 0 ->
  Js.defined stock = true -> Js.defined price = true ->
  Js.to_string stock = Ok ts -> Js.to_string price = Ok tp ->
  length (Cipher.ENCRYPTION_KEY cfg) = 32 ->
  fault env (PutRequest (created_row cfg env s ts tp)) = None ->
  fst (handler cfg env ev t)
  = Ok (respond 201
          (CreatedBody "Item created successfully" (uuid env)
             (JStr s) stock price)).
Proof.
  intros Hm Hp Hd Hs _ Hst Hpr Hts Htp Hk Hf.
  destruct (create_writes_holds cfg t env ev v s stock price ts tp
              Hm Hp Hd Hs Hst Hpr Hts Htp Hk Hf) as (c1 & c2 & c3 & _ & H & _).
  rewrite H. reflexivity.
Qed.

End CreateProperties.

(** ** The secret key *)

(** The configuration the deployment documents: a key of 64 hexadecimal
    characters. *)
Fixpoint all_hex (s : string) : bool :=
  match s with
  | EmptyString => true
  | String c rest =>
      match Hex.hex_value c with
      | Some _ => all_hex rest
      | None => false
      end
  end.

Definition valid_secret (cfg : Config) : bool :=
  module_loads cfg && all_hex (secretKey cfg).

Lemma length_decode_all_hex (n : nat) (s : string) :
  String.length s <= n -> all_hex s = true ->
  length (Hex.decode s) = String.length s / 2.
Proof.
  revert s. induction n as [n IH] using lt_wf_ind. intros s Hn Hs.
  destruct s as [|c1 [|c2 rest]]; [reflexivity | reflexivity |].
  simpl in Hs. simpl Hex.decode.
  destruct (Hex.hex_value c1); [|discriminate].
  destruct (Hex.hex_value c2); [|discriminate].
  simpl length. simpl String.length in *.
  rewrite (IH (n - 2)) by (lia || assumption).
  change (S (S (String.length rest))) with (1 * 2 + String.length rest)%nat.
  rewrite Nat.div_add_l by lia. lia.
Qed.

(** A valid secret decodes to the 32 bytes AES-256 needs. *)
Lemma valid_secret_key_length (cfg : Config) :
  valid_secret cfg = true -> length (Cipher.ENCRYPTION_KEY cfg) = 32.
Proof.
  unfold valid_secret, module_loads, Cipher.ENCRYPTION_KEY.
  intros H. apply andb_true_iff in H as [Hlen Hhex].
  apply Nat.eqb_eq in Hlen.
  rewrite (length_decode_all_hex _ _ (le_n _) Hhex), Hlen. reflexivity.
Qed.

(** ** Responses of the supported methods *)

Module CorsFacts.
Import Handler HandlerFacts.

(** Every response a computation returns carries the cross-origin
    headers. *)
Definition cors (m : M State Response) : Prop :=
  forall st r st', m st = (Ok r, st') -> has_cors r = true.

Lemma cors_respond (code : nat) (b : ResponseBody) : cors (ret (respond code b)).
Proof. intros st r st' [= <- _]. reflexivity. Qed.

Lemma cors_bind {A} (m : M State A) (k : A -> M State Response) :
  (forall a, cors (k a)) -> cors (bind m k).
Proof.
  intros Hk st r st'. unfold bind.
  destruct (m st) as [[a|e] s1]; [apply Hk | discriminate].
Qed.

(** A [catch] block that always answers, with the headers. *)
Definition catches (h : Exn -> M State Response) : Prop :=
  forall e st, exists r st', h e st = (Ok r, st') /\ has_cors r = true.

Lemma cors_try_catch (m : M State Response) (h : Exn -> M State Response) :
  cors m -> catches h ->
  forall st, exists r st',
    try_catch m h st = (Ok r, st') /\ has_cors r = true.
Proof.
  intros Hm Hh st. unfold try_catch.
  destruct (m st) as [[r|e] s1] eqn:E.
  - exists r, s1. split; [reflexivity | eapply Hm, E].
  - apply Hh.
Qed.

Lemma catches_respond (code : nat) (b : ResponseBody) :
  catches (fun _ => ret (respond code b)).
Proof. intros e st. exists (respond code b), st. split; reflexivity. Qed.

Ltac cors_step :=
  first
    [ apply cors_respond
    | apply cors_bind; intro
    | match goal with
      | |- cors (if ?b then _ else _) => destruct b
      | |- cors (match ?x with _ => _ end) => destruct x
      end ].

Section WithRuntime.
Context `{RT : Runtime}.
Variable cfg : Config.
Variable env : Env.

Lemma cors_post_try (ev : Event) : cors (post_try cfg env ev).
Proof. unfold post_try. repeat cors_step. Qed.

Lemma cors_get_try (ev : Event) : cors (get_try cfg env ev).
Proof. unfold get_try. repeat cors_step. Qed.

Lemma cors_put_try (ev : Event) : cors (put_try cfg env ev).
Proof. unfold put_try, send_update. repeat cors_step. Qed.

Lemma cors_delete_try (ev : Event) : cors (delete_try cfg env ev).
Proof. unfold delete_try. repeat cors_step. Qed.

Lemma catches_put_catch : catches put_catch.
Proof.
  intros e st. unfold put_catch.
  destruct (bool_decide _); eexists; eexists; split; reflexivity.
Qed.

(** For POST, GET, PUT and DELETE the handler always answers, never
    throws, and the answer carries the cross-origin headers. *)
Lemma supported_method_has_cors (ev : Event) (t : Table) :
  In (httpMethod ev) ["POST"; "GET"; "PUT"; "DELETE"] ->
  exists r, fst (handler cfg env ev t) = Ok r /\ has_cors r = true.
Proof.
  intros Hm. unfold handler, run, handler_body. simpl fst.
  set (st := {| table := t; drawn := 0; calls := 0 |}).
  destruct (String.eqb_spec (httpMethod ev) "POST").
  { destruct (cors_try_catch _ _ (cors_post_try ev)
                (catches_respond 500 (ErrorBody "Failed to create item")) st)
      as (r & st' & H & Hc).
    unfold post. rewrite H. eauto. }
  destruct (String.eqb_spec (httpMethod ev) "GET").
  { destruct (cors_try_catch _ _ (cors_get_try ev)
                (catches_respond 500 (ErrorBody "Failed to retrieve items")) st)
      as (r & st' & H & Hc).
    unfold get. rewrite H. eauto. }
  destruct (String.eqb_spec (httpMethod ev) "PUT").
  { destruct (cors_try_catch _ _ (cors_put_try ev) catches_put_catch st)
      as (r & st' & H & Hc).
    unfold put. rewrite H. eauto. }
  destruct (String.eqb_spec (httpMethod ev) "DELETE").
  { destruct (cors_try_catch _ _ (cors_delete_try ev)
                (catches_respond 500 (ErrorBody "Failed to delete item")) st)
      as (r & st' & H & Hc).
    unfold delete. rewrite H. eauto. }
  simpl in Hm. intuition congruence.
Qed.

End WithRuntime.

End CorsFacts.

(** ** Closed examples *)

(** Create of [{ name: "apple", stock: 10, price: 2.5 }]. *)
Definition create_apple : Event :=
  Sample.request "POST" []
    (Sample.obj [("name", JStr "apple"); ("stock", JNum 10); ("price", JNum 2.5)]).

(** The table after that create on the empty table. *)
Definition apple_table : Table :=
  snd (Handler.handler Sample.cfg Sample.env create_apple ∅).

(** A table holding one row written by the earlier handler. *)
Definition plain_table : Table := {["a1" := plain_row]}.

(** Update of the stock of the created row to zero. *)
Definition zero_apple_stock : Event :=
  Sample.request "PUT" [("id", uuid Sample.env)] (Sample.obj [("stock", JNum 0)]).





(** The row that Create writes for [{ name: "apple", stock: 10,
    price: 5 }], and the table that holds it. *)
Definition sealed_row : Item :=
  created_row Sample.cfg Sample.env "apple" "10" "5".

Definition sealed_table : Table := {[uuid Sample.env := sealed_row]}.

(** A cipher text of "apple" written with upper-case digits. *)
Definition upper_apple_cipher : string :=
  "2A2B2C2D2E2F30313233343536373839:4B5A5E424F213D3D3131353531313D3D".

Definition upper_row : Item :=
  <["name" := JStr upper_apple_cipher]> sealed_row.


(** At the table reached by one create: the invariant holds, and the
    update of the stock to zero is answered 200 and replaces the stock,
    and only the stock, by the cipher text of "0". *)
Lemma stored_fields_cipher_form_witness :
  table_ok apple_table
  /\ exists cs item row,
       apple_table !! uuid Sample.env = Some row
       /\ Handler.handler Sample.cfg Sample.env zero_apple_stock apple_table
          = (Ok (respond 200 (UpdatedBody "Item updated successfully" item)),
             <[uuid Sample.env := <["stock" := JStr cs]> row]> apple_table)
       /\ encrypted_as Sample.cfg cs "0".
Proof.
  destruct (@stored_fields_cipher_form Sample.runtime Sample.cfg ∅ apple_table)
    as (Hok & _ & Hupdate).
  { apply StoreFacts.table_ok_empty. }
  { unfold apple_table. apply reachable_step, reachable_start. }
  split; [exact Hok|].
  destruct (apple_table !! uuid Sample.env) as [row|] eqn:Hrow;
    [|vm_compute in Hrow; discriminate].
  destruct (Hupdate Sample.env zero_apple_stock
              (list_to_map [("id", uuid Sample.env)]) (uuid Sample.env)
              (JObject [("stock", JNum 0)]) JUndefined (JNum 0) JUndefined
              EmptyString "0" "undefined" row)
    as (cn & cs & cp & item & Hc & Hrun & _ & Hn & Hs & Hp);
    [ reflexivity | reflexivity | vm_compute; reflexivity | discriminate
    | reflexivity | reflexivity | discriminate | reflexivity
    | reflexivity | reflexivity | vm_compute; reflexivity | reflexivity
    | exact Hrow | ].
  simpl in Hn, Hs, Hp. destruct Hs as (c & -> & Hs). subst cn cp.
  exists c, item, row. split; [reflexivity|]. split; [exact Hrun | exact Hs].
Defined.

(** C2 fails on the code. An update of the stock of a row that the
    earlier handler wrote is answered 200, and the stored row keeps its
    name "apple" and its price 2.5 in clear: the row stored after the
    update is not in cipher form. *)
Lemma update_leaves_plain_fields :
  (exists item,
     fst (Handler.handler Sample.cfg Sample.env
            (Sample.request "PUT" [("id", "a1")] (Sample.obj [("stock", JNum 0)]))
            plain_table)
     = Ok (respond 200 (UpdatedBody "Item updated successfully" item)))
  /\ (exists row cs,
        snd (Handler.handler Sample.cfg Sample.env
               (Sample.request "PUT" [("id", "a1")]
                  (Sample.obj [("stock", JNum 0)]))
               plain_table) !! "a1" = Some row
        /\ row !! "name" = Some (JStr "apple")
        /\ row !! "stock" = Some (JStr cs)
        /\ Cipher.cipher_form cs = true
        /\ row !! "price" = Some (JNum 2.5)
        /\ row_ok "a1" row = false)
  /\ Cipher.cipher_form "apple" = false.
Proof.
  split; [|split].
  - eexists. vm_compute. reflexivity.
  - eexists. eexists. split; [vm_compute; reflexivity|].
    repeat split; vm_compute; reflexivity.
  - reflexivity.
Qed.

(** C5 fails on the code. A stored name written with upper-case
    hexadecimal digits is not of the serialized cipher form, and
    [decryptItem] does not return the row unchanged: it decrypts it. *)
Lemma decryptItem_reads_upper_case_hex :
  Cipher.cipher_form upper_apple_cipher = false
  /\ upper_row !! "name" = Some (JStr upper_apple_cipher)
  /\ Handler.decryptItem Sample.cfg (Some upper_row)
     = Ok (Some (in_clear upper_row "apple" "10" "5"))
  /\ in_clear upper_row "apple" "10" "5" !! "name" = Some (JStr "apple").
Proof. repeat split; vm_compute; reflexivity. Qed.

(** C6 fails on the code. An update that names an id absent from the
    table, with the body [{ "stock": { "toString": 1 } }], is answered
    500: [String(stock)] throws before the table is called. *)
Lemma update_absent_id_server_error :
  Handler.run Sample.cfg Sample.env
    (Sample.request "PUT" [("id", "a1")]
       (Sample.obj [("stock", JObject [("toString", JNum 1)])])) ∅
  = (Ok (respond 500 (ErrorBody "Failed to update item")),
     {| table := ∅; drawn := 0; calls := 0 |}).
Proof. vm_compute. reflexivity. Qed.

(** Deleting the row of [sealed_table] twice: the first answer shows
    the name "apple", the stock 10 and the price 5. *)
Lemma delete_present_then_absent_witness :
  exists st' st'',
    Handler.run Sample.cfg Sample.env
      (Sample.request "DELETE" [("id", uuid Sample.env)] BodyAbsent)
      sealed_table
    = (Ok (respond 200
             (DeletedBody "Item deleted successfully"
                (Some (<["price" := JNum 5]>
                         (<["stock" := JNum 10]>
                            (<["name" := JStr "apple"]> sealed_row)))))),
       st')
    /\ table st' = base.delete (uuid Sample.env) sealed_table
    /\ table st' !! uuid Sample.env = None
    /\ Handler.run Sample.cfg Sample.env
         (Sample.request "DELETE" [("id", uuid Sample.env)] BodyAbsent)
         (table st')
       = (Ok (respond 404 (ErrorBody "Item not found")), st'')
    /\ table st'' = table st'.
Proof.
  destruct (@delete_present_then_absent Sample.runtime Sample.cfg
              Sample.env Sample.env
              (Sample.request "DELETE" [("id", uuid Sample.env)] BodyAbsent)
              (list_to_map [("id", uuid Sample.env)]) (uuid Sample.env)
              sealed_row sealed_table)
    as (item & st' & st'' & Hrun & _ & Hclear & Ht & Hgone & Hrun' & Ht');
    [ reflexivity | reflexivity | reflexivity | discriminate
    | reflexivity | reflexivity | reflexivity | ].
  destruct (Hclear
              (HandlerFacts.sealed Sample.cfg
                 (HandlerFacts.iv_from Sample.env 0) "apple")
              (HandlerFacts.sealed Sample.cfg
                 (HandlerFacts.iv_from Sample.env 16) "10")
              (HandlerFacts.sealed Sample.cfg
                 (HandlerFacts.iv_from Sample.env 32) "5")
              "apple" "10" "5") as [Hitem _];
    [ vm_compute; reflexivity | reflexivity | reflexivity | reflexivity
    | apply sealed_encrypted_as; reflexivity
    | apply sealed_encrypted_as; reflexivity
    | apply sealed_encrypted_as; reflexivity | ].
  exists st', st''. rewrite Hrun, Hitem.
  split; [vm_compute; reflexivity|]. auto.
Defined.




(** C4 fails on the earlier handler. Create of
    [{ name: "apple", stock: 0, price: 2.5 }] is answered 400 "Missing
    required fields" by the earlier handler, which tests [!stock], and is
    accepted with 201 by the handler with encryption, which tests
    [stock === undefined]. *)
Theorem legacy_create_rejects_zero_stock :
  let ev :=
    Sample.request "POST" []
      (Sample.obj [("name", JStr "apple"); ("stock", JNum 0);
                   ("price", JNum 2.5)]) in
  Legacy.handler Sample.env ev ∅
  = (Ok (respond 400 (ErrorBody "Missing required fields: name, stock, price")),
     ∅)
  /\ fst (Handler.handler Sample.cfg Sample.env ev ∅)
     = Ok (respond 201
             (CreatedBody "Item created successfully" (uuid Sample.env)
                (JStr "apple") (JNum 0) (JNum 2.5))).
Proof. split; vm_compute; reflexivity. Qed.

(** * Further properties of the code *)

(** ** The token authorizer *)

Module AuthorizerFacts.
Import Authorizer.

Lemma prefix_slice (p s : string) :
  String.prefix p s = true -> s = p +:+ slice (String.length p) s.
Proof.
  revert s. induction p as [|c p IH]; intros s H; [reflexivity|].
  destruct s as [|d s]; [discriminate|]. simpl in H.
  destruct (ascii_dec c d) as [<- | ]; [|discriminate].
  rewrite HexFacts.append_cons. simpl. f_equal. apply IH, H.
Qed.

(** The tokens the authorizer lets through. *)
Definition accepted (token : JsValue) : bool :=
  match token with
  | JStr t =>
      String.eqb t "correct-token" || String.eqb t "Bearer correct-token"
  | _ => false
  end.

(** The policy that allows the invocation of [arn]. *)
Definition allow (arn : JsValue) : AuthResponse :=
  {| principalId := "user";
     policyDocument :=
       {| Version := "2012-10-17";
          Statements := [{| Action := "execute-api:Invoke";
                            Effect := "Allow";
                            Resource := arn |}] |};
     contextUser := "user" |}.

End AuthorizerFacts.

(** The authorizer lets exactly two tokens through, "correct-token" and
    "Bearer correct-token", and answers them with the policy that allows
    the requested method; for every other value of the token (missing,
    empty, not a string, any other text) it throws
    [new Error('Unauthorized')] and nothing else. *)
Theorem authorizer_accepts_exactly (event : Authorizer.AuthEvent) :
  Authorizer.handler event
  = if AuthorizerFacts.accepted (Authorizer.authorizationToken event)
    then inr (AuthorizerFacts.allow (Authorizer.methodArn event))
    else inl (Authorizer.ErrorOf "Unauthorized").
Proof.
  unfold Authorizer.handler, Authorizer.handler_try, AuthorizerFacts.accepted.
  destruct event as [token arn].
  cbn [Authorizer.authorizationToken Authorizer.methodArn].
  destruct token as [| |b|n|t|l|o]; cbn [Js.truthy]; try reflexivity.
  - destruct b; reflexivity.
  - destruct (negb _); reflexivity.
  - destruct (String.eqb t EmptyString) eqn:H0.
    + apply String.eqb_eq in H0. subst t. reflexivity.
    + cbn [negb]. cbv iota.
      destruct (String.prefix "Bearer " t) eqn:Hp.
      * apply AuthorizerFacts.prefix_slice in Hp.
        change (String.length "Bearer ") with 7 in Hp.
        destruct (String.eqb (Authorizer.slice 7 t) "correct-token") eqn:Hs.
        -- apply String.eqb_eq in Hs. rewrite Hs in Hp. subst t. reflexivity.
        -- assert (Ht : String.eqb t "Bearer correct-token" = false).
           { apply String.eqb_neq. intros ->. discriminate Hs. }
           assert (Ht' : String.eqb t "correct-token" = false).
           { apply String.eqb_neq. intros ->. discriminate Hp. }
           rewrite Ht, Ht'. reflexivity.
      * destruct (String.eqb t "correct-token") eqn:Hs; [reflexivity|].
        assert (Ht : String.eqb t "Bearer correct-token" = false).
        { apply String.eqb_neq. intros ->. discriminate Hp. }
        rewrite Ht. reflexivity.
Qed.

(** ** The secret key and the cipher *)

Module KeyFacts.

(** Decoding stops at the first pair with a character that is not a
    hexadecimal digit, so such a string decodes to fewer bytes than half
    its length. *)
Lemma decode_short (n : nat) (s : string) :
  String.length s <= n -> all_hex s = false ->
  2 * length (Hex.decode s) < String.length s.
Proof.
  revert s. induction n as [n IH] using lt_wf_ind. intros s Hn Hs.
  destruct s as [|c1 [|c2 rest]]; [discriminate | simpl; lia |].
  simpl in Hs. simpl Hex.decode.
  destruct (Hex.hex_value c1); [|simpl; lia].
  destruct (Hex.hex_value c2); [|simpl; lia].
  simpl length. simpl String.length in *.
  specialize (IH (n - 2) ltac:(lia) rest ltac:(lia) Hs). lia.
Qed.

Lemma length_hex_encode (buf : list byte) :
  String.length (Hex.encode buf) = 2 * length buf.
Proof.
  induction buf as [|b buf IH]; [reflexivity|].
  rewrite HexFacts.encode_cons, HexFacts.length_append, IH,
    HexFacts.length_hex_of_byte.
  simpl length. lia.
Qed.

Section WithRuntime.
Context `{RT : Runtime}.
Variable cfg : Config.

(** What a successful [encrypt] has done. *)
Lemma encrypt_with_inv (iv : list byte) (v : JsValue) (c : string) :
  Cipher.encrypt_with cfg iv v = Ok c ->
  length (Cipher.ENCRYPTION_KEY cfg) = 32 /\ length iv = 16
  /\ exists s,
       v = JStr s
       /\ c = Cipher.serialize iv
                (Cipher.cipher_run (Cipher.ENCRYPTION_KEY cfg) iv
                   (Text.encode (list_byte_of_string s))).
Proof.
  unfold Cipher.encrypt_with, Cipher.check_key_iv,
    Cipher.KEY_LENGTH, Cipher.IV_LENGTH.
  destruct (Nat.eqb_spec (length (Cipher.ENCRYPTION_KEY cfg)) 32) as [Hk|];
    [|discriminate].
  destruct (Nat.eqb_spec (length iv) 16) as [Hiv|]; [|discriminate].
  simpl. destruct v; try discriminate.
  intros [= <-]. eauto.
Qed.

End WithRuntime.

End KeyFacts.

Section KeyProperties.
Context `{RT : Runtime}.
Variable cfg : Config.

(** When the module loads (the secret has 64 characters), the key has the
    32 bytes [aes-256-cbc] needs exactly when every character of the
    secret is a hexadecimal digit: the length test alone does not
    guarantee a usable key. *)
Theorem secret_key_usable_iff :
  module_loads cfg = true ->
  (length (Cipher.ENCRYPTION_KEY cfg) = 32 <-> all_hex (secretKey cfg) = true).
Proof.
  unfold module_loads, Cipher.ENCRYPTION_KEY. intros Hlen.
  apply Nat.eqb_eq in Hlen. split.
  - intros H32. destruct (all_hex (secretKey cfg)) eqn:Hhex; [reflexivity|].
    pose proof (KeyFacts.decode_short _ _ (le_n _) Hhex). lia.
  - intros Hhex.
    rewrite (length_decode_all_hex _ _ (le_n _) Hhex), Hlen. reflexivity.
Qed.

(** With a secret that passes the length test but holds a character that
    is not a hexadecimal digit, every [encrypt] throws at
    [createCipheriv], so a create request that passes validation is
    answered 500 "Failed to create item" without any DynamoDB call and
    without any change to the table. *)
Theorem invalid_secret_fails_create (env : Env) (ev : Event)
    (v name stock price : JsValue) (t : Table) :
  module_loads cfg = true ->
  all_hex (secretKey cfg) = false ->
  httpMethod ev = "POST" ->
  parse_body (body ev) = Ok v ->
  destructure v = Ok (name, stock, price) ->
  Js.truthy name = true -> Js.defined stock = true ->
  Js.defined price = true ->
  fst (Handler.run cfg env ev t)
  = Ok (respond 500 (ErrorBody "Failed to create item"))
  /\ table (snd (Handler.run cfg env ev t)) = t
  /\ calls (snd (Handler.run cfg env ev t)) = 0.
Proof.
  intros Hload Hhex Hm Hp Hd Hn Hs Hpr.
  assert (Hkey : length (Cipher.ENCRYPTION_KEY cfg) <> 32).
  { unfold module_loads in Hload. apply Nat.eqb_eq in Hload.
    unfold Cipher.ENCRYPTION_KEY.
    pose proof (KeyFacts.decode_short _ _ (le_n _) Hhex). lia. }
  unfold Handler.run. rewrite (UpdateFacts.handler_body_post cfg env ev Hm).
  rewrite (CreateFacts.post_run cfg env ev v name stock price _ Hp Hd).
  rewrite Hn, Hs, Hpr. simpl orb. cbv iota zeta.
  assert (Henc : forall iv,
             Cipher.encrypt_with cfg iv name
             = Throw (CryptoError "ERR_CRYPTO_INVALID_KEYLEN")).
  { intros iv. unfold Cipher.encrypt_with, Cipher.check_key_iv,
      Cipher.KEY_LENGTH.
    destruct (Nat.eqb_spec (length (Cipher.ENCRYPTION_KEY cfg)) 32);
      [contradiction | reflexivity]. }
  rewrite Henc. repeat split; reflexivity.
Qed.

(** Two cipher texts made with different ivs differ, whatever the
    plain texts: equal plain texts encrypted with different ivs are
    stored as different strings. *)
Theorem distinct_ivs_distinct_cipher_texts (iv1 iv2 : list byte)
    (v1 v2 : JsValue) (c1 c2 : string) :
  Cipher.encrypt_with cfg iv1 v1 = Ok c1 ->
  Cipher.encrypt_with cfg iv2 v2 = Ok c2 ->
  iv1 <> iv2 -> c1 <> c2.
Proof.
  intros H1 H2 Hne Heq.
  apply KeyFacts.encrypt_with_inv in H1 as (_ & _ & s1 & _ & ->).
  apply KeyFacts.encrypt_with_inv in H2 as (_ & _ & s2 & _ & ->).
  apply (f_equal (Str.split ":")) in Heq.
  rewrite !WireFacts.split_serialize in Heq.
  injection Heq as Hiv _.
  apply (f_equal Hex.decode) in Hiv.
  rewrite !HexFacts.decode_encode in Hiv. contradiction.
Qed.

(** The cipher text of a string of [n] bytes has 32 characters of iv, a
    colon, and 32 characters for each of its [n / 16 + 1] blocks: the
    padding always adds between 1 and 16 bytes. *)
Theorem cipher_text_length (iv : list byte) (s c : string) :
  Cipher.encrypt_with cfg iv (JStr s) = Ok c ->
  String.length c = 65 + 32 * (length (list_byte_of_string s) / 16).
Proof.
  intros H.
  apply KeyFacts.encrypt_with_inv in H as (Hk & Hiv & s' & [= <-] & ->).
  rewrite WireFacts.serialize_eq, HexFacts.length_append. simpl String.length.
  rewrite !KeyFacts.length_hex_encode, Hiv.
  rewrite (CipherFacts.length_cipher_run _ _ _ Hk Hiv).
  rewrite TextFacts.length_encode. lia.
Qed.

End KeyProperties.

(** A secret of 64 characters that are not hexadecimal digits. *)
Definition bad_cfg : Config :=
  {| secretKey :=
       "zz0102030405060708090a0b0c0d0e0f101112131415161718191a1b1c1d1e1f" |}.

Lemma secret_key_usable_iff_witness :
  length (Cipher.ENCRYPTION_KEY Sample.cfg) = 32
  <-> all_hex (secretKey Sample.cfg) = true.
Proof. apply (secret_key_usable_iff Sample.cfg). reflexivity. Defined.

Lemma invalid_secret_fails_create_witness :
  fst (Handler.run bad_cfg Sample.env create_apple ∅)
  = Ok (respond 500 (ErrorBody "Failed to create item"))
  /\ table (snd (Handler.run bad_cfg Sample.env create_apple ∅)) = ∅
  /\ calls (snd (Handler.run bad_cfg Sample.env create_apple ∅)) = 0.
Proof.
  apply (@invalid_secret_fails_create Sample.runtime bad_cfg Sample.env
           create_apple
           (JObject [("name", JStr "apple"); ("stock", JNum 10);
                     ("price", JNum 2.5)])
           (JStr "apple") (JNum 10) (JNum 2.5) ∅);
    reflexivity.
Defined.

Lemma distinct_ivs_distinct_cipher_texts_witness :
  "2a2b2c2d2e2f30313233343536373839:4b5a5e424f213d3d3131353531313d3d"
  <> "3a3b3c3d3e3f40414243444546474849:5b4a4e525f314d4d4141454541414d4d".
Proof.
  apply (@distinct_ivs_distinct_cipher_texts Sample.runtime Sample.cfg
           (map (fun i => Cipher.byte_of_nat (42 + i)) (seq 0 16))
           (map (fun i => Cipher.byte_of_nat (58 + i)) (seq 0 16))
           (JStr "apple") (JStr "apple")).
  - vm_compute. reflexivity.
  - vm_compute. reflexivity.
  - vm_compute. discriminate.
Defined.

Lemma cipher_text_length_witness :
  String.length
    "2a2b2c2d2e2f30313233343536373839:4b5a5e424f213d3d3131353531313d3d"
  = 65 + 32 * (length (list_byte_of_string "apple") / 16).
Proof.
  apply (@cipher_text_length Sample.runtime Sample.cfg
           (map (fun i => Cipher.byte_of_nat (42 + i)) (seq 0 16)) "apple").
  vm_compute. reflexivity.
Defined.

(** ** The record codec on rows of any shape *)

(** The record a client sees: the id, the name and the two numbers. *)
Definition plain_record (id name : string) (stock price : float) : Item :=
  <["price" := JNum price]>
    (<["stock" := JNum stock]>
       (<["name" := JStr name]> {["id" := JStr id]})).

Module CodecFacts.
Import Handler.

Section WithRuntime.
Context `{RT : Runtime}.
Variable cfg : Config.

Lemma plain_of_new_item (id c1 c2 c3 s : string) (stock price : float) :
  <["price" := JNum price]>
    (<["stock" := JNum stock]>
       (<["name" := JStr s]> (CreateFacts.new_item id c1 c2 c3)))
  = plain_record id s stock price.
Proof.
  unfold CreateFacts.new_item, plain_record.
  apply map_eq. intros k.
  destruct (decide (k = "price")) as [-> | Hp];
    [rewrite !lookup_insert_eq; reflexivity|].
  destruct (decide (k = "stock")) as [-> | Hs].
  { rewrite !(lookup_insert_ne _ "price") by discriminate.
    rewrite !lookup_insert_eq. reflexivity. }
  destruct (decide (k = "name")) as [-> | Hn].
  { rewrite !(lookup_insert_ne _ "price"), !(lookup_insert_ne _ "stock")
      by discriminate.
    rewrite !lookup_insert_eq. reflexivity. }
  rewrite !lookup_insert_ne by congruence. reflexivity.
Qed.

(** The view of a row written by Create is the record that was
    submitted, as the texts are recovered from their bytes, numbers
    re-parsed from their strings. *)
Lemma decryptItem_try_new_item (id c1 c2 c3 s ts tp : string) :
  length (Cipher.ENCRYPTION_KEY cfg) = 32 ->
  encrypted_as cfg c1 s -> encrypted_as cfg c2 ts -> encrypted_as cfg c3 tp ->
  decryptItem_try cfg (CreateFacts.new_item id c1 c2 c3)
  = Ok (plain_record id (Text.recovered s)
          (number_of_string (Text.recovered ts))
          (number_of_string (Text.recovered tp))).
Proof.
  intros Hk H1 H2 H3.
  rewrite (decryptItem_try_encrypted cfg _ c1 c2 c3 s ts tp Hk
             (CreateFacts.new_item_name _ _ _ _)
             (CreateFacts.new_item_stock _ _ _ _)
             (CreateFacts.new_item_price _ _ _ _) H1 H2 H3).
  unfold in_clear. rewrite plain_of_new_item. reflexivity.
Qed.

End WithRuntime.

End CodecFacts.

Section RecordProperties.
Context `{RT : Runtime}.
Variable cfg : Config.
Import Handler.

(** [decryptItem] undoes what Create and Update do to a row: when the
    three fields of a row hold cipher texts of [s], [ts] and [tp] made
    under the key, the result is the row with [name] set to the text
    recovered from the bytes of [s], [stock] to [Number(_)] of the text
    recovered from [ts] and [price] likewise, every other attribute
    kept. The text recovered from a well-formed string is the string;
    a lone surrogate comes back as U+FFFD. *)
Theorem decryptItem_decrypts_encrypted_row (row : Item)
    (c1 c2 c3 s ts tp : string) :
  length (Cipher.ENCRYPTION_KEY cfg) = 32 ->
  row !! "name" = Some (JStr c1) -> row !! "stock" = Some (JStr c2) ->
  row !! "price" = Some (JStr c3) ->
  encrypted_as cfg c1 s -> encrypted_as cfg c2 ts -> encrypted_as cfg c3 tp ->
  decryptItem cfg (Some row)
  = Ok (Some (in_clear row (Text.recovered s) (Text.recovered ts)
                (Text.recovered tp)))
  /\ (Text.well_formed s = true -> Text.well_formed ts = true ->
      Text.well_formed tp = true ->
      decryptItem cfg (Some row) = Ok (Some (in_clear row s ts tp))).
Proof.
  intros Hk Hn Hs Hp H1 H2 H3.
  assert (H : decryptItem cfg (Some row)
              = Ok (Some (in_clear row (Text.recovered s) (Text.recovered ts)
                            (Text.recovered tp)))).
  { simpl.
    rewrite (decryptItem_try_encrypted cfg row c1 c2 c3 s ts tp
               Hk Hn Hs Hp H1 H2 H3).
    reflexivity. }
  split; [exact H|].
  intros W1 W2 W3. rewrite H.
  rewrite (recovered_well_formed s W1), (recovered_well_formed ts W2),
    (recovered_well_formed tp W3).
  reflexivity.
Qed.

(** [decryptItem] is all or nothing and touches three attributes only:
    for every row it returns, without throwing, either the row itself or
    a row whose [name] is a string and whose [stock] and [price] are
    numbers; in both cases every attribute other than [name], [stock]
    and [price] is what it was. *)
Theorem decryptItem_all_or_nothing (row : Item) :
  exists r,
    decryptItem cfg (Some row) = Ok (Some r)
    /\ (r = row
        \/ exists s n p,
             r !! "name" = Some (JStr s) /\ r !! "stock" = Some (JNum n)
             /\ r !! "price" = Some (JNum p))
    /\ forall k, k <> "name" -> k <> "stock" -> k <> "price" ->
                 r !! k = row !! k.
Proof.
  simpl. unfold decryptItem_try.
  destruct (Cipher.decrypt cfg (attr row "name")) as [s|];
    [|exists row; auto].
  destruct (Cipher.decrypt cfg (attr row "stock")) as [ts|];
    [|exists row; auto].
  destruct (Cipher.decrypt cfg (attr row "price")) as [tp|];
    [|exists row; auto].
  eexists. split; [reflexivity|]. split.
  - right. exists s, (number_of_string ts), (number_of_string tp).
    rewrite lookup_insert_ne, lookup_insert_ne, lookup_insert_eq by discriminate.
    rewrite lookup_insert_ne, lookup_insert_eq by discriminate.
    rewrite lookup_insert_eq. auto.
  - intros k Hn Hs Hp. rewrite !lookup_insert_ne by congruence. reflexivity.
Qed.

End RecordProperties.

(** The cipher text of "apple" under the sample key and the iv 42, 43,
    ... *)
Definition apple_cipher : string :=
  "2a2b2c2d2e2f30313233343536373839:4b5a5e424f213d3d3131353531313d3d".

Lemma apple_cipher_encrypted : encrypted_as Sample.cfg apple_cipher "apple".
Proof.
  exists (map (fun i => Cipher.byte_of_nat (42 + i)) (seq 0 16)).
  split; vm_compute; reflexivity.
Qed.

(** A row whose three fields hold that cipher text, with one more
    attribute. *)
Definition tagged_row : Item :=
  <["tag" := JStr "fruit"]>
    (CreateFacts.new_item "a1" apple_cipher apple_cipher apple_cipher).

(** The row that Create writes for "apple", 10 and 5 comes back in
    clear. *)
Lemma decryptItem_decrypts_encrypted_row_witness :
  Handler.decryptItem Sample.cfg (Some sealed_row)
  = Ok (Some (<["price" := JNum 5]>
                (<["stock" := JNum 10]>
                   (<["name" := JStr "apple"]> sealed_row)))).
Proof.
  apply (@decryptItem_decrypts_encrypted_row Sample.runtime Sample.cfg
           sealed_row
           (HandlerFacts.sealed Sample.cfg
              (HandlerFacts.iv_from Sample.env 0) "apple")
           (HandlerFacts.sealed Sample.cfg
              (HandlerFacts.iv_from Sample.env 16) "10")
           (HandlerFacts.sealed Sample.cfg
              (HandlerFacts.iv_from Sample.env 32) "5")
           "apple" "10" "5");
    [ vm_compute; reflexivity | reflexivity | reflexivity | reflexivity
    | apply sealed_encrypted_as; reflexivity
    | apply sealed_encrypted_as; reflexivity
    | apply sealed_encrypted_as; reflexivity
    | reflexivity | reflexivity | reflexivity ].
Defined.

(** ** Read *)

Module ReadFacts.
Import Handler HandlerFacts UpdateFacts.

(** [filter] stops at the first item on which the predicate throws. *)
Lemma filter_res_throws {A} (pred : A -> Res bool) (l : list A) (x : A)
    (e : Exn) :
  In x l -> pred x = Throw e -> exists e', filter_res pred l = Throw e'.
Proof.
  induction l as [|y l IH]; intros Hin Hx; [destruct Hin|].
  simpl. destruct Hin as [-> | Hin].
  - rewrite Hx. eauto.
  - destruct (pred y); [|eauto].
    destruct (IH Hin Hx) as [e' ->]. eauto.
Qed.

Section WithRuntime.
Context `{RT : Runtime}.
Variable cfg : Config.

(** The read branch when no filter is asked for. *)
Lemma get_unfiltered (env : Env) (ev : Event) (t : Table) :
  httpMethod ev = "GET" ->
  param_missing (default ∅ (queryStringParameters ev) !! "name") = true ->
  fault env ScanRequest = None ->
  fst (handler cfg env ev t)
  = Ok (respond 200
          (ItemsBody (map (decrypt_view cfg) (Dynamo.first_page env t)))).
Proof.
  intros Hm Hname Hf. unfold handler, run.
  rewrite (handler_body_get cfg env ev Hm).
  unfold get, get_try, try_catch, bind.
  rewrite dynamo_scan_run, Hf. unfold lift at 1.
  rewrite map_decryptItem_view, Hname. reflexivity.
Qed.

End WithRuntime.

End ReadFacts.

Section ScanProperties.
Context `{RT : Runtime}.
Variable cfg : Config.
Import Handler HandlerFacts UpdateFacts.

(** A read never writes: whatever the request, the filter, the rows and
    the backend's answer, the table after a GET is the table before it,
    and the scan is the only DynamoDB call made. *)
Theorem read_leaves_table (env : Env) (ev : Event) (t : Table) :
  httpMethod ev = "GET" ->
  table (snd (run cfg env ev t)) = t /\ calls (snd (run cfg env ev t)) = 1.
Proof.
  intros Hm. unfold run. rewrite (handler_body_get cfg env ev Hm).
  unfold get, get_try, try_catch, bind.
  rewrite dynamo_scan_run.
  destruct (fault env _); [split; reflexivity|].
  unfold lift at 1.
  destruct (map_decryptItem cfg _) as [items|]; [|split; reflexivity].
  destruct (negb (param_missing _)); [|split; reflexivity].
  unfold lift. destruct (filter_res _ items); split; reflexivity.
Qed.

(** A page that holds the whole table. *)
Lemma first_page_whole (env : Env) (t : Table) :
  size t <= page env (map_to_list t).*2 ->
  Dynamo.first_page env t = (map_to_list t).*2.
Proof.
  intros H. unfold Dynamo.first_page. apply take_ge.
  rewrite length_fmap, length_map_to_list. exact H.
Qed.

(** When the backend serves the scan, a read without a name filter (no
    query string at all, no [name] parameter, or an empty one) is
    answered 200 with one item for each row of the first page of the
    scan: the decrypted row, or the row as stored when it cannot be
    decrypted. No row of the page is dropped and no read fails because
    of what a row holds. When the page holds the whole table, there is
    one item for each row of the table. *)
Theorem read_without_filter_lists_all (env : Env) (ev : Event) (t : Table) :
  httpMethod ev = "GET" ->
  param_missing (default ∅ (queryStringParameters ev) !! "name") = true ->
  fault env ScanRequest = None ->
  exists items,
    fst (handler cfg env ev t) = Ok (respond 200 (ItemsBody items))
    /\ length items = length (Dynamo.first_page env t)
    /\ (forall row, In row (Dynamo.first_page env t) ->
          match decryptItem_try cfg row with
          | Ok decrypted => In (Some decrypted) items
          | Throw _ => In (Some row) items
          end)
    /\ (size t <= page env (map_to_list t).*2 ->
        length items = size t
        /\ forall id row, t !! id = Some row ->
             match decryptItem_try cfg row with
             | Ok decrypted => In (Some decrypted) items
             | Throw _ => In (Some row) items
             end).
Proof.
  intros Hm Hname Hf.
  exists (map (decrypt_view cfg) (Dynamo.first_page env t)).
  split; [apply ReadFacts.get_unfiltered; assumption|].
  assert (Hrows : forall row, In row (Dynamo.first_page env t) ->
            match decryptItem_try cfg row with
            | Ok decrypted =>
                In (Some decrypted)
                  (map (decrypt_view cfg) (Dynamo.first_page env t))
            | Throw _ =>
                In (Some row) (map (decrypt_view cfg) (Dynamo.first_page env t))
            end).
  { intros row Hrow.
    assert (Hin : In (decrypt_view cfg row)
                    (map (decrypt_view cfg) (Dynamo.first_page env t))).
    { apply in_map, Hrow. }
    unfold decrypt_view in Hin at 1.
    destruct (decryptItem_try cfg row); exact Hin. }
  split; [apply length_map|]. split; [exact Hrows|].
  intros Hpage. split.
  - rewrite length_map, (first_page_whole env t Hpage), length_fmap.
    apply length_map_to_list.
  - intros id row Hrow. apply Hrows.
    rewrite (first_page_whole env t Hpage). apply rows_of_table. eauto.
Qed.

(** A filtered read needs a [name] on every item: if the first page of
    a scan that the backend serves holds a row without a [name]
    attribute, a read with a non-empty filter is answered 500 "Failed to
    retrieve items" ([item.name.includes] throws on that row), whatever
    the other rows are. *)
Theorem filtered_read_fails_on_nameless_row (env : Env) (ev : Event)
    (q : gmap string string) (f : string) (row : Item) (t : Table) :
  httpMethod ev = "GET" ->
  queryStringParameters ev = Some q -> q !! "name" = Some f ->
  f <> EmptyString ->
  fault env ScanRequest = None ->
  In row (Dynamo.first_page env t) -> row !! "name" = None ->
  fst (handler cfg env ev t)
  = Ok (respond 500 (ErrorBody "Failed to retrieve items")).
Proof.
  intros Hm Hq Hf Hne Hfault Hrow Hname. unfold handler, run.
  rewrite (handler_body_get cfg env ev Hm).
  unfold get, get_try, try_catch, bind.
  rewrite dynamo_scan_run, Hfault. unfold lift at 1.
  rewrite map_decryptItem_view, Hq.
  change (default ∅ (Some q)) with q.
  rewrite Hf, (param_missing_false f Hne). simpl negb. cbv iota.
  change (default EmptyString (Some f)) with f.
  assert (Hview : decrypt_view cfg row = Some row).
  { unfold decrypt_view, decryptItem_try, attr. rewrite Hname. reflexivity. }
  assert (Hin : In (Some row) (map (decrypt_view cfg) (Dynamo.first_page env t))).
  { apply in_map_iff. exists row. split; [exact Hview | exact Hrow]. }
  assert (Hthrow : name_includes f (Some row)
                   = Throw (TypeError "Cannot read properties of undefined")).
  { unfold name_includes, attr. rewrite Hname. reflexivity. }
  destruct (ReadFacts.filter_res_throws _ _ _ _ Hin Hthrow) as [e' He'].
  change (table {| table := t; drawn := 0; calls := 0 |}) with t.
  unfold lift. rewrite He'. reflexivity.
Qed.

(** Create then read: after a create whose row the backend accepts, on
    any table, a read without filter whose scan the backend serves and
    whose first page holds the created row lists the created record in
    clear, under the generated id: the name is the text recovered from
    the submitted name (the name itself when it is well formed) and
    stock and price are [Number(_)] of the texts recovered from
    [String(stock)] and [String(price)]. *)
Theorem create_then_read (env env' : Env) (create read : Event)
    (v : JsValue) (s : string) (stock price : JsValue) (ts tp : string)
    (t : Table) :
  httpMethod create = "POST" ->
  parse_body (body create) = Ok v ->
  destructure v = Ok (JStr s, stock, price) ->
  s <> EmptyString ->
  Js.defined stock = true -> Js.defined price = true ->
  Js.to_string stock = Ok ts -> Js.to_string price = Ok tp ->
  length (Cipher.ENCRYPTION_KEY cfg) = 32 ->
  fault env (PutRequest (created_row cfg env s ts tp)) = None ->
  httpMethod read = "GET" ->
  param_missing (default ∅ (queryStringParameters read) !! "name") = true ->
  fault env' ScanRequest = None ->
  In (created_row cfg env s ts tp)
    (Dynamo.first_page env' (snd (handler cfg env create t))) ->
  exists items,
    fst (handler cfg env create t)
    = Ok (respond 201
            (CreatedBody "Item created successfully" (uuid env)
               (JStr s) stock price))
    /\ fst (handler cfg env' read (snd (handler cfg env create t)))
       = Ok (respond 200 (ItemsBody items))
    /\ In (Some (plain_record (uuid env) (Text.recovered s)
                   (number_of_string (Text.recovered ts))
                   (number_of_string (Text.recovered tp)))) items
    /\ (Text.well_formed s = true -> Text.well_formed ts = true ->
        Text.well_formed tp = true ->
        In (Some (plain_record (uuid env) s (number_of_string ts)
                    (number_of_string tp))) items).
Proof.
  intros Hm Hp Hd Hs Hst Hpr Hts Htp Hk Hf Hm' Hname Hf' Hpage.
  destruct (create_writes_holds cfg t env create v s stock price ts tp
              Hm Hp Hd Hs Hst Hpr Hts Htp Hk Hf)
    as (c1 & c2 & c3 & Hrow & Hrun & H1 & H2 & H3).
  rewrite Hrun in Hpage |- *. cbn [fst snd] in *.
  rewrite (ReadFacts.get_unfiltered cfg env' read _ Hm' Hname Hf').
  eexists. split; [reflexivity|]. split; [reflexivity|].
  assert (Hin : In (Some (plain_record (uuid env) (Text.recovered s)
                            (number_of_string (Text.recovered ts))
                            (number_of_string (Text.recovered tp))))
                  (map (decrypt_view cfg)
                     (Dynamo.first_page env'
                        (<[uuid env := CreateFacts.new_item (uuid env) c1 c2 c3]>
                           t)))).
  { apply in_map_iff. exists (CreateFacts.new_item (uuid env) c1 c2 c3). split.
    - unfold decrypt_view.
      rewrite (CodecFacts.decryptItem_try_new_item cfg _ _ _ _ _ _ _
                 Hk H1 H2 H3).
      reflexivity.
    - rewrite Hrow in Hpage. exact Hpage. }
  split; [exact Hin|].
  intros W1 W2 W3.
  rewrite (recovered_well_formed s W1), (recovered_well_formed ts W2),
    (recovered_well_formed tp W3) in Hin.
  exact Hin.
Qed.

End ScanProperties.

(** A table with one row that has no [name]. *)
Definition nameless_table : Table := {["n1" := {["id" := JStr "n1"]}]}.

Definition read_all : Event := Sample.request "GET" [] BodyAbsent.

Lemma read_leaves_table_witness :
  table (snd (Handler.run Sample.cfg Sample.env read_all plain_table))
  = plain_table
  /\ calls (snd (Handler.run Sample.cfg Sample.env read_all plain_table)) = 1.
Proof.
  apply (@read_leaves_table Sample.runtime Sample.cfg Sample.env read_all
           plain_table).
  reflexivity.
Defined.

Lemma read_without_filter_lists_all_witness :
  exists items,
    fst (Handler.handler Sample.cfg Sample.env read_all plain_table)
    = Ok (respond 200 (ItemsBody items))
    /\ length items = 1
    /\ In (Some plain_row) items.
Proof.
  destruct (@read_without_filter_lists_all Sample.runtime Sample.cfg Sample.env
              read_all plain_table eq_refl eq_refl eq_refl)
    as (items & Hrun & _ & _ & Hall).
  destruct Hall as [Hlen Hrows]; [vm_compute; apply le_n|].
  exists items. split; [exact Hrun|]. split; [exact Hlen|].
  specialize (Hrows "a1" plain_row eq_refl).
  destruct (Handler.decryptItem_try Sample.cfg plain_row) eqn:E in Hrows;
    [vm_compute in E; discriminate | exact Hrows].
Defined.

Lemma filtered_read_fails_on_nameless_row_witness :
  fst (Handler.handler Sample.cfg Sample.env
         (Sample.request "GET" [("name", "a")] BodyAbsent) nameless_table)
  = Ok (respond 500 (ErrorBody "Failed to retrieve items")).
Proof.
  apply (@filtered_read_fails_on_nameless_row Sample.runtime Sample.cfg
           Sample.env (Sample.request "GET" [("name", "a")] BodyAbsent)
           (list_to_map [("name", "a")]) "a" {["id" := JStr "n1"]}
           nameless_table);
    [ reflexivity | reflexivity | reflexivity | discriminate | reflexivity
    | vm_compute; left; reflexivity | reflexivity ].
Defined.

(** Create of [{ name: "pear", stock: 10, price: 5 }]. *)
Definition create_pear : Event :=
  Sample.request "POST" []
    (Sample.obj [("name", JStr "pear"); ("stock", JNum 10); ("price", JNum 5)]).

Lemma create_then_read_witness :
  exists items,
    fst (Handler.handler Sample.cfg Sample.env read_all
           (snd (Handler.handler Sample.cfg Sample.env create_pear ∅)))
    = Ok (respond 200 (ItemsBody items))
    /\ In (Some (plain_record (uuid Sample.env) "pear" 10 5)) items.
Proof.
  destruct (@create_then_read Sample.runtime Sample.cfg Sample.env Sample.env
              create_pear read_all
              (JObject [("name", JStr "pear"); ("stock", JNum 10);
                        ("price", JNum 5)])
              "pear" (JNum 10) (JNum 5) "10" "5" ∅)
    as (items & _ & Hrun & _ & Hin);
    [ reflexivity | reflexivity | reflexivity | discriminate | reflexivity
    | reflexivity | reflexivity | reflexivity | vm_compute; reflexivity
    | reflexivity | reflexivity | reflexivity | reflexivity
    | vm_compute; left; reflexivity | ].
  exists items. split; [exact Hrun|].
  apply Hin; reflexivity.
Defined.

(** ** What every request does *)

Module StepFacts.
Import Handler.

(** Every value the computation returns satisfies [good]. *)
Definition yields {A} (good : A -> bool) (m : M State A) : Prop :=
  forall st a st', m st = (Ok a, st') -> good a = true.

(** The computation throws from every state. *)
Definition fails {A} (m : M State A) : Prop :=
  forall st, exists e st', m st = (Throw e, st').

(** The computation leaves the table as it is, whether it returns or
    throws. *)
Definition keeps {A} (m : M State A) : Prop :=
  forall st, table (snd (m st)) = table st.

(** A [catch] block that answers every exception with a [good]
    response. *)
Definition answers (good : Response -> bool) (h : Exn -> M State Response)
  : Prop :=
  forall e st, exists r st', h e st = (Ok r, st') /\ good r = true.

Definition any {A} (_ : A) : bool := true.

(** The status codes the handlers use. *)
Definition known_status (r : Response) : bool :=
  existsb (Nat.eqb (statusCode r)) [200; 201; 400; 404; 405; 500].

(** A client or server error. *)
Definition refusal (r : Response) : bool := Nat.leb 400 (statusCode r).

Lemma yields_ret {A} (good : A -> bool) (a : A) :
  good a = true -> yields good (ret a).
Proof. intros H st a' st' [= <- _]. exact H. Qed.

Lemma yields_bind {A B} (good : B -> bool) (m : M State A)
    (k : A -> M State B) :
  (forall a, yields good (k a)) -> yields good (bind m k).
Proof.
  intros Hk st b st'. unfold bind.
  destruct (m st) as [[a|e] s1]; [apply Hk | discriminate].
Qed.

Lemma yields_fails {A B} (good : B -> bool) (m : M State A)
    (k : A -> M State B) :
  fails m -> yields good (bind m k).
Proof.
  intros Hm st b st'. unfold bind.
  destruct (Hm st) as (e & s1 & ->). discriminate.
Qed.

Lemma answers_try_catch (good : Response -> bool) (m : M State Response)
    (h : Exn -> M State Response) :
  yields good m -> answers good h ->
  forall st, exists r st', try_catch m h st = (Ok r, st') /\ good r = true.
Proof.
  intros Hm Hh st. unfold try_catch.
  destruct (m st) as [[r|e] s1] eqn:E.
  - exists r, s1. split; [reflexivity | eapply Hm, E].
  - apply Hh.
Qed.

Lemma answers_respond (good : Response -> bool) (code : nat)
    (b : ResponseBody) :
  good (respond code b) = true -> answers good (fun _ => ret (respond code b)).
Proof. intros H e st. exists (respond code b), st. split; [reflexivity|exact H]. Qed.

Lemma keeps_ret {A} (a : A) : keeps (ret a).
Proof. intros st. reflexivity. Qed.

Lemma keeps_lift {A} (r : Res A) : keeps (lift r).
Proof. intros st. reflexivity. Qed.

Lemma keeps_bind {A B} (m : M State A) (k : A -> M State B) :
  keeps m -> (forall a, keeps (k a)) -> keeps (bind m k).
Proof.
  intros Hm Hk st. unfold bind. specialize (Hm st).
  destruct (m st) as [[a|e] s1]; simpl in Hm.
  - rewrite Hk. exact Hm.
  - exact Hm.
Qed.

Lemma keeps_try_catch {A} (m : M State A) (h : Exn -> M State A) :
  keeps m -> (forall e, keeps (h e)) -> keeps (try_catch m h).
Proof.
  intros Hm Hh st. unfold try_catch. specialize (Hm st).
  destruct (m st) as [[a|e] s1]; simpl in Hm.
  - exact Hm.
  - rewrite Hh. exact Hm.
Qed.

Lemma keeps_encrypt `{RT : Runtime} (cfg : Config) (env : Env) (v : JsValue) :
  keeps (Cipher.encrypt cfg env v).
Proof. intros st. reflexivity. Qed.

Ltac yields_step :=
  first
    [ apply yields_ret; reflexivity
    | apply yields_fails; solve [auto]
    | apply yields_bind; intro
    | match goal with
      | |- yields _ (if ?b then _ else _) => destruct b
      | |- yields _ (match ?x with _ => _ end) => destruct x
      end ].

Ltac keeps_step :=
  first
    [ apply keeps_ret
    | apply keeps_lift
    | apply keeps_encrypt
    | solve [auto]
    | apply keeps_bind; [|intro]
    | apply keeps_try_catch; [|intro]
    | match goal with
      | |- keeps (if ?b then _ else _) => destruct b
      | |- keeps (match ?x with _ => _ end) => destruct x
      end ].

Lemma bind_fails {A B} (m : M State A) (k : A -> M State B) :
  fails m -> fails (bind m k).
Proof.
  intros Hm st. unfold bind. destruct (Hm st) as (e & s1 & ->). eauto.
Qed.

Lemma bind_fails_keeps {A B} (m : M State A) (k : A -> M State B) :
  fails m -> keeps m -> keeps (bind m k).
Proof.
  intros Hf Hm st. unfold bind. specialize (Hm st).
  destruct (Hf st) as (e & s1 & E). rewrite E in *. exact Hm.
Qed.

(** The backend fails every call. *)
Definition always_fails (env : Env) : Prop :=
  forall req, fault env req <> None.

(** No call that the backend fails has persisted its write. *)
Definition nothing_persisted (env : Env) : Prop :=
  forall req failure, fault env req = Some failure -> persisted failure = false.

(** The DynamoDB calls when the backend fails every call. *)
Section Faulty.
Variable env : Env.
Hypothesis Hfault : always_fails env.

Lemma call_fails (req : Request) (write : Table -> Table) :
  fails (Dynamo.call env req write).
Proof.
  intros st. unfold Dynamo.call.
  destruct (fault env req) eqn:E; [eauto|]. destruct (Hfault req E).
Qed.

Lemma put_fails (item : Item) : fails (Dynamo.put env item).
Proof.
  unfold Dynamo.put. destruct (item !! "id") as [[]|];
    apply bind_fails, call_fails.
Qed.

Lemma scan_fails (f : option string) : fails (Dynamo.scan env f).
Proof. apply bind_fails, call_fails. Qed.

Lemma update_fails (id : string) (clauses : list string)
    (names : gmap string string) (values : gmap string JsValue) :
  fails (Dynamo.update env id clauses names values).
Proof. apply bind_fails, call_fails. Qed.

Lemma delete_fails (id : string) : fails (Dynamo.delete env id).
Proof. apply bind_fails, call_fails. Qed.

(** When, moreover, no failed call persisted its write. *)
Hypothesis Hclean : nothing_persisted env.

Lemma call_keeps (req : Request) (write : Table -> Table) :
  keeps (Dynamo.call env req write).
Proof.
  intros st. unfold Dynamo.call.
  destruct (fault env req) as [failure|] eqn:E; [|reflexivity].
  rewrite (Hclean req failure E). reflexivity.
Qed.

Lemma put_keeps (item : Item) : keeps (Dynamo.put env item).
Proof.
  unfold Dynamo.put. destruct (item !! "id") as [[]|];
    (apply bind_fails_keeps; [apply call_fails | apply call_keeps]).
Qed.

Lemma scan_keeps (f : option string) : keeps (Dynamo.scan env f).
Proof. apply bind_fails_keeps; [apply call_fails | apply call_keeps]. Qed.

Lemma update_keeps (id : string) (clauses : list string)
    (names : gmap string string) (values : gmap string JsValue) :
  keeps (Dynamo.update env id clauses names values).
Proof. apply bind_fails_keeps; [apply call_fails | apply call_keeps]. Qed.

Lemma delete_keeps (id : string) : keeps (Dynamo.delete env id).
Proof. apply bind_fails_keeps; [apply call_fails | apply call_keeps]. Qed.

End Faulty.

End StepFacts.

Section EveryRequest.
Context `{RT : Runtime}.
Variable cfg : Config.
Import Handler StepFacts.

(** The handler always answers: for every event, table, random source and
    backend behaviour it returns a response and never throws (each
    branch's [catch] turns any exception into a response), and the
    status code is one of 200, 201, 400, 404, 405 and 500. *)
Theorem handler_always_answers (env : Env) (ev : Event) (t : Table) :
  exists r, fst (handler cfg env ev t) = Ok r /\ known_status r = true.
Proof.
  unfold handler, run, handler_body. simpl fst.
  set (st := {| table := t; drawn := 0; calls := 0 |}).
  assert (Hcatch : forall b, answers known_status
                               (fun _ => ret (respond 500 (ErrorBody b)))).
  { intros b. apply answers_respond. reflexivity. }
  destruct (String.eqb (httpMethod ev) "POST").
  { destruct (answers_try_catch known_status (post_try cfg env ev) _
                ltac:(unfold post_try; repeat yields_step)
                (Hcatch "Failed to create item") st) as (r & st' & H & Hr).
    unfold post. rewrite H. eauto. }
  destruct (String.eqb (httpMethod ev) "GET").
  { destruct (answers_try_catch known_status (get_try cfg env ev) _
                ltac:(unfold get_try; repeat yields_step)
                (Hcatch "Failed to retrieve items") st) as (r & st' & H & Hr).
    unfold get. rewrite H. eauto. }
  destruct (String.eqb (httpMethod ev) "PUT").
  { assert (Hput : answers known_status put_catch).
    { intros e s. unfold put_catch.
      destruct (bool_decide _); eexists; eexists; split; reflexivity. }
    destruct (answers_try_catch known_status (put_try cfg env ev) _
                ltac:(unfold put_try, send_update; repeat yields_step)
                Hput st) as (r & st' & H & Hr).
    unfold put. rewrite H. eauto. }
  destruct (String.eqb (httpMethod ev) "DELETE").
  { destruct (answers_try_catch known_status (delete_try cfg env ev) _
                ltac:(unfold delete_try; repeat yields_step)
                (Hcatch "Failed to delete item") st) as (r & st' & H & Hr).
    unfold delete. rewrite H. eauto. }
  eexists. split; reflexivity.
Qed.

(** When the backend fails every call, no success is reported: for
    every event and table the response has a status of 400 or more.
    When, moreover, no failed call persisted its write, the table is
    left as it was. (A call that failed after its write persisted
    leaves the write in the table, and the caller sees the same
    failure.) *)
Theorem backend_fault_changes_nothing (env : Env) (ev : Event) (t : Table) :
  always_fails env ->
  (exists r, fst (run cfg env ev t) = Ok r /\ refusal r = true)
  /\ (nothing_persisted env -> table (snd (run cfg env ev t)) = t).
Proof.
  intros Hf. unfold run, handler_body.
  set (st := {| table := t; drawn := 0; calls := 0 |}).
  pose proof (put_fails env Hf) as F1.
  pose proof (scan_fails env Hf) as F2.
  pose proof (update_fails env Hf) as F3.
  pose proof (delete_fails env Hf) as F4.
  assert (Hcatch : forall b, answers refusal
                               (fun _ => ret (respond 500 (ErrorBody b)))).
  { intros b. apply answers_respond. reflexivity. }
  assert (Hput : answers refusal put_catch).
  { intros e s. unfold put_catch.
    destruct (bool_decide _); eexists; eexists; split; reflexivity. }
  assert (Hkput : forall e, keeps (put_catch e)).
  { intros e s. unfold put_catch. destruct (bool_decide _); reflexivity. }
  destruct (String.eqb (httpMethod ev) "POST").
  { split.
    - destruct (answers_try_catch refusal (post_try cfg env ev) _
                  ltac:(unfold post_try; repeat yields_step)
                  (Hcatch "Failed to create item") st) as (r & st' & H & Hr).
      unfold post. rewrite H. eauto.
    - intros Hc. pose proof (put_keeps env Hf Hc) as K1.
      assert (H : keeps (post cfg env ev))
        by (unfold post, post_try; repeat keeps_step).
      exact (H st). }
  destruct (String.eqb (httpMethod ev) "GET").
  { split.
    - destruct (answers_try_catch refusal (get_try cfg env ev) _
                  ltac:(unfold get_try; repeat yields_step)
                  (Hcatch "Failed to retrieve items") st) as (r & st' & H & Hr).
      unfold get. rewrite H. eauto.
    - intros Hc. pose proof (scan_keeps env Hf Hc) as K2.
      assert (H : keeps (get cfg env ev))
        by (unfold get, get_try; repeat keeps_step).
      exact (H st). }
  destruct (String.eqb (httpMethod ev) "PUT").
  { split.
    - destruct (answers_try_catch refusal (put_try cfg env ev) _
                  ltac:(unfold put_try, send_update; repeat yields_step)
                  Hput st) as (r & st' & H & Hr).
      unfold put. rewrite H. eauto.
    - intros Hc. pose proof (update_keeps env Hf Hc) as K3.
      assert (H : keeps (put cfg env ev))
        by (unfold put, put_try, send_update, build_update;
            repeat keeps_step).
      exact (H st). }
  destruct (String.eqb (httpMethod ev) "DELETE").
  { split.
    - destruct (answers_try_catch refusal (delete_try cfg env ev) _
                  ltac:(unfold delete_try; repeat yields_step)
                  (Hcatch "Failed to delete item") st) as (r & st' & H & Hr).
      unfold delete. rewrite H. eauto.
    - intros Hc. pose proof (delete_keeps env Hf Hc) as K4.
      assert (H : keeps (delete cfg env ev))
        by (unfold delete, delete_try; repeat keeps_step).
      exact (H st). }
  split; [eexists; split; reflexivity | reflexivity].
Qed.

End EveryRequest.

(** An invocation whose DynamoDB calls are throttled. *)
Definition throttled_env : Env :=
  {| entropy := entropy Sample.env;
     uuid := uuid Sample.env;
     fault := fun _ =>
       Some {| code := "ProvisionedThroughputExceededException";
               persisted := false |};
     page := page Sample.env |}.

(** An invocation whose calls time out after the write persisted. *)
Definition late_timeout_env : Env :=
  {| entropy := entropy Sample.env;
     uuid := uuid Sample.env;
     fault := fun _ => Some {| code := "TimeoutError"; persisted := true |};
     page := page Sample.env |}.

Lemma backend_fault_changes_nothing_witness :
  (exists r,
     fst (Handler.run Sample.cfg throttled_env create_apple plain_table) = Ok r
     /\ StepFacts.refusal r = true)
  /\ table (snd (Handler.run Sample.cfg throttled_env create_apple plain_table))
     = plain_table.
Proof.
  destruct (@backend_fault_changes_nothing Sample.runtime Sample.cfg
              throttled_env create_apple plain_table) as [Hr Ht].
  { intros req. discriminate. }
  split; [exact Hr|]. apply Ht.
  intros req failure [= <-]. reflexivity.
Defined.

(** A create whose put times out after the row was written: the answer
    is 500 and the row is in the table. *)
Lemma late_timeout_leaves_row :
  fst (Handler.handler Sample.cfg late_timeout_env create_apple ∅)
  = Ok (respond 500 (ErrorBody "Failed to create item"))
  /\ is_Some (snd (Handler.handler Sample.cfg late_timeout_env create_apple ∅)
              !! uuid Sample.env).
Proof. split; [vm_compute; reflexivity|]. eexists. vm_compute. reflexivity. Qed.

(** ** The plain-text handler *)

Module LegacyFacts.
Import Handler StepFacts.

Definition catch_update (error : Exn) : M State Response :=
  if bool_decide (exn_code error = Some "ConditionalCheckFailedException")
  then ret (respond 404
              (ErrorBody "Item not found - cannot update non-existent item"))
  else ret (respond 500 (ErrorDetailsBody "Failed to update item" error)).

Lemma answers_catch_update (good : Response -> bool) :
  (forall b, good (respond 404 b) = true) ->
  (forall b, good (respond 500 b) = true) ->
  answers good catch_update.
Proof.
  intros H4 H5 e s. unfold catch_update.
  destruct (bool_decide _); eexists; eexists; (split; [reflexivity|]);
    [apply H4 | apply H5].
Qed.

Lemma keeps_catch_update (e : Exn) : keeps (catch_update e).
Proof. intros s. unfold catch_update. destruct (bool_decide _); reflexivity. Qed.

Lemma legacy_body_post (env : Env) (ev : Event) :
  httpMethod ev = "POST" -> Legacy.handler_body env ev = Legacy.post env ev.
Proof. intros H. unfold Legacy.handler_body. rewrite H. reflexivity. Qed.

Lemma legacy_body_get (env : Env) (ev : Event) :
  httpMethod ev = "GET" -> Legacy.handler_body env ev = Legacy.get env ev.
Proof. intros H. unfold Legacy.handler_body. rewrite H. reflexivity. Qed.

Lemma legacy_body_put (env : Env) (ev : Event) :
  httpMethod ev = "PUT" -> Legacy.handler_body env ev = Legacy.put env ev.
Proof. intros H. unfold Legacy.handler_body. rewrite H. reflexivity. Qed.

Lemma legacy_body_delete (env : Env) (ev : Event) :
  httpMethod ev = "DELETE" -> Legacy.handler_body env ev = Legacy.delete env ev.
Proof. intros H. unfold Legacy.handler_body. rewrite H. reflexivity. Qed.

End LegacyFacts.

Section LegacyEveryRequest.
Import Handler StepFacts LegacyFacts.

(** The plain-text handler always answers as well: it never throws, and
    the status code is one of 200, 201, 400, 404, 405 and 500. *)
Theorem legacy_handler_always_answers (env : Env) (ev : Event) (t : Table) :
  exists r, fst (Legacy.handler env ev t) = Ok r /\ known_status r = true.
Proof.
  unfold Legacy.handler, Legacy.run, Legacy.handler_body. simpl fst.
  set (st := {| table := t; drawn := 0; calls := 0 |}).
  assert (Hcatch : forall b, answers known_status
                               (fun _ => ret (respond 500 (ErrorBody b)))).
  { intros b. apply answers_respond. reflexivity. }
  destruct (String.eqb (httpMethod ev) "POST").
  { unfold Legacy.post.
    match goal with
    | |- context [try_catch ?m ?h st] =>
        destruct (answers_try_catch known_status m h
                    ltac:(repeat yields_step)
                    (Hcatch "Failed to create item") st)
          as (r & st' & H & Hr)
    end.
    rewrite H. eauto. }
  destruct (String.eqb (httpMethod ev) "GET").
  { unfold Legacy.get.
    match goal with
    | |- context [try_catch ?m ?h st] =>
        destruct (answers_try_catch known_status m h
                    ltac:(repeat yields_step)
                    (Hcatch "Failed to retrieve items") st)
          as (r & st' & H & Hr)
    end.
    rewrite H. eauto. }
  destruct (String.eqb (httpMethod ev) "PUT").
  { unfold Legacy.put. fold catch_update.
    match goal with
    | |- context [try_catch ?m catch_update st] =>
        destruct (answers_try_catch known_status m catch_update
                    ltac:(repeat yields_step)
                    (answers_catch_update known_status
                       (fun _ => eq_refl) (fun _ => eq_refl)) st)
          as (r & st' & H & Hr)
    end.
    rewrite H. eauto. }
  destruct (String.eqb (httpMethod ev) "DELETE").
  { unfold Legacy.delete.
    match goal with
    | |- context [try_catch ?m ?h st] =>
        destruct (answers_try_catch known_status m h
                    ltac:(repeat yields_step)
                    (Hcatch "Failed to delete item") st)
          as (r & st' & H & Hr)
    end.
    rewrite H. eauto. }
  eexists. split; reflexivity.
Qed.

End LegacyEveryRequest.

(** ** Which rows and attributes a request can change *)

Module FrameFacts.
Import Handler HandlerFacts UpdateFacts.

(** An update's assignments touch [name], [stock] and [price] only. *)
Lemma apply_assignments_other (row : Item) (cn cs cp : option string)
    (k : string) :
  k <> "name" -> k <> "stock" -> k <> "price" ->
  Dynamo.apply_assignments row (assignments_of cn cs cp) !! k = row !! k.
Proof.
  intros Hn Hs Hp.
  unfold Dynamo.apply_assignments, assignments_of, assignment.
  destruct cn, cs, cp; cbn [fold_left app fst snd];
    rewrite ?lookup_insert_ne by congruence; reflexivity.
Qed.

End FrameFacts.

Section FrameProperties.
Context `{RT : Runtime}.
Variable cfg : Config.
Import Handler HandlerFacts UpdateFacts BranchFacts.

(** One request touches at most one row: whatever the method, the body
    and the outcome, every row stored under an id that is neither the
    generated identifier nor the [id] of the query string is after the
    request what it was before. *)
Theorem request_touches_one_row (env : Env) (ev : Event) (t : Table)
    (other : string) :
  other <> uuid env ->
  (forall q, queryStringParameters ev = Some q -> q !! "id" <> Some other) ->
  table (snd (run cfg env ev t)) !! other = t !! other.
Proof.
  intros Hu Hq. unfold run, handler_body.
  set (st := {| table := t; drawn := 0; calls := 0 |}).
  destruct (String.eqb (httpMethod ev) "POST").
  { destruct (post_table cfg env ev st) as [-> | (c1 & c2 & c3 & _ & _ & _ & ->)];
      [reflexivity|].
    apply lookup_insert_ne. congruence. }
  destruct (String.eqb (httpMethod ev) "GET").
  { rewrite get_table. reflexivity. }
  destruct (String.eqb (httpMethod ev) "PUT").
  { destruct (put_table cfg env ev st)
      as [-> | (q & id & row & cn & cs & cp & Hq' & Hid & _ & _ & _ & _ & ->)];
      [reflexivity|].
    apply lookup_insert_ne. intros ->. exact (Hq q Hq' Hid). }
  destruct (String.eqb (httpMethod ev) "DELETE").
  { destruct (delete_table cfg env ev st)
      as [-> | (q & id & Hq' & Hid & ->)]; [reflexivity|].
    apply lookup_delete_ne. intros ->. exact (Hq q Hq' Hid). }
  reflexivity.
Qed.

(** An update never adds or removes a row, and in the row it changes it
    changes [name], [stock] and [price] only: the ids of the table are
    the same after any PUT, and every other attribute of every row
    (the [id] attribute among them) keeps its value. *)
Theorem update_keeps_ids_and_other_attributes (env : Env) (ev : Event)
    (t : Table) :
  httpMethod ev = "PUT" ->
  let t' := table (snd (run cfg env ev t)) in
  (forall id, is_Some (t' !! id) <-> is_Some (t !! id))
  /\ forall id row row' k,
       t !! id = Some row -> t' !! id = Some row' ->
       k <> "name" -> k <> "stock" -> k <> "price" ->
       row' !! k = row !! k.
Proof.
  intros Hm. unfold run. rewrite (handler_body_put cfg env ev Hm).
  set (st := {| table := t; drawn := 0; calls := 0 |}).
  destruct (put_table cfg env ev st)
    as [E | (q & id0 & row0 & cn & cs & cp & _ & _ & Hrow0 & _ & _ & _ & E)];
    cbv zeta; rewrite E; change (table st) with t in *.
  - split; [reflexivity|]. intros id row row' k H1 H2. congruence.
  - split.
    + intros id. destruct (decide (id = id0)) as [-> | Hne].
      * rewrite lookup_insert_eq, Hrow0. split; eauto.
      * rewrite lookup_insert_ne by congruence. reflexivity.
    + intros id row row' k H1 H2 Hn Hs Hp.
      destruct (decide (id = id0)) as [-> | Hne].
      * rewrite lookup_insert_eq in H2. injection H2 as <-.
        rewrite Hrow0 in H1. injection H1 as <-.
        apply FrameFacts.apply_assignments_other; assumption.
      * rewrite lookup_insert_ne in H2 by congruence. congruence.
Qed.

End FrameProperties.

(** The sample row and a second row. *)
Definition two_rows : Table := <["b2" := tagged_row]> plain_table.

Lemma request_touches_one_row_witness :
  table (snd (Handler.run Sample.cfg Sample.env
                (Sample.request "DELETE" [("id", "a1")] BodyAbsent) two_rows))
    !! "b2"
  = two_rows !! "b2".
Proof.
  apply (@request_touches_one_row Sample.runtime Sample.cfg Sample.env
           (Sample.request "DELETE" [("id", "a1")] BodyAbsent) two_rows "b2").
  - discriminate.
  - intros q [= <-]. vm_compute. discriminate.
Defined.

(** The update of the stock of the row "b2", which carries a [tag]. *)
Definition zero_b2_stock : Event :=
  Sample.request "PUT" [("id", "b2")] (Sample.obj [("stock", JNum 0)]).

Lemma update_keeps_ids_and_other_attributes_witness :
  (forall id,
     is_Some (table (snd (Handler.run Sample.cfg Sample.env zero_b2_stock
                            two_rows)) !! id)
     <-> is_Some (two_rows !! id))
  /\ forall id row row' k,
       two_rows !! id = Some row ->
       table (snd (Handler.run Sample.cfg Sample.env zero_b2_stock two_rows))
         !! id = Some row' ->
       k <> "name" -> k <> "stock" -> k <> "price" ->
       row' !! k = row !! k.
Proof.
  apply (@update_keeps_ids_and_other_attributes Sample.runtime Sample.cfg
           Sample.env zero_b2_stock two_rows).
  reflexivity.
Defined.

(** ** Requests that are refused before anything is done *)

(** The state of an invocation that has drawn no random bytes and made
    no DynamoDB call. *)
Definition untouched (t : Table) : State :=
  {| table := t; drawn := 0; calls := 0 |}.

Section RefusalProperties.
Context `{RT : Runtime}.
Variable cfg : Config.
Import Handler HandlerFacts UpdateFacts.

(** A PUT or DELETE without any query string is a server error, not a
    client error: destructuring [event.queryStringParameters] throws on
    [null], so both handlers answer 500, before any DynamoDB call and
    without touching the table. *)
Theorem missing_query_string_is_server_error (env : Env) (ev : Event)
    (t : Table) :
  httpMethod ev = "PUT" \/ httpMethod ev = "DELETE" ->
  queryStringParameters ev = None ->
  exists r r',
    run cfg env ev t = (Ok r, untouched t)
    /\ Legacy.run env ev t = (Ok r', untouched t)
    /\ statusCode r = 500 /\ statusCode r' = 500.
Proof.
  intros [Hm | Hm] Hq.
  - unfold run, Legacy.run.
    rewrite (handler_body_put cfg env ev Hm),
      (LegacyFacts.legacy_body_put env ev Hm).
    unfold put, put_try, Legacy.put. rewrite Hq.
    eexists. eexists. repeat split; reflexivity.
  - unfold run, Legacy.run.
    rewrite (handler_body_delete cfg env ev Hm),
      (LegacyFacts.legacy_body_delete env ev Hm).
    unfold delete, delete_try, Legacy.delete. rewrite Hq.
    eexists. eexists. repeat split; reflexivity.
Qed.

(** A PUT or DELETE whose query string has no [id], or an empty one, is
    answered 400 "Missing required query parameter: id" by both
    handlers, whatever the body is, before any DynamoDB call. *)
Theorem missing_id_rejected (env : Env) (ev : Event)
    (q : gmap string string) (t : Table) :
  httpMethod ev = "PUT" \/ httpMethod ev = "DELETE" ->
  queryStringParameters ev = Some q ->
  param_missing (q !! "id") = true ->
  let refused :=
    (Ok (respond 400 (ErrorBody "Missing required query parameter: id")),
     untouched t) in
  run cfg env ev t = refused /\ Legacy.run env ev t = refused.
Proof.
  intros [Hm | Hm] Hq Hid.
  - unfold run, Legacy.run.
    rewrite (handler_body_put cfg env ev Hm),
      (LegacyFacts.legacy_body_put env ev Hm).
    unfold put, put_try, Legacy.put. rewrite Hq. simpl destructure_id.
    rewrite !bind_lift_ok, Hid. split; reflexivity.
  - unfold run, Legacy.run.
    rewrite (handler_body_delete cfg env ev Hm),
      (LegacyFacts.legacy_body_delete env ev Hm).
    unfold delete, delete_try, Legacy.delete. rewrite Hq. simpl destructure_id.
    rewrite !bind_lift_ok, Hid. split; reflexivity.
Qed.

(** An update whose body is not JSON: the plain-text handler catches the
    parse error and answers 400 "Invalid JSON in request body"; the
    handler with encryption has no such check and answers 500 "Failed to
    update item". Neither makes a DynamoDB call. *)
Theorem unparsable_update_body (env : Env) (ev : Event)
    (q : gmap string string) (id : string) (t : Table) :
  httpMethod ev = "PUT" ->
  queryStringParameters ev = Some q -> q !! "id" = Some id ->
  id <> EmptyString ->
  body ev = BodyText None ->
  Legacy.run env ev t
  = (Ok (respond 400 (ErrorBody "Invalid JSON in request body")), untouched t)
  /\ run cfg env ev t
     = (Ok (respond 500 (ErrorBody "Failed to update item")), untouched t).
Proof.
  intros Hm Hq Hid Hne Hb.
  unfold run, Legacy.run.
  rewrite (handler_body_put cfg env ev Hm),
    (LegacyFacts.legacy_body_put env ev Hm).
  unfold put, put_try, Legacy.put. rewrite Hq. simpl destructure_id.
  rewrite !bind_lift_ok, Hid, (param_missing_false id Hne), Hb.
  split; reflexivity.
Qed.


End RefusalProperties.

Lemma missing_query_string_is_server_error_witness :
  exists r r',
    Handler.run Sample.cfg Sample.env
      {| httpMethod := "DELETE"; queryStringParameters := None;
         body := BodyAbsent |} plain_table
    = (Ok r, untouched plain_table)
    /\ Legacy.run Sample.env
         {| httpMethod := "DELETE"; queryStringParameters := None;
            body := BodyAbsent |} plain_table
       = (Ok r', untouched plain_table)
    /\ statusCode r = 500 /\ statusCode r' = 500.
Proof.
  apply (@missing_query_string_is_server_error Sample.runtime Sample.cfg
           Sample.env
           {| httpMethod := "DELETE"; queryStringParameters := None;
              body := BodyAbsent |} plain_table);
    [ right; reflexivity | reflexivity ].
Defined.

Lemma missing_id_rejected_witness :
  Handler.run Sample.cfg Sample.env
    (Sample.request "PUT" [("id", "")] (Sample.obj [("stock", JNum 5)]))
    plain_table
  = (Ok (respond 400 (ErrorBody "Missing required query parameter: id")),
     untouched plain_table)
  /\ Legacy.run Sample.env
       (Sample.request "PUT" [("id", "")] (Sample.obj [("stock", JNum 5)]))
       plain_table
     = (Ok (respond 400 (ErrorBody "Missing required query parameter: id")),
        untouched plain_table).
Proof.
  apply (@missing_id_rejected Sample.runtime Sample.cfg Sample.env
           (Sample.request "PUT" [("id", "")] (Sample.obj [("stock", JNum 5)]))
           (list_to_map [("id", "")]) plain_table);
    [ left; reflexivity | reflexivity | reflexivity ].
Defined.

Lemma unparsable_update_body_witness :
  Legacy.run Sample.env
    (Sample.request "PUT" [("id", "a1")] (BodyText None)) plain_table
  = (Ok (respond 400 (ErrorBody "Invalid JSON in request body")),
     untouched plain_table)
  /\ Handler.run Sample.cfg Sample.env
       (Sample.request "PUT" [("id", "a1")] (BodyText None)) plain_table
     = (Ok (respond 500 (ErrorBody "Failed to update item")),
        untouched plain_table).
Proof.
  apply (@unparsable_update_body Sample.runtime Sample.cfg Sample.env
           (Sample.request "PUT" [("id", "a1")] (BodyText None))
           (list_to_map [("id", "a1")]) "a1" plain_table);
    [ reflexivity | reflexivity | reflexivity | discriminate | reflexivity ].
Defined.



(** ** The two handlers on plain-text rows *)

Module PlainFacts.
Import Handler UpdateFacts.

(** The row the plain-text handler writes. *)
Definition plain_item (id : string) (name stock price : JsValue) : Item :=
  <["price" := price]>
    (<["stock" := stock]> (<["name" := name]> {["id" := JStr id]})).

Lemma plain_item_id (id : string) (name stock price : JsValue) :
  plain_item id name stock price !! "id" = Some (JStr id).
Proof. vm_compute. reflexivity. Qed.

Lemma attr_plain_item (id : string) (name stock price : JsValue) :
  attr (plain_item id name stock price) "id" = JStr id
  /\ attr (plain_item id name stock price) "name" = name
  /\ attr (plain_item id name stock price) "stock" = stock
  /\ attr (plain_item id name stock price) "price" = price.
Proof. repeat split; vm_compute; reflexivity. Qed.

Lemma scan_run (env : Env) (f : option string) (st : State) :
  Dynamo.scan env f st
  = match fault env ScanRequest with
    | Some failure => (Throw (AwsError (code failure)), tick st)
    | None =>
        (Ok (match f with
             | None => Dynamo.first_page env (table st)
             | Some f =>
                 List.filter (fun row => Dynamo.contains (row !! "name") f)
                   (Dynamo.first_page env (table st))
             end), tick st)
    end.
Proof.
  unfold Dynamo.scan, Dynamo.call, bind, ret, get_state, tick.
  destruct (fault env _) as [failure|]; [|reflexivity].
  destruct (persisted failure); reflexivity.
Qed.

(** On rows with a string in [name], the filter of the plain-text scan
    and the filter of the handler with encryption keep the same rows. *)
Lemma filter_res_plain (f : string) (rows : list Item) :
  (forall row, In row rows -> exists s, row !! "name" = Some (JStr s)) ->
  filter_res (name_includes f) (map Some rows)
  = Ok (map Some
          (List.filter (fun row => Dynamo.contains (row !! "name") f) rows)).
Proof.
  induction rows as [|row rows IH]; intros H; [reflexivity|].
  destruct (H row (or_introl eq_refl)) as [s Hs].
  simpl. unfold attr. rewrite Hs. simpl.
  rewrite IH by (intros r Hin; apply H; right; exact Hin).
  destruct (Str.includes f s); reflexivity.
Qed.

End PlainFacts.

Section PlainProperties.
Context `{RT : Runtime}.
Variable cfg : Config.
Import Handler HandlerFacts UpdateFacts PlainFacts.

(** The plain-text handler stores what it is given: a create with a
    non-empty well-formed string for name and non-zero numbers for stock
    and price, whose row DynamoDB accepts, is answered 201 and writes
    the name, the stock and the price as they came, in clear, under the
    generated id; a read without filter whose scan the backend serves
    and whose first page holds that row then lists it. *)
Theorem legacy_create_then_read (env env' : Env) (create read : Event)
    (v : JsValue) (s : string) (a b : float) (t : Table) :
  httpMethod create = "POST" ->
  parse_body (body create) = Ok v ->
  destructure v = Ok (JStr s, JNum a, JNum b) ->
  Text.well_formed s = true ->
  Js.truthy (JStr s) = true -> Js.truthy (JNum a) = true ->
  Js.truthy (JNum b) = true ->
  let row := plain_item (uuid env) (JStr s) (JNum a) (JNum b) in
  fault env (PutRequest row) = None ->
  httpMethod read = "GET" ->
  param_missing (default ∅ (queryStringParameters read) !! "name") = true ->
  fault env' ScanRequest = None ->
  In row (Dynamo.first_page env' (<[uuid env := row]> t)) ->
  Legacy.handler env create t
  = (Ok (respond 201
           (LegacyCreatedBody "Item created successfully"
              (JStr (uuid env)) (JStr s) (JNum a) (JNum b))),
     <[uuid env := row]> t)
  /\ exists items,
       fst (Legacy.handler env' read (<[uuid env := row]> t))
       = Ok (respond 200 (ItemsBody items))
       /\ In (Some row) items.
Proof.
  intros Hm Hp Hd _ Hn Hs Hpr row Hf Hm' Hname Hf' Hpage. subst row. split.
  - unfold Legacy.handler, Legacy.run.
    rewrite (LegacyFacts.legacy_body_post env create Hm).
    unfold Legacy.post. rewrite Hp, bind_lift_ok, Hd, bind_lift_ok.
    rewrite Hn, Hs, Hpr. simpl orb. cbv iota zeta.
    change (<["price" := JNum b]>
              (<["stock" := JNum a]>
                 (<["name" := JStr s]> {["id" := JStr (uuid env)]})))
      with (plain_item (uuid env) (JStr s) (JNum a) (JNum b)).
    destruct (attr_plain_item (uuid env) (JStr s) (JNum a) (JNum b))
      as (-> & -> & -> & ->).
    unfold try_catch, bind, Dynamo.put.
    rewrite plain_item_id.
    unfold bind, Dynamo.call, Dynamo.set_table, get_state, ret.
    rewrite Hf. reflexivity.
  - unfold Legacy.handler, Legacy.run.
    rewrite (LegacyFacts.legacy_body_get env' read Hm').
    unfold Legacy.get, try_catch, bind. rewrite Hname, scan_run, Hf'.
    eexists. split; [reflexivity|].
    apply in_map. exact Hpage.
Qed.

(** On a table written by the plain-text handler (every row has a string
    [name] that does not have the shape of a cipher text), a read gives
    the same response from both handlers, with or without a name
    filter and whether or not the backend answers: the handler with
    encryption returns the rows as stored and filters them as the scan
    of the plain-text handler does. *)
Theorem read_agrees_on_plain_rows (env : Env) (ev : Event) (t : Table) :
  httpMethod ev = "GET" ->
  (forall id row, t !! id = Some row ->
     exists s, row !! "name" = Some (JStr s)
               /\ parses_as_cipher_text (JStr s) = false) ->
  fst (handler cfg env ev t) = fst (Legacy.handler env ev t).
Proof.
  intros Hm Hplain.
  unfold handler, Legacy.handler, run, Legacy.run. simpl fst.
  rewrite (handler_body_get cfg env ev Hm),
    (LegacyFacts.legacy_body_get env ev Hm).
  unfold get, get_try, Legacy.get, try_catch, bind.
  rewrite !scan_run.
  destruct (fault env _); [reflexivity|].
  change (table {| table := t; drawn := 0; calls := 0 |}) with t.
  set (rows := Dynamo.first_page env t).
  assert (Hrows : forall row, In row rows ->
            exists s, row !! "name" = Some (JStr s)
                      /\ parses_as_cipher_text (JStr s) = false).
  { intros row Hin. apply first_page_rows in Hin as [id Hid].
    exact (Hplain id row Hid). }
  assert (Hview : map (decrypt_view cfg) rows = map Some rows).
  { apply map_ext_in. intros row Hin.
    destruct (Hrows row Hin) as (s & Hs & Hshape).
    unfold decrypt_view.
    destruct (decryptItem_try_throws cfg row) as [e ->]; [|reflexivity].
    left. unfold attr. rewrite Hs. apply decrypt_unparsable, Hshape. }
  unfold lift at 1. rewrite map_decryptItem_view, Hview.
  destruct (default ∅ (queryStringParameters ev) !! "name") as [f|];
    [|reflexivity].
  unfold param_missing. destruct (String.eqb f EmptyString); [reflexivity|].
  simpl negb. cbv iota. change (default EmptyString (Some f)) with f.
  unfold lift. rewrite filter_res_plain; [reflexivity|].
  intros row Hin. destruct (Hrows row Hin) as (s & Hs & _). eauto.
Qed.

End PlainProperties.

Lemma legacy_create_then_read_witness :
  Legacy.handler Sample.env create_apple ∅
  = (Ok (respond 201
           (LegacyCreatedBody "Item created successfully"
              (JStr (uuid Sample.env)) (JStr "apple") (JNum 10) (JNum 2.5))),
     <[uuid Sample.env :=
         PlainFacts.plain_item (uuid Sample.env) (JStr "apple") (JNum 10)
           (JNum 2.5)]> ∅)
  /\ exists items,
       fst (Legacy.handler Sample.env read_all
              (<[uuid Sample.env :=
                   PlainFacts.plain_item (uuid Sample.env) (JStr "apple")
                     (JNum 10) (JNum 2.5)]> ∅))
       = Ok (respond 200 (ItemsBody items))
       /\ In (Some (PlainFacts.plain_item (uuid Sample.env) (JStr "apple")
                      (JNum 10) (JNum 2.5))) items.
Proof.
  apply (@legacy_create_then_read Sample.env Sample.env create_apple read_all
           (JObject [("name", JStr "apple"); ("stock", JNum 10);
                     ("price", JNum 2.5)])
           "apple" 10%float 2.5%float ∅);
    [ reflexivity | reflexivity | reflexivity | reflexivity | reflexivity
    | reflexivity | reflexivity | reflexivity | reflexivity | reflexivity
    | reflexivity | vm_compute; left; reflexivity ].
Defined.

Lemma read_agrees_on_plain_rows_witness :
  fst (Handler.handler Sample.cfg Sample.env
         (Sample.request "GET" [("name", "appl")] BodyAbsent) plain_table)
  = fst (Legacy.handler Sample.env
           (Sample.request "GET" [("name", "appl")] BodyAbsent) plain_table).
Proof.
  apply (@read_agrees_on_plain_rows Sample.runtime Sample.cfg Sample.env
           (Sample.request "GET" [("name", "appl")] BodyAbsent) plain_table).
  - reflexivity.
  - intros id row Hrow. unfold plain_table in Hrow.
    apply lookup_singleton_Some in Hrow as [_ <-].
    exists "apple". split; vm_compute; reflexivity.
Defined.

(** ** Update round trip *)

Module RoundTripFacts.
Import Handler HandlerFacts.

(** The three fields of a row after an update's assignments. *)
Lemma apply_assignments_fields (row : Item) (cn cs cp : option string) :
  let row' := Dynamo.apply_assignments row (assignments_of cn cs cp) in
  row' !! "name" = from_option (fun c => Some (JStr c)) (row !! "name") cn
  /\ row' !! "stock" = from_option (fun c => Some (JStr c)) (row !! "stock") cs
  /\ row' !! "price" = from_option (fun c => Some (JStr c)) (row !! "price") cp.
Proof.
  unfold Dynamo.apply_assignments, assignments_of, assignment.
  destruct cn, cs, cp; cbn [fold_left app fst snd from_option];
    repeat split;
    rewrite ?lookup_insert_eq, ?lookup_insert_ne by discriminate;
    rewrite ?lookup_insert_eq, ?lookup_insert_ne by discriminate;
    rewrite ?lookup_insert_eq, ?lookup_insert_ne by discriminate;
    reflexivity.
Qed.

Section WithRuntime.
Context `{RT : Runtime}.
Variable cfg : Config.

(** A field after an update holds the cipher text of the new value when
    the field fired and the old cipher text otherwise. *)
Lemma field_after (fires : bool) (new old c_old : string)
    (co : option string) (stored : option JsValue) :
  field_written cfg fires new co ->
  stored = Some (JStr c_old) -> encrypted_as cfg c_old old ->
  exists c,
    from_option (fun c => Some (JStr c)) stored co = Some (JStr c)
    /\ encrypted_as cfg c (if fires then new else old).
Proof.
  unfold field_written. intros Hw -> Hold. destruct fires.
  - destruct Hw as (c & -> & Hc). exists c. split; [reflexivity | exact Hc].
  - subst co. exists c_old. split; [reflexivity | exact Hold].
Qed.

End WithRuntime.

End RoundTripFacts.

Section RoundTripProperties.
Context `{RT : Runtime}.
Variable cfg : Config.
Import Handler HandlerFacts RoundTripFacts.

(** The response to an update that the backend serves shows the record
    in clear with the new values: on a row whose three fields hold
    cipher texts, when [String(_)] converts the stock and the price, the
    item of the 200 response has the text recovered from the submitted
    name (or from the old one when none was sent),
    [Number(String(stock))] and [Number(String(price))] for the fields
    that were sent and the old numbers for the others, each through the
    text recovered from its bytes, and every other attribute of the row
    unchanged. The text recovered from a well-formed string is the
    string. *)
Theorem update_response_shows_new_values (env : Env) (ev : Event)
    (q : gmap string string) (id : string) (v name stock price : JsValue)
    (s ts tp : string) (row : Item) (c1 c2 c3 s0 ts0 tp0 : string)
    (t : Table) :
  httpMethod ev = "PUT" ->
  queryStringParameters ev = Some q -> q !! "id" = Some id ->
  id <> EmptyString ->
  body ev = BodyText (Some v) ->
  destructure v = Ok (name, stock, price) ->
  (Js.truthy name = true -> name = JStr s) ->
  Js.truthy name || Js.defined stock || Js.defined price = true ->
  Js.to_string stock = Ok ts -> Js.to_string price = Ok tp ->
  length (Cipher.ENCRYPTION_KEY cfg) = 32 ->
  fault env (sent_update cfg env id name stock price s ts tp) = None ->
  t !! id = Some row ->
  row !! "name" = Some (JStr c1) -> row !! "stock" = Some (JStr c2) ->
  row !! "price" = Some (JStr c3) ->
  encrypted_as cfg c1 s0 -> encrypted_as cfg c2 ts0 ->
  encrypted_as cfg c3 tp0 ->
  let new_name := if Js.truthy name then s else s0 in
  let new_stock := if Js.defined stock then ts else ts0 in
  let new_price := if Js.defined price then tp else tp0 in
  exists item,
    fst (handler cfg env ev t)
    = Ok (respond 200 (UpdatedBody "Item updated successfully" (Some item)))
    /\ item !! "name" = Some (JStr (Text.recovered new_name))
    /\ item !! "stock"
       = Some (JNum (number_of_string (Text.recovered new_stock)))
    /\ item !! "price"
       = Some (JNum (number_of_string (Text.recovered new_price)))
    /\ (forall k, k <> "name" -> k <> "stock" -> k <> "price" ->
                  item !! k = row !! k)
    /\ (Text.well_formed new_name = true -> Text.well_formed new_stock = true ->
        Text.well_formed new_price = true ->
        item !! "name" = Some (JStr new_name)
        /\ item !! "stock" = Some (JNum (number_of_string new_stock))
        /\ item !! "price" = Some (JNum (number_of_string new_price))).
Proof.
  intros Hm Hq Hid Hne Hb Hd Hname Hfires Hts Htp Hk Hf Hrow Hn Hs Hp H1 H2 H3.
  destruct (update_writes_holds cfg t env ev q id v name stock price s ts tp row
              Hm Hq Hid Hne Hb Hd Hname Hfires Hts Htp Hk Hf Hrow)
    as (cn & cs & cp & item & _ & Hrun & Hitem & Wn & Ws & Wp).
  cbv zeta in Hrun, Hitem.
  destruct (apply_assignments_fields row cn cs cp) as (Fn & Fs & Fp).
  cbv zeta in Fn, Fs, Fp.
  destruct (field_after cfg _ _ _ _ _ _ Wn Hn H1) as (c1' & E1 & H1').
  destruct (field_after cfg _ _ _ _ _ _ Ws Hs H2) as (c2' & E2 & H2').
  destruct (field_after cfg _ _ _ _ _ _ Wp Hp H3) as (c3' & E3 & H3').
  rewrite E1 in Fn. rewrite E2 in Fs. rewrite E3 in Fp.
  simpl in Hitem.
  rewrite (decryptItem_try_encrypted cfg _ c1' c2' c3' _ _ _
             Hk Fn Fs Fp H1' H2' H3') in Hitem.
  injection Hitem as <-. unfold in_clear.
  cbv zeta.
  eexists. split; [rewrite Hrun; reflexivity|].
  assert (Jn : forall (a b c : JsValue) (r : Item),
             (<["price" := c]> (<["stock" := b]> (<["name" := a]> r)))
               !! "name" = Some a).
  { intros a b c r.
    rewrite lookup_insert_ne, lookup_insert_ne, lookup_insert_eq
      by discriminate. reflexivity. }
  assert (Js' : forall (a b c : JsValue) (r : Item),
             (<["price" := c]> (<["stock" := b]> (<["name" := a]> r)))
               !! "stock" = Some b).
  { intros a b c r.
    rewrite lookup_insert_ne, lookup_insert_eq by discriminate. reflexivity. }
  assert (Jp : forall (a b c : JsValue) (r : Item),
             (<["price" := c]> (<["stock" := b]> (<["name" := a]> r)))
               !! "price" = Some c).
  { intros a b c r. rewrite lookup_insert_eq. reflexivity. }
  unfold in_clear. rewrite Jn, Js', Jp.
  split; [reflexivity|]. split; [reflexivity|]. split; [reflexivity|].
  split.
  { intros k Kn Ks Kp. rewrite !lookup_insert_ne by congruence.
    apply FrameFacts.apply_assignments_other; assumption. }
  intros W1 W2 W3.
  rewrite (recovered_well_formed _ W1), (recovered_well_formed _ W2),
    (recovered_well_formed _ W3).
  auto.
Qed.

End RoundTripProperties.

(** The stock of the row written for "apple", 10 and 5 set to zero: the
    response shows the old name, the new stock and the old price. *)
Lemma update_response_shows_new_values_witness :
  exists item,
    fst (Handler.handler Sample.cfg Sample.env zero_apple_stock sealed_table)
    = Ok (respond 200 (UpdatedBody "Item updated successfully" (Some item)))
    /\ item !! "name" = Some (JStr "apple")
    /\ item !! "stock" = Some (JNum 0)
    /\ item !! "price" = Some (JNum 5)
    /\ item !! "id" = Some (JStr (uuid Sample.env)).
Proof.
  destruct (@update_response_shows_new_values Sample.runtime Sample.cfg
              Sample.env zero_apple_stock
              (list_to_map [("id", uuid Sample.env)]) (uuid Sample.env)
              (JObject [("stock", JNum 0)]) JUndefined (JNum 0) JUndefined
              EmptyString "0" "undefined" sealed_row
              (HandlerFacts.sealed Sample.cfg
                 (HandlerFacts.iv_from Sample.env 0) "apple")
              (HandlerFacts.sealed Sample.cfg
                 (HandlerFacts.iv_from Sample.env 16) "10")
              (HandlerFacts.sealed Sample.cfg
                 (HandlerFacts.iv_from Sample.env 32) "5")
              "apple" "10" "5" sealed_table)
    as (item & Hrun & _ & _ & _ & Hother & Hclear);
    [ reflexivity | reflexivity | vm_compute; reflexivity | discriminate
    | reflexivity | reflexivity | discriminate | reflexivity
    | reflexivity | reflexivity | vm_compute; reflexivity | reflexivity
    | reflexivity | reflexivity | reflexivity | reflexivity
    | apply sealed_encrypted_as; reflexivity
    | apply sealed_encrypted_as; reflexivity
    | apply sealed_encrypted_as; reflexivity | ].
  destruct Hclear as (Hn & Hs & Hp); [reflexivity | reflexivity | reflexivity |].
  exists item. split; [exact Hrun|].
  split; [exact Hn|]. split; [exact Hs|]. split; [exact Hp|].
  rewrite Hother by discriminate. reflexivity.
Defined.

(** Create of [{ name: "apple", stock: 10 }]: the price is missing. *)
Definition create_without_price : Event :=
  Sample.request "POST" []
    (Sample.obj [("name", JStr "apple"); ("stock", JNum 10)]).

Lemma create_rejects_missing_field_witness :
  Handler.run Sample.cfg Sample.env create_without_price plain_table
  = (Ok (respond 400 (ErrorBody "Missing required fields: name, stock, price")),
     {| table := plain_table; drawn := 0; calls := 0 |}).
Proof.
  apply (@create_rejects_missing_field Sample.runtime Sample.cfg Sample.env
           create_without_price
           (JObject [("name", JStr "apple"); ("stock", JNum 10)])
           (JStr "apple") (JNum 10) JUndefined plain_table);
    [ reflexivity | reflexivity | reflexivity | right; right; reflexivity ].
Defined.

Section LegacyFault.
Import Handler StepFacts LegacyFacts.

(** The plain-text handler when the backend fails every call: no
    success is reported, for every event and table; when, moreover, no
    failed call persisted its write, the table is left as it was. *)
Theorem legacy_backend_fault_changes_nothing (env : Env) (ev : Event)
    (t : Table) :
  always_fails env ->
  (exists r, fst (Legacy.run env ev t) = Ok r /\ refusal r = true)
  /\ (nothing_persisted env -> table (snd (Legacy.run env ev t)) = t).
Proof.
  intros Hf. unfold Legacy.run, Legacy.handler_body.
  set (st := {| table := t; drawn := 0; calls := 0 |}).
  pose proof (put_fails env Hf) as F1.
  pose proof (scan_fails env Hf) as F2.
  pose proof (update_fails env Hf) as F3.
  pose proof (delete_fails env Hf) as F4.
  pose proof keeps_catch_update as K5.
  assert (Hcatch : forall b, answers refusal
                               (fun _ => ret (respond 500 (ErrorBody b)))).
  { intros b. apply answers_respond. reflexivity. }
  destruct (String.eqb (httpMethod ev) "POST").
  { unfold Legacy.post. split.
    - match goal with
      | |- context [try_catch ?m ?h st] =>
          destruct (answers_try_catch refusal m h ltac:(repeat yields_step)
                      (Hcatch "Failed to create item") st)
            as (r & st' & H & Hr)
      end.
      rewrite H. eauto.
    - intros Hc. pose proof (put_keeps env Hf Hc) as K1.
      match goal with
      | |- context [try_catch ?m ?h st] =>
          assert (H : keeps (try_catch m h)) by (repeat keeps_step)
      end.
      exact (H st). }
  destruct (String.eqb (httpMethod ev) "GET").
  { unfold Legacy.get. split.
    - match goal with
      | |- context [try_catch ?m ?h st] =>
          destruct (answers_try_catch refusal m h ltac:(repeat yields_step)
                      (Hcatch "Failed to retrieve items") st)
            as (r & st' & H & Hr)
      end.
      rewrite H. eauto.
    - intros Hc. pose proof (scan_keeps env Hf Hc) as K2.
      match goal with
      | |- context [try_catch ?m ?h st] =>
          assert (H : keeps (try_catch m h)) by (repeat keeps_step)
      end.
      exact (H st). }
  destruct (String.eqb (httpMethod ev) "PUT").
  { unfold Legacy.put. fold catch_update. split.
    - match goal with
      | |- context [try_catch ?m catch_update st] =>
          destruct (answers_try_catch refusal m catch_update
                      ltac:(repeat yields_step)
                      (answers_catch_update refusal
                         (fun _ => eq_refl) (fun _ => eq_refl)) st)
            as (r & st' & H & Hr)
      end.
      rewrite H. eauto.
    - intros Hc. pose proof (update_keeps env Hf Hc) as K3.
      match goal with
      | |- context [try_catch ?m catch_update st] =>
          assert (H : keeps (try_catch m catch_update))
            by (repeat keeps_step)
      end.
      exact (H st). }
  destruct (String.eqb (httpMethod ev) "DELETE").
  { unfold Legacy.delete. split.
    - match goal with
      | |- context [try_catch ?m ?h st] =>
          destruct (answers_try_catch refusal m h ltac:(repeat yields_step)
                      (Hcatch "Failed to delete item") st)
            as (r & st' & H & Hr)
      end.
      rewrite H. eauto.
    - intros Hc. pose proof (delete_keeps env Hf Hc) as K4.
      match goal with
      | |- context [try_catch ?m ?h st] =>
          assert (H : keeps (try_catch m h)) by (repeat keeps_step)
      end.
      exact (H st). }
  split; [eexists; split; reflexivity | reflexivity].
Qed.

End LegacyFault.

Lemma legacy_backend_fault_changes_nothing_witness :
  (exists r,
     fst (Legacy.run throttled_env create_apple plain_table) = Ok r
     /\ StepFacts.refusal r = true)
  /\ table (snd (Legacy.run throttled_env create_apple plain_table))
     = plain_table.
Proof.
  destruct (legacy_backend_fault_changes_nothing throttled_env create_apple
              plain_table) as [Hr Ht].
  { intros req. discriminate. }
  split; [exact Hr|]. apply Ht.
  intros req failure [= <-]. reflexivity.
Defined.
